(** * Growth experiment co-pilot: the monitoring decision engine

    A shallow embedding of [orchestrator/worker_monitor.py] (class
    [MonitoringWorker]) together with the parts of
    [integrations/posthog.py], [integrations/slack.py],
    [memory/chroma_store.py] and [agents/supervisor.py] it calls, and the
    properties of the decision engine and of the monitoring loop.

    Conventions of the embedding.
    - Python [int] is [Z]; Python [float] is an IEEE-754 binary64 value,
      represented by [spec_float] with the operations of [SpecFloat] at
      precision 53 (round to nearest, ties to even), which is what CPython
      and numpy compute with.
    - Python [str] is [string]; text is ASCII, and the character classes
      of the patterns are those of ASCII text.
    - A Python exception of class [Exception] is a value of [exn]; a
      computation that can raise returns [result].
    - Effects (the random generator, the Chroma collection, the calls made
      to collaborators) are threaded through a [world]; a computation is a
      function [world -> result A * world].
    - Collaborators whose code is outside the repository (numpy's sampler,
      chromadb, autogen, aio_pika, Slack's HTTP API) are arguments of the
      model, so every statement holds for every behaviour they can show. *)

From Stdlib Require Import ZArith List Ascii String Bool Lia.
From Stdlib Require Import SpecFloat.
From stdpp Require Import base option list strings gmap pretty.

Local Open Scope string_scope.
Local Open Scope Z_scope.

(** ** Binary64 floating point *)

Module Float64.

Definition prec : Z := 53.
Definition emax : Z := 1024.

Abbreviation float := spec_float.

(** [float(z)] for a Python int, and the float held in a numpy array
    after an exact integer sum. *)
Definition of_Z (z : Z) : float := binary_normalize prec emax z 0 false.

Definition add : float -> float -> float := SFadd prec emax.
Definition sub : float -> float -> float := SFsub prec emax.
Definition mul : float -> float -> float := SFmul prec emax.
Definition div : float -> float -> float := SFdiv prec emax.
Definition sqrt : float -> float := SFsqrt prec emax.

(** Python's [x < y], [x <= y], [x > y], [x >= y] on floats; all four are
    false as soon as one side is NaN. *)
Definition ltb (x y : float) : bool := SFltb x y.
Definition leb (x y : float) : bool := SFleb x y.
Definition gtb (x y : float) : bool := SFltb y x.
Definition geb (x y : float) : bool := SFleb y x.

(** The binary64 value nearest to the rational [n / d]: the mantissas
    handed to the division are the exact integers, so the quotient is
    rounded once.  This is the value of a decimal literal such as [0.95]
    ([of_ratio 95 100]) and of [float("0.95")]. *)
Definition of_ratio (n : Z) (d : positive) : float :=
  match n with
  | Z0 => S754_zero false
  | Zpos p => div (S754_finite false p 0) (S754_finite false d 0)
  | Zneg p => div (S754_finite true p 0) (S754_finite false d 0)
  end.

Definition is_infinite (x : float) : bool :=
  match x with S754_infinity _ => true | _ => false end.

(** The literals of the source. *)
Definition c0_5 : float := Eval vm_compute in of_ratio 5 10.
Definition c0_05 : float := Eval vm_compute in of_ratio 5 100.
Definition c0_8 : float := Eval vm_compute in of_ratio 8 10.
Definition c0_9 : float := Eval vm_compute in of_ratio 9 10.
Definition c0_95 : float := Eval vm_compute in of_ratio 95 100.
Definition c1_1 : float := Eval vm_compute in of_ratio 11 10.
Definition c1_96 : float := Eval vm_compute in of_ratio 196 100.
Definition c0 : float := S754_zero false.
Definition c1 : float := Eval vm_compute in of_Z 1.

#[global] Instance float_eq_dec : EqDecision float.
Proof. solve_decision. Defined.

End Float64.

Import Float64.

(** ** Python values, exceptions and results *)

(** Scalars found in a JSON payload or in a specification dict. *)
Inductive atom : Type :=
  | ANone
  | AInt (z : Z)
  | AStr (s : string).

(** A value of a specification dict: a scalar, or a dict of scalars
    (the [primary_metric] descriptor). *)
Inductive pyval : Type :=
  | VAtom (a : atom)
  | VDict (d : gmap string atom).

(** What [analyze_experiment] receives as [spec]: the [metadata] of the
    first Chroma hit, a dict or [None]. *)
Inductive pyspec : Type :=
  | SpecNone
  | SpecDict (d : gmap string pyval).

#[global] Instance atom_eq_dec : EqDecision atom.
Proof. solve_decision. Defined.

(** [type(v).__name__], as it appears in error messages. *)
Definition atom_type_name (a : atom) : string :=
  match a with
  | ANone => "NoneType"
  | AInt _ => "int"
  | AStr _ => "str"
  end.

Definition type_name (v : pyval) : string :=
  match v with
  | VAtom a => atom_type_name a
  | VDict _ => "dict"
  end.

(** [str(a)], as an f-string renders a scalar. *)
Definition pystr (a : atom) : string :=
  match a with
  | ANone => "None"
  | AInt z => pretty z
  | AStr s => s
  end.

Record exn : Type := Exn { exn_class : string; exn_msg : string }.

(** [str(e)] for an exception raised with one message. *)
Definition str_exn (e : exn) : string := exn_msg e.

Inductive result (A : Type) : Type :=
  | Ok (a : A)
  | Raise (e : exn).
Arguments Ok {A} a.
Arguments Raise {A} e.

Definition TypeError (m : string) : exn := Exn "TypeError" m.
Definition AttributeError (m : string) : exn := Exn "AttributeError" m.
Definition ValueError (m : string) : exn := Exn "ValueError" m.
Definition IndexError (m : string) : exn := Exn "IndexError" m.
Definition OverflowError (m : string) : exn := Exn "OverflowError" m.
Definition ZeroDivisionError (m : string) : exn := Exn "ZeroDivisionError" m.
Definition MessageProcessError (m : string) : exn :=
  Exn "MessageProcessError" m.

Definition no_attribute_get (ty : string) : exn :=
  AttributeError ("'" ++ ty ++ "' object has no attribute 'get'").

(** [spec.get(k, default)]: [dict.get] on a dict, [AttributeError] on
    [None]. *)
Definition spec_get (spec : pyspec) (k : string) (dflt : pyval)
  : result pyval :=
  match spec with
  | SpecDict d => Ok (default dflt (d !! k))
  | SpecNone => Raise (no_attribute_get "NoneType")
  end.

(** ** Records exchanged by the worker *)

(** The dict returned by [analyze_experiment] and [use_ai_analyst]; the
    fields are its keys.  [prob_treatment_better] is present on the rate
    path only, [ai_override] on an advisory override only. *)
Record DecisionResult : Type := {
  decision : string;
  confidence : float;
  sample_size : Z;
  reason : string;
  prob_treatment_better : option float;
  ai_override : bool
}.

(** The [outcome] dict built by [handle_experiment_decision]. *)
Record Outcome : Type := {
  outcome_decision : string;
  outcome_confidence : float;
  final_sample_size : Z;
  outcome_reason : string;
  timestamp : float
}.

(** A call of [experiments_collection.add] by [store_experiment], kept as
    the arguments [store_experiment] received.  The document it adds
    renders the key, fields of the specification and, of the outcome, the
    decision, the confidence and the final sample size only: the
    outcome's reason and timestamp reach no stored text, and the
    [created_at] of the metadata is read from the wall clock at the
    call. *)
Record ChromaEntry : Type := {
  entry_key : atom;
  entry_spec : gmap string pyval;
  entry_outcome : option Outcome
}.

(** The values interpolated into the advisory prompt. *)
Record Prompt : Type := {
  prompt_experiment : atom;
  prompt_metric_name : atom;
  prompt_metric_type : atom;
  prompt_result : DecisionResult
}.

(** ** The world: effects of one worker process *)

Inductive event : Type :=
  | EvGetMetricCounts (experiment_key : atom)
  | EvRandomBeta (a b : Z) (size : Z)
  | EvAnalystChat (p : Prompt)
  | EvChromaQuery (query : atom) (n_results : Z)
  | EvChromaAdd (e : ChromaEntry)
  | EvSlackDecision (experiment_key : atom) (dec : string) (conf : float)
      (size : Z)
  | EvSleep (seconds : Z)
  | EvPublish (routing_key : string) (payload : gmap string atom)
  | EvAck
  | EvReject (requeue : bool).

(** [tape] is the sequence of values numpy's generator will produce in this
    run and [cursor] how many have been consumed; [collection] is the
    content of the Chroma [experiments] collection; [clock] is the event
    loop's time; [trace] lists the calls made so far, oldest first. *)
Record world : Type := {
  tape : nat -> float;
  cursor : nat;
  collection : list ChromaEntry;
  clock : float;
  trace : list event
}.

Definition M (A : Type) : Type := world -> result A * world.

#[global] Instance M_ret : MRet M := fun A (a : A) (w : world) => (Ok a, w).

#[global] Instance M_bind : MBind M :=
  fun A B (f : A -> M B) (m : M A) (w : world) =>
    match m w with
    | (Ok a, w') => f a w'
    | (Raise e, w') => (Raise e, w')
    end.

Definition raise {A : Type} (e : exn) : M A := fun w => (Raise e, w).

Definition lift {A : Type} (r : result A) : M A := fun w => (r, w).

(** [try: body / except Exception as e: handler e]. *)
Definition try_except {A : Type} (body : M A) (handler : exn -> M A) : M A :=
  fun w =>
    match body w with
    | (Ok a, w') => (Ok a, w')
    | (Raise e, w') => handler e w'
    end.

Definition emit (ev : event) : M unit :=
  fun w =>
    (Ok tt,
     {| tape := tape w; cursor := cursor w; collection := collection w;
        clock := clock w; trace := trace w ++ [ev] |}).

Definition advance (n : nat) : M unit :=
  fun w =>
    (Ok tt,
     {| tape := tape w; cursor := (cursor w + n)%nat;
        collection := collection w; clock := clock w; trace := trace w |}).

Definition persist (e : ChromaEntry) : M unit :=
  fun w =>
    (Ok tt,
     {| tape := tape w; cursor := cursor w;
        collection := collection w ++ [e]; clock := clock w;
        trace := trace w |}).

Definition get_world : M world := fun w => (Ok w, w).

(** ** numpy *)

Module np.

(** The Python ints that convert to a double: from [2^1024 - 2^970] on,
    the nearest double would be [2^1024] and the conversion raises
    [OverflowError]. *)
Definition double_limit : Z := 2 ^ 1024 - 2 ^ 970.

Definition fits_double (z : Z) : bool := Z.abs z <? double_limit.

(** [np.random.beta(a, b, size)] on ints.  Modelled from numpy's
    documented contract: the parameters are converted to doubles
    ([OverflowError] for an int that does not fit); [ValueError] unless
    [a > 0] and [b > 0], and for a negative [size]; otherwise an array of
    [size] draws, here the next [size] values of the run's tape.  The
    array is taken to fit in memory, as the 20000 draws the worker asks
    for do. *)
Definition random_beta (a b size : Z) : M (list float) :=
  _ ← emit (EvRandomBeta a b size);
  if negb (fits_double a && fits_double b)
  then raise (OverflowError "int too large to convert to float")
  else if a <=? 0 then raise (ValueError "a <= 0")
  else if b <=? 0 then raise (ValueError "b <= 0")
  else if size <? 0 then raise (ValueError "negative dimensions are not allowed")
  else
    w ← get_world;
    let n := Z.to_nat size in
    _ ← advance n;
    mret (map (tape w) (seq (cursor w) n)).

(** [(sb > sa)]: elementwise comparison of two arrays of one length. *)
Definition greater (sb sa : list float) : list bool :=
  zip_with gtb sb sa.

(** [x.mean()] of a boolean array: the number of [True], an exact float,
    divided by the length; NaN for an empty array. *)
Definition mean_bool (x : list bool) : float :=
  div (of_Z (Z.of_nat (count_occ bool_dec x true)))
      (of_Z (Z.of_nat (length x))).

End np.

(** ** Python arithmetic used by the worker *)

(** [a / b] on ints: the correctly rounded quotient, [ZeroDivisionError]
    for [b = 0], [OverflowError] when the quotient does not fit a float. *)
Definition py_truediv (a b : Z) : result float :=
  match b with
  | Z0 => Raise (ZeroDivisionError "division by zero")
  | Zpos q =>
      let r := of_ratio a q in
      if is_infinite r
      then Raise (OverflowError "integer division result too large for a float")
      else Ok r
  | Zneg q =>
      let r := match a with
               | Z0 => S754_zero true
               | _ => of_ratio (- a) q
               end in
      if is_infinite r
      then Raise (OverflowError "integer division result too large for a float")
      else Ok r
  end.

(** The right operand of [total_sample < min_sample], among the values of
    the model: an int compares; [None], a string and a dict make [<] raise
    [TypeError].  A float or a bool, which Python does compare with an
    int, is not among these values. *)
Definition int_operand_of_lt (v : pyval) : result Z :=
  match v with
  | VAtom (AInt m) => Ok m
  | _ =>
      Raise (TypeError
               ("'<' not supported between instances of 'int' and '"
                ++ type_name v ++ "'"))
  end.

(** [v.get(k, default)] on a value of the specification. *)
Definition val_get (v : pyval) (k : string) (dflt : atom) : result atom :=
  match v with
  | VDict d => Ok (default dflt (d !! k))
  | VAtom a => Raise (no_attribute_get (atom_type_name a))
  end.

(** ** integrations/posthog.py *)

(** The metrics source as the worker sees it: one method, which may
    raise. *)
Record MetricsClient : Type := {
  metric_counts : atom -> result (Z * Z * Z * Z)
}.

(** [PostHogClient.get_metric_counts]: the placeholder of the source,
    constant in the experiment key. *)
Definition PostHogClient : MetricsClient :=
  {| metric_counts := fun _ => Ok (480, 5000, 520, 5000) |}.

Definition get_metric_counts (c : MetricsClient) (experiment_key : atom)
  : M (Z * Z * Z * Z) :=
  _ ← emit (EvGetMetricCounts experiment_key);
  lift (metric_counts c experiment_key).

(** ** orchestrator/worker_monitor.py: the decision engine *)

Definition default_sims : Z := 20000.

(** The [try] block of [bayes_prob_better]. *)
Definition bayes_prob_better_body (suc_a tot_a suc_b tot_b sims : Z)
  : M float :=
  let a1 := suc_a + 1 in
  let b1 := (tot_a - suc_a) + 1 in
  let a2 := suc_b + 1 in
  let b2 := (tot_b - suc_b) + 1 in
  sa ← np.random_beta a1 b1 sims;
  sb ← np.random_beta a2 b2 sims;
  mret (np.mean_bool (np.greater sb sa)).

Definition bayes_prob_better (suc_a tot_a suc_b tot_b sims : Z) : M float :=
  try_except (bayes_prob_better_body suc_a tot_a suc_b tot_b sims)
             (fun _ => mret c0_5).

(** The dict returned by [msprt_test]. *)
Record TestResult : Type := {
  test_decision : string;
  test_confidence : float;
  test_reason : string
}.

Section Msprt.

(** [np.mean] and [np.std] of a list of floats; their summation order is
    numpy's, so they are taken as given. *)
Variable np_mean : list float -> float.
Variable np_std : list float -> float.

(** [effect_size] of [msprt_test]; numpy floats divide by zero without
    raising. *)
Definition effect_size (control_data treatment_data : list float) : float :=
  let control_mean := np_mean control_data in
  let treatment_mean := np_mean treatment_data in
  let control_se :=
    div (np_std control_data)
        (sqrt (of_Z (Z.of_nat (length control_data)))) in
  let treatment_se :=
    div (np_std treatment_data)
        (sqrt (of_Z (Z.of_nat (length treatment_data)))) in
  let pooled_se :=
    sqrt (add (mul control_se control_se) (mul treatment_se treatment_se)) in
  div (sub treatment_mean control_mean) pooled_se.

(** [msprt_test] on lists of floats, where nothing in its [try] block
    raises. *)
Definition msprt_test (control_data treatment_data : list float)
  : TestResult :=
  if ((length control_data <? 10)%nat || (length treatment_data <? 10)%nat)%bool
  then {| test_decision := "extend"; test_confidence := c0_5;
          test_reason := "insufficient_data" |}
  else
    let e := effect_size control_data treatment_data in
    let critical_value := c1_96 in
    if gtb e critical_value
    then {| test_decision := "ship_treatment"; test_confidence := c0_95;
            test_reason := "significant_positive" |}
    else if ltb e (SFopp critical_value)
    then {| test_decision := "ship_control"; test_confidence := c0_95;
            test_reason := "significant_negative" |}
    else {| test_decision := "extend"; test_confidence := c0_5;
            test_reason := "no_significant_difference" |}.

End Msprt.

(** The [try] block of [analyze_experiment]. *)
Definition analyze_experiment_body (posthog : MetricsClient)
    (experiment_key : atom) (spec : pyspec) : M DecisionResult :=
  '(suc_c, tot_c, suc_t, tot_t) ← get_metric_counts posthog experiment_key;
  let total_sample := tot_c + tot_t in
  min_sample_v ← lift (spec_get spec "min_sample_size" (VAtom (AInt 2000)));
  min_sample ← lift (int_operand_of_lt min_sample_v);
  if total_sample <? min_sample then
    mret {| decision := "extend"; confidence := c0_5;
            sample_size := total_sample;
            reason := "Insufficient sample size (" ++ pretty total_sample
                      ++ " < " ++ pretty min_sample ++ ")";
            prob_treatment_better := None; ai_override := false |}
  else
    primary_metric ← lift (spec_get spec "primary_metric" (VDict ∅));
    metric_type ← lift (val_get primary_metric "type" (AStr "rate"));
    if decide (metric_type = AStr "rate") then
      prob_better ← bayes_prob_better suc_c tot_c suc_t tot_t default_sims;
      let '(dec, conf, why) :=
        if geb prob_better c0_95
        then ("ship_treatment", prob_better,
              "Strong evidence treatment is better")
        else if leb prob_better c0_05
        then ("ship_control", sub c1 prob_better,
              "Strong evidence control is better")
        else ("extend", c0_5, "Inconclusive results") in
      mret {| decision := dec; confidence := conf;
              sample_size := total_sample; reason := why;
              prob_treatment_better := Some prob_better;
              ai_override := false |}
    else if decide (metric_type = AStr "mean") then
      control_rate ←
        (if 0 <? tot_c then lift (py_truediv suc_c tot_c) else mret c0);
      treatment_rate ←
        (if 0 <? tot_t then lift (py_truediv suc_t tot_t) else mret c0);
      if gtb treatment_rate (mul control_rate c1_1) then
        mret {| decision := "ship_treatment"; confidence := c0_9;
                sample_size := total_sample;
                reason := "Treatment shows improvement";
                prob_treatment_better := None; ai_override := false |}
      else if ltb treatment_rate (mul control_rate c0_9) then
        mret {| decision := "ship_control"; confidence := c0_9;
                sample_size := total_sample;
                reason := "Treatment shows degradation";
                prob_treatment_better := None; ai_override := false |}
      else
        mret {| decision := "extend"; confidence := c0_5;
                sample_size := total_sample;
                reason := "No clear difference";
                prob_treatment_better := None; ai_override := false |}
    else
      mret {| decision := "extend"; confidence := c0_5;
              sample_size := total_sample;
              reason := "Unknown metric type: " ++ pystr metric_type;
              prob_treatment_better := None; ai_override := false |}.

Definition analysis_error (e : exn) : DecisionResult :=
  {| decision := "extend"; confidence := c0_5; sample_size := 0;
     reason := "Analysis error: " ++ str_exn e;
     prob_treatment_better := None; ai_override := false |}.

Definition analyze_experiment (posthog : MetricsClient)
    (experiment_key : atom) (spec : pyspec) : M DecisionResult :=
  try_except (analyze_experiment_body posthog experiment_key spec)
             (fun e => mret (analysis_error e)).

(** ** The three patterns of [use_ai_analyst]

    [re.search] with [re.IGNORECASE] on ASCII text, for patterns of the
    shape [LITERAL:\s*(class+)].  A search tries every start position from
    the left and returns group 1 of the first match. *)

Module re.

Definition code (c : ascii) : nat := nat_of_ascii c.

Definition in_range (lo hi : nat) (c : ascii) : bool :=
  ((lo <=? code c)%nat && (code c <=? hi)%nat)%bool.

(** [\s]: tab, LF, VT, FF, CR, the separators 28 to 31, and space. *)
Definition is_space (c : ascii) : bool :=
  (in_range 9 13 c || in_range 28 32 c)%bool.

(** [\d]. *)
Definition is_digit (c : ascii) : bool := in_range 48 57 c.

Definition is_upper (c : ascii) : bool := in_range 65 90 c.
Definition is_lower (c : ascii) : bool := in_range 97 122 c.

(** [\w]: letters, digits and the underscore. *)
Definition is_word (c : ascii) : bool :=
  (is_upper c || is_lower c || is_digit c || (code c =? 95)%nat)%bool.

(** [[\d.]]. *)
Definition is_digit_or_dot (c : ascii) : bool :=
  (is_digit c || (code c =? 46)%nat)%bool.

(** [.] without [re.DOTALL]: anything but a line feed. *)
Definition is_not_newline (c : ascii) : bool := negb (code c =? 10)%nat.

Definition lower_char (c : ascii) : ascii :=
  if is_upper c then ascii_of_nat (code c + 32) else c.

(** [s.lower()]. *)
Fixpoint lower (s : string) : string :=
  match s with
  | EmptyString => EmptyString
  | String c s' => String (lower_char c) (lower s')
  end.

(** The longest prefix of [s] whose characters satisfy [p], and what
    follows it. *)
Fixpoint span (p : ascii -> bool) (s : string) : string * string :=
  match s with
  | EmptyString => (EmptyString, EmptyString)
  | String c s' =>
      if p c
      then let '(a, b) := span p s' in (String c a, b)
      else (EmptyString, s)
  end.

(** [s] without the literal [lit] at its head, compared without case. *)
Fixpoint strip_literal (lit s : string) : option string :=
  match lit, s with
  | EmptyString, _ => Some s
  | String _ _, EmptyString => None
  | String a lit', String c s' =>
      if decide (lower_char a = lower_char c)
      then strip_literal lit' s'
      else None
  end.

(** [LITERAL\s*(class+)] matched at the head of [s]: the class and [\s]
    are disjoint, so the greedy [\s*] never has to give a character
    back. *)
Definition match_token (lit : string) (cls : ascii -> bool) (s : string)
  : option string :=
  match strip_literal lit s with
  | None => None
  | Some rest =>
      let '(_, after_ws) := span is_space rest in
      let '(group, _) := span cls after_ws in
      match group with
      | EmptyString => None
      | _ => Some group
      end
  end.

(** The last character of [ws] that is not a line feed, as a one-character
    string. *)
Fixpoint last_not_newline (ws : string) : option string :=
  match ws with
  | EmptyString => None
  | String c ws' =>
      match last_not_newline ws' with
      | Some g => Some g
      | None =>
          if is_not_newline c then Some (String c EmptyString) else None
      end
  end.

(** [LITERAL\s*(.+)] matched at the head of [s].  When the text ends after
    the white space, [\s*] backtracks until [.] can take a white space
    that is not a line feed. *)
Definition match_rest_of_line (lit : string) (s : string) : option string :=
  match strip_literal lit s with
  | None => None
  | Some rest =>
      let '(ws, after_ws) := span is_space rest in
      match after_ws with
      | EmptyString => last_not_newline ws
      | _ => Some (fst (span is_not_newline after_ws))
      end
  end.

(** Leftmost match: try [m] at every suffix of [s], the empty one
    included. *)
Fixpoint search (m : string -> option string) (s : string) : option string :=
  match m s with
  | Some g => Some g
  | None =>
      match s with
      | EmptyString => None
      | String _ s' => search m s'
      end
  end.

(** [re.search(r"DECISION:\s*(\w+)", s, re.IGNORECASE)], group 1. *)
Definition search_decision (s : string) : option string :=
  search (match_token "DECISION:" is_word) s.

(** [re.search(r"CONFIDENCE:\s*([\d.]+)", s, re.IGNORECASE)], group 1. *)
Definition search_confidence (s : string) : option string :=
  search (match_token "CONFIDENCE:" is_digit_or_dot) s.

(** [re.search(r"RATIONALE:\s*(.+)", s, re.IGNORECASE)], group 1. *)
Definition search_rationale (s : string) : option string :=
  search (match_rest_of_line "RATIONALE:") s.

End re.

(** ** [float(s)] on a string of digits and dots *)

Fixpoint digits_value (acc : Z) (s : string) : Z :=
  match s with
  | EmptyString => acc
  | String c s' => digits_value (10 * acc + (Z.of_nat (re.code c) - 48)) s'
  end.

Fixpoint pow10 (n : nat) : positive :=
  match n with
  | O => 1%positive
  | S n' => (10 * pow10 n')%positive
  end.

(** [float(s)] for [s] made of digits and dots, as group 1 of the
    confidence pattern is: the nearest float to the decimal it writes, and
    [ValueError] unless it holds one dot at most and one digit at least. *)
Definition float_of_string (s : string) : result float :=
  let bad := Raise (ValueError
                      ("could not convert string to float: '" ++ s ++ "'")) in
  let '(int_part, rest) := re.span re.is_digit s in
  match rest with
  | EmptyString =>
      match int_part with
      | EmptyString => bad
      | _ => Ok (of_ratio (digits_value 0 int_part) 1)
      end
  | String c frac_and_more =>
      let '(frac, more) := re.span re.is_digit frac_and_more in
      match more, (int_part ++ frac) with
      | EmptyString, String _ _ =>
          if (re.code c =? 46)%nat
          then Ok (of_ratio (digits_value 0 (int_part ++ frac))
                            (pow10 (String.length frac)))
          else bad
      | _, _ => bad
      end
  end.

(** ** The advisory reviewer *)

(** A message as autogen keeps it in a conversation: the dict
    [{"content": ..., "role": ..., "name": ...}]. *)
Record ChatMessage : Type := {
  message_content : string;
  message_role : string;
  message_name : string
}.

(** An element of [chat_history]: a string, or a message dict as autogen
    keeps them, on which [re.search] raises [TypeError]. *)
Inductive chat_message : Type :=
  | MsgText (s : string)
  | MsgDict (m : ChatMessage).

(** What [a_initiate_chat] returns: [chat_history] is [None] when the
    object has no such attribute. *)
Record ChatResult : Type := {
  chat_history : option (list chat_message)
}.

(** The reviewer as [use_ai_analyst] sees it, whatever objects it is
    handed: [create_monitoring_chat()] may raise, and so may the chat.
    The reviewer the repository builds is [supervisor.create_monitoring_chat]
    below. *)
Record AdvisoryReviewer : Type := {
  create_monitoring_chat_error : option exn;
  a_initiate_chat : Prompt -> result ChatResult
}.

Definition create_monitoring_chat (r : AdvisoryReviewer) : M unit :=
  match create_monitoring_chat_error r with
  | Some e => raise e
  | None => mret tt
  end.

Definition initiate_chat (r : AdvisoryReviewer) (p : Prompt) : M ChatResult :=
  _ ← emit (EvAnalystChat p);
  lift (a_initiate_chat r p).

(** [result.chat_history[-1] if hasattr(result, 'chat_history') else ""]. *)
Definition last_message (r : ChatResult) : result chat_message :=
  match chat_history r with
  | None => Ok (MsgText "")
  | Some h =>
      match last h with
      | Some m => Ok m
      | None => Raise (IndexError "list index out of range")
      end
  end.

(** The argument of the three [re.search] calls. *)
Definition text_of_message (m : chat_message) : result string :=
  match m with
  | MsgText s => Ok s
  | MsgDict _ => Raise (TypeError "expected string or bytes-like object")
  end.

(** The f-string of [use_ai_analyst], up to its rendering. *)
Definition build_prompt (experiment_key : atom) (spec : pyspec)
    (analysis_result : DecisionResult) : result Prompt :=
  match spec_get spec "primary_metric" (VDict ∅) with
  | Raise e => Raise e
  | Ok pm =>
      match val_get pm "name" (AStr "N/A"), val_get pm "type" (AStr "N/A") with
      | Ok name, Ok ty =>
          Ok {| prompt_experiment := experiment_key;
                prompt_metric_name := name;
                prompt_metric_type := ty;
                prompt_result := analysis_result |}
      | Raise e, _ => Raise e
      | _, Raise e => Raise e
      end
  end.

(** The advisory confidence: the number after [CONFIDENCE:], or [0.8] when
    the reply has no such token. *)
Definition ai_confidence_of (confidence_match : option string)
  : result float :=
  match confidence_match with
  | Some g => float_of_string g
  | None => Ok c0_8
  end.

(** The dict returned on an override. *)
Definition ai_override_result (ai_decision : string) (ai_confidence : float)
    (ai_rationale : string) (analysis_result : DecisionResult)
  : DecisionResult :=
  {| decision := ai_decision;
     confidence := ai_confidence;
     sample_size := sample_size analysis_result;
     reason := "AI override: " ++ ai_rationale;
     prob_treatment_better := None;
     ai_override := true |}.

(** What follows the chat in the [try] block: parse the reply and decide
    on the override. *)
Definition review_reply (ai_response : string)
    (analysis_result : DecisionResult) : result DecisionResult :=
  let decision_match := re.search_decision ai_response in
  let confidence_match := re.search_confidence ai_response in
  let rationale_match := re.search_rationale ai_response in
  match decision_match with
  | Some g =>
      let ai_decision := re.lower g in
      match ai_confidence_of confidence_match with
      | Raise e => Raise e
      | Ok ai_confidence =>
          let ai_rationale := default "AI analysis" rationale_match in
          if gtb ai_confidence (confidence analysis_result)
          then Ok (ai_override_result ai_decision ai_confidence ai_rationale
                                      analysis_result)
          else Ok analysis_result
      end
  | None => Ok analysis_result
  end.

(** The [try] block of [use_ai_analyst]. *)
Definition use_ai_analyst_body (reviewer : AdvisoryReviewer)
    (experiment_key : atom) (spec : pyspec)
    (analysis_result : DecisionResult) : M DecisionResult :=
  _ ← create_monitoring_chat reviewer;
  prompt ← lift (build_prompt experiment_key spec analysis_result);
  result ← initiate_chat reviewer prompt;
  msg ← lift (last_message result);
  ai_response ← lift (text_of_message msg);
  lift (review_reply ai_response analysis_result).

Definition use_ai_analyst (reviewer : AdvisoryReviewer)
    (experiment_key : atom) (spec : pyspec)
    (analysis_result : DecisionResult) : M DecisionResult :=
  try_except
    (use_ai_analyst_body reviewer experiment_key spec analysis_result)
    (fun _ => mret analysis_result).

(** ** agents/supervisor.py, over autogen *)

(** autogen at the calls of [agents/supervisor.py]: reading a prompt file,
    constructing an agent from its name and system message, constructing
    the group chat of the named agents with its [max_round], constructing
    the manager; and at the call of [use_ai_analyst]: the chat the analyst
    starts with the manager.  The chat returns a [ChatResult] whose
    [chat_history] is the list of the conversation's message dicts, or, in
    the releases whose [a_initiate_chat] returns nothing, an object
    without [chat_history] ([None] here). *)
Record Autogen : Type := {
  read_file : string -> result string;
  AssistantAgent : string -> string -> option exn;
  GroupChat : list string -> Z -> option exn;
  GroupChatManager : option exn;
  analyst_chat : Prompt -> result (option (list ChatMessage))
}.

Module supervisor.

(** [load_prompt]: the text of [prompts/<filename>], the empty string when
    the file is not found; any other error of [open] or [read] goes on. *)
Definition load_prompt (autogen : Autogen) (filename : string)
  : result string :=
  match read_file autogen ("prompts/" ++ filename) with
  | Ok text => Ok text
  | Raise e =>
      if decide (exn_class e = "FileNotFoundError") then Ok "" else Raise e
  end.

(** One [AssistantAgent(name=..., system_message=load_prompt(...), ...)]. *)
Definition create_agent (autogen : Autogen) (name filename : string)
  : option exn :=
  match load_prompt autogen filename with
  | Raise e => Some e
  | Ok system_message => AssistantAgent autogen name system_message
  end.

(** The first statement that raises, in program order. *)
Fixpoint first_error (steps : list (option exn)) : option exn :=
  match steps with
  | [] => None
  | Some e :: _ => Some e
  | None :: rest => first_error rest
  end.

Definition create_agents (autogen : Autogen) : option exn :=
  first_error [create_agent autogen "Supervisor" "supervisor.md";
               create_agent autogen "Designer" "designer.md";
               create_agent autogen "Policy" "policy.md";
               create_agent autogen "Implementer" "implementer.md";
               create_agent autogen "Analyst" "analyst.md"].

(** [create_monitoring_chat()] and the pair [(manager, analyst)] it
    returns, as [use_ai_analyst] goes on to use them: the reviewer whose
    chat is the analyst's chat with the manager. *)
Definition create_monitoring_chat (autogen : Autogen) : AdvisoryReviewer :=
  {| create_monitoring_chat_error :=
       first_error [create_agents autogen;
                    GroupChat autogen ["Supervisor"; "Analyst"] 3;
                    GroupChatManager autogen];
     a_initiate_chat :=
       fun prompt =>
         match analyst_chat autogen prompt with
         | Ok history =>
             Ok {| chat_history := option_map (map MsgDict) history |}
         | Raise e => Raise e
         end |}.

End supervisor.

(** ** memory/chroma_store.py *)

(** What [experiments_collection.query] returns; a missing list ([None])
    and an empty one are both falsy and are both written [[]]. *)
Record QueryResult : Type := {
  documents : list (list string);
  metadatas : list (list pyspec);
  distances : list (list float)
}.

(** The chromadb collection: the answer to a query is a function of the
    stored entries, of the query text and of [n_results], and [add] may
    raise. *)
Record ChromaCollection : Type := {
  query : list ChromaEntry -> atom -> Z -> result QueryResult;
  add_error : list ChromaEntry -> ChromaEntry -> option exn
}.

(** An element of the list returned by [retrieve_similar_experiments]. *)
Record Similar : Type := {
  content : string;
  metadata : pyspec;
  distance : float
}.

(** [xs[0][i] if xs else dflt]. *)
Definition first_row_at {A : Type} (xs : list (list A)) (i : nat) (dflt : A)
  : result A :=
  match xs with
  | [] => Ok dflt
  | row :: _ =>
      match row !! i with
      | Some x => Ok x
      | None => Raise (IndexError "list index out of range")
      end
  end.

(** The loop over [enumerate(results['documents'][0])], from index [i]. *)
Fixpoint collect_similar (results : QueryResult) (i : nat)
    (docs : list string) : result (list Similar) :=
  match docs with
  | [] => Ok []
  | doc :: docs' =>
      match first_row_at (metadatas results) i (SpecDict ∅),
            first_row_at (distances results) i c0 with
      | Ok m, Ok d =>
          match collect_similar results (S i) docs' with
          | Ok rest =>
              Ok ({| content := doc; metadata := m; distance := d |} :: rest)
          | Raise e => Raise e
          end
      | Raise e, _ => Raise e
      | _, Raise e => Raise e
      end
  end.

Definition retrieve_similar_experiments (c : ChromaCollection)
    (q : atom) (n_results : Z) : M (list Similar) :=
  try_except
    (_ ← emit (EvChromaQuery q n_results);
     w ← get_world;
     results ← lift (query c (collection w) q n_results);
     match documents results with
     | [] => mret []
     | docs :: _ => lift (collect_similar results 0 docs)
     end)
    (fun _ => mret []).

(** What can raise while [store_experiment] renders its document:
    [.get] on a [primary_metric] that is no dict, and [', '.join] on
    [variants] that cannot be iterated. *)
Definition render_error (spec : gmap string pyval) : option exn :=
  match default (VDict ∅) (spec !! "primary_metric") with
  | VAtom a => Some (no_attribute_get (atom_type_name a))
  | VDict _ =>
      match spec !! "variants" with
      | Some (VAtom ANone) | Some (VAtom (AInt _)) =>
          Some (TypeError "can only join an iterable")
      | _ => None
      end
  end.

Definition store_experiment (c : ChromaCollection) (experiment_key : atom)
    (spec : gmap string pyval) (outcome : option Outcome) : M unit :=
  try_except
    (_ ← match render_error spec with
         | Some e => raise e
         | None => mret tt
         end;
     let entry := {| entry_key := experiment_key; entry_spec := spec;
                     entry_outcome := outcome |} in
     _ ← emit (EvChromaAdd entry);
     w ← get_world;
     match add_error c (collection w) entry with
     | Some e => raise e
     | None => persist entry
     end)
    (fun _ => mret tt).

(** ** integrations/slack.py, at its interface *)

(** [SlackClient.post_experiment_decision] renders a message and posts it
    over HTTP; the model records the call and takes its outcome as
    given. *)
Record SlackClient : Type := {
  post_decision_outcome : atom -> string -> float -> Z -> result bool
}.

Definition post_experiment_decision (s : SlackClient) (experiment_key : atom)
    (dec : string) (conf : float) (size : Z) : M bool :=
  _ ← emit (EvSlackDecision experiment_key dec conf size);
  lift (post_decision_outcome s experiment_key dec conf size).

(** ** orchestrator/worker_monitor.py: the monitoring loop *)

(** The attributes of a [MonitoringWorker]. *)
Record MonitoringWorker : Type := {
  posthog : MetricsClient;
  slack : SlackClient;
  github_repo : bool;
  memory : ChromaCollection;
  analyst : AdvisoryReviewer;
  monitoring_interval : Z
}.

(** [MonitoringWorker.__init__]; the clients it builds are arguments
    here. *)
Definition new_MonitoringWorker (ph : MetricsClient) (sl : SlackClient)
    (gh : bool) (mem : ChromaCollection) (an : AdvisoryReviewer)
  : MonitoringWorker :=
  {| posthog := ph; slack := sl; github_repo := gh; memory := mem;
     analyst := an; monitoring_interval := 600 |}.

Definition handle_experiment_decision (self : MonitoringWorker)
    (experiment_key : atom) (dec : string) (conf : float) (size : Z)
    (why : string) : M unit :=
  try_except
    (w ← get_world;
     let outcome := {| outcome_decision := dec; outcome_confidence := conf;
                       final_sample_size := size; outcome_reason := why;
                       timestamp := clock w |} in
     similar_experiments ←
       retrieve_similar_experiments (memory self) experiment_key 5;
     _ ← match similar_experiments with
         | [] => mret tt
         | _ :: _ =>
             store_experiment (memory self) experiment_key ∅ (Some outcome)
         end;
     _ ← post_experiment_decision (slack self) experiment_key dec conf size;
     (* [if self.github.repo:] only renders a comment and logs *)
     mret tt)
    (fun _ => mret tt).

(** ** aio_pika, at the calls of the handler *)

(** An exchange: what its [publish] answers for a routing key and a
    payload. *)
Record Exchange : Type := {
  publish_error : string -> gmap string atom -> option exn
}.

(** The incoming queue message as the handler uses it: its decoded JSON
    body ([json.loads] may raise); the attributes
    [msg.channel.default_exchange] and [msg.reply], absent where looking
    them up raises [AttributeError]; what the broker answers to an
    acknowledgement and to a rejection; and whether the channel is closed.
    aio_pika's [IncomingMessage] has neither attribute: its [channel] is
    the underlying aiormq channel, which has no [default_exchange], and the
    class has no method [reply]. *)
Record IncomingMessage : Type := {
  body : result pyval;
  default_exchange : option Exchange;
  has_reply : bool;
  ack_error : option exn;
  reject_error : option exn;
  channel_is_closed : bool
}.

Definition asyncio_sleep (seconds : Z) : M unit := emit (EvSleep seconds).

(** [msg.ack()] on a message whose [processed] flag is [processed]: a
    processed message raises [MessageProcessError] before anything is
    sent. *)
Definition ack (msg : IncomingMessage) (processed : bool) : M unit :=
  if processed then raise (MessageProcessError "Message already processed")
  else
    _ ← emit EvAck;
    match ack_error msg with
    | Some e => raise e
    | None => mret tt
    end.

(** [msg.reject(requeue)], likewise.  The flag is set when the call
    returns. *)
Definition reject (msg : IncomingMessage) (processed : bool)
    (requeue : bool) : M unit :=
  if processed then raise (MessageProcessError "Message already processed")
  else
    _ ← emit (EvReject requeue);
    match reject_error msg with
    | Some e => raise e
    | None => mret tt
    end.

(** [msg.channel.default_exchange.publish(msg.reply(...), routing_key=...)]:
    Python looks up the callee, then evaluates the argument, then calls. *)
Definition publish (msg : IncomingMessage) (routing_key : string)
    (payload : gmap string atom) : M unit :=
  match default_exchange msg with
  | None =>
      raise (AttributeError
               "'Channel' object has no attribute 'default_exchange'")
  | Some exchange =>
      if has_reply msg then
        _ ← emit (EvPublish routing_key payload);
        match publish_error exchange routing_key payload with
        | Some e => raise e
        | None => mret tt
        end
      else
        raise (AttributeError
                 "'IncomingMessage' object has no attribute 'reply'")
  end.

(** The [try] block of [on_monitor_experiment]. *)
Definition on_monitor_experiment_body (self : MonitoringWorker)
    (msg : IncomingMessage) : M unit :=
  payload ← lift (body msg);
  experiment_key ← lift (val_get payload "experiment_key" ANone);
  similar_experiments ←
    retrieve_similar_experiments (memory self) experiment_key 5;
  match similar_experiments with
  | [] => mret tt
  | experiment_data :: _ =>
      let spec := metadata experiment_data in
      analysis_result ←
        analyze_experiment (posthog self) experiment_key spec;
      final_result ←
        use_ai_analyst (analyst self) experiment_key spec analysis_result;
      _ ← handle_experiment_decision self experiment_key
            (decision final_result) (confidence final_result)
            (sample_size final_result) (reason final_result);
      if decide (decision final_result = "extend") then
        _ ← asyncio_sleep (monitoring_interval self);
        let extend_payload : gmap string atom :=
          {[ "experiment_key" := experiment_key;
             "status" := AStr "continue_monitoring" ]} in
        publish msg "exp.monitor" extend_payload
      else mret tt
  end.

(** The [try] statement inside the [async with]: the block, and the
    handler that rejects the message without requeue.  It returns the
    message's [processed] flag, which only the handler's rejection sets. *)
Definition on_monitor_experiment_try (self : MonitoringWorker)
    (msg : IncomingMessage) : M bool :=
  try_except (_ ← on_monitor_experiment_body self msg; mret false)
             (fun _ => _ ← reject msg false false; mret true).

(** Leaving [async with msg.process()], with the arguments the handler
    leaves at their defaults ([requeue=False], [ignore_processed=False]):
    a block that ends normally is acknowledged, whether or not the message
    has been processed already; a block that raises (here: the handler's
    own rejection raised, so the flag is unset) is rejected without
    requeue unless the channel is closed, and its exception goes on. *)
Definition process_exit (msg : IncomingMessage) (outcome : result bool)
  : M unit :=
  match outcome with
  | Ok processed => ack msg processed
  | Raise e =>
      _ ← (if channel_is_closed msg then mret tt else reject msg false false);
      raise e
  end.

Definition on_monitor_experiment (self : MonitoringWorker)
    (msg : IncomingMessage) : M unit :=
  fun w =>
    let (outcome, w') := on_monitor_experiment_try self msg w in
    process_exit msg outcome w'.

(** ** Reading a run *)

(** [w] after the calls [evs] have been recorded. *)
Definition after_events (w : world) (evs : list event) : world :=
  {| tape := tape w; cursor := cursor w; collection := collection w;
     clock := clock w; trace := trace w ++ evs |}.

(** The draws [np.random.beta] hands out when it succeeds from [w]. *)
Definition draws (w : world) (n : nat) : list float :=
  map (tape w) (seq (cursor w) n).

(** The decision rule of the rate branch, on the probability [p]. *)
Definition rate_result (total_sample : Z) (p : float) : DecisionResult :=
  if geb p c0_95
  then {| decision := "ship_treatment"; confidence := p;
          sample_size := total_sample;
          reason := "Strong evidence treatment is better";
          prob_treatment_better := Some p; ai_override := false |}
  else if leb p c0_05
  then {| decision := "ship_control"; confidence := sub c1 p;
          sample_size := total_sample;
          reason := "Strong evidence control is better";
          prob_treatment_better := Some p; ai_override := false |}
  else {| decision := "extend"; confidence := c0_5;
          sample_size := total_sample;
          reason := "Inconclusive results";
          prob_treatment_better := Some p; ai_override := false |}.

(** [control_rate] and [treatment_rate] of the mean branch:
    [suc / tot if tot > 0 else 0]. *)
Definition rate_or_zero (suc tot : Z) : result float :=
  if 0 <? tot then py_truediv suc tot else Ok c0.

(** The outcomes the sequential z-style test of [msprt_test] can have:
    [extend] at 0.5, or a shipping decision at 0.95. *)
Definition z_test_outcome (r : DecisionResult) : Prop :=
  (decision r = "extend" /\ confidence r = c0_5) \/
  (decision r = "ship_treatment" /\ confidence r = c0_95) \/
  (decision r = "ship_control" /\ confidence r = c0_95).

(** The text handed to the three [re.search] calls, when every step before
    them succeeds: the chat is created, the prompt is rendered, the chat
    returns, and its last message is a string. *)
Definition advisory_reply (reviewer : AdvisoryReviewer)
    (experiment_key : atom) (spec : pyspec)
    (analysis_result : DecisionResult) : option string :=
  match create_monitoring_chat_error reviewer with
  | Some _ => None
  | None =>
      match build_prompt experiment_key spec analysis_result with
      | Raise _ => None
      | Ok p =>
          match a_initiate_chat reviewer p with
          | Raise _ => None
          | Ok cr =>
              match last_message cr with
              | Raise _ => None
              | Ok m =>
                  match text_of_message m with
                  | Raise _ => None
                  | Ok txt => Some txt
                  end
              end
          end
      end
  end.

(** The probability [bayes_prob_better] returns from [w] with [sims]
    draws per arm, when both samplings succeed: the first [sims] values of
    the tape after the cursor are the control draws, the next [sims] the
    treatment draws. *)
Definition posterior_estimate (w : world) (sims : Z) : float :=
  let n := Z.to_nat sims in
  np.mean_bool
    (np.greater (map (tape w) (seq (cursor w + n) n))
                (map (tape w) (seq (cursor w) n))).

(** What [retrieve_similar_experiments] returns for the stored [entries]:
    the hits of the first result row, or nothing when the query or the
    indexing raises. *)
Definition similar_of (c : ChromaCollection) (entries : list ChromaEntry)
    (q : atom) (n_results : Z) : list Similar :=
  match query c entries q n_results with
  | Raise _ => []
  | Ok results =>
      match documents results with
      | [] => []
      | docs :: _ =>
          match collect_similar results 0 docs with
          | Ok l => l
          | Raise _ => []
          end
      end
  end.

(** The entry [handle_experiment_decision] stores for the effective result
    [f] at loop time [t]. *)
Definition outcome_entry (experiment_key : atom) (f : DecisionResult)
    (t : float) : ChromaEntry :=
  {| entry_key := experiment_key;
     entry_spec := ∅;
     entry_outcome :=
       Some {| outcome_decision := decision f;
               outcome_confidence := confidence f;
               final_sample_size := sample_size f;
               outcome_reason := reason f;
               timestamp := t |} |}.

(** What the collection gains when [entry] is added: nothing if [add]
    raises. *)
Definition stored_by (c : ChromaCollection) (entries : list ChromaEntry)
    (entry : ChromaEntry) : list ChromaEntry :=
  match add_error c entries entry with
  | None => [entry]
  | Some _ => []
  end.

(** The body of the continuation message. *)
Definition continuation_payload (experiment_key : atom) : gmap string atom :=
  {[ "experiment_key" := experiment_key;
     "status" := AStr "continue_monitoring" ]}.

(** Whether a step raised. *)
Definition raised {A : Type} (r : result A) : bool :=
  match r with
  | Raise _ => true
  | Ok _ => false
  end.

(** What evaluating the publish expression returns and records: nothing
    is sent unless the message offers both attributes. *)
Definition publish_result (msg : IncomingMessage) (routing_key : string)
    (payload : gmap string atom) : result unit :=
  match default_exchange msg with
  | None =>
      Raise (AttributeError
               "'Channel' object has no attribute 'default_exchange'")
  | Some exchange =>
      if has_reply msg then
        match publish_error exchange routing_key payload with
        | Some e => Raise e
        | None => Ok tt
        end
      else
        Raise (AttributeError
                 "'IncomingMessage' object has no attribute 'reply'")
  end.

Definition publish_events (msg : IncomingMessage) (routing_key : string)
    (payload : gmap string atom) : list event :=
  match default_exchange msg with
  | None => []
  | Some _ => if has_reply msg then [EvPublish routing_key payload] else []
  end.

(** How a tick ends once its [try] block is over, [block_raised] telling
    whether the block raised.  A block that ends normally is acknowledged.
    A block that raised is rejected by the handler; when the broker takes
    the rejection, the exit of [async with] then acknowledges a processed
    message, which raises [MessageProcessError]; when the rejection itself
    raises, the exit rejects once more on an open channel and the error
    goes on. *)
Definition settlement_events (msg : IncomingMessage) (block_raised : bool)
  : list event :=
  if block_raised then
    match reject_error msg with
    | None => [EvReject false]
    | Some _ =>
        if channel_is_closed msg then [EvReject false]
        else [EvReject false; EvReject false]
    end
  else [EvAck].

Definition settlement_result (msg : IncomingMessage) (block_raised : bool)
  : result unit :=
  if block_raised then
    match reject_error msg with
    | None => Raise (MessageProcessError "Message already processed")
    | Some e => Raise e
    end
  else
    match ack_error msg with
    | Some e => Raise e
    | None => Ok tt
    end.

(** The terminal decisions. *)
Definition terminal (d : string) : Prop :=
  d = "ship_treatment" \/ d = "ship_control" \/ d = "stop".

(** A computation that leaves the collection and the clock as they are. *)
Definition keeps_store {A : Type} (m : M A) : Prop :=
  forall w r w', m w = (r, w') ->
    collection w' = collection w /\ clock w' = clock w.

(** ** Inputs of the examples *)

(** A metrics source that answers every key with the same counts. *)
Definition fixed_counts (suc_c tot_c suc_t tot_t : Z) : MetricsClient :=
  {| metric_counts := fun _ => Ok (suc_c, tot_c, suc_t, tot_t) |}.

(** [{"primary_metric": {"type": "mean"}}]. *)
Definition mean_spec : pyspec :=
  SpecDict {[ "primary_metric" := VDict {[ "type" := AStr "mean" ]} ]}.

(** [{"min_sample_size": 2000}]. *)
Definition spec_min_2000 : pyspec :=
  SpecDict {[ "min_sample_size" := VAtom (AInt 2000) ]}.

(** [{"min_sample_size": None}]. *)
Definition spec_min_none : pyspec :=
  SpecDict {[ "min_sample_size" := VAtom ANone ]}.

(** A fresh process: no draw consumed, an empty collection, no call made
    yet. *)
Definition fresh_world (t : nat -> float) : world :=
  {| tape := t; cursor := 0%nat; collection := []; clock := c0;
     trace := [] |}.

Definition checkout_key : atom := AStr "checkout_button_color".

(** A reviewer whose chat always ends with the message [txt]. *)
Definition replying (txt : string) : AdvisoryReviewer :=
  {| create_monitoring_chat_error := None;
     a_initiate_chat :=
       fun _ => Ok {| chat_history := Some [MsgText txt] |} |}.

(** An autogen installation without prompt files, whose agents are
    constructed without error and whose analyst chat ends with the message
    "DECISION: stop CONFIDENCE: 0.99". *)
Definition autogen_stop : Autogen :=
  {| read_file :=
       fun _ => Raise (Exn "FileNotFoundError" "No such file or directory");
     AssistantAgent := fun _ _ => None;
     GroupChat := fun _ _ => None;
     GroupChatManager := None;
     analyst_chat :=
       fun _ =>
         Ok (Some [{| message_content := "DECISION: stop CONFIDENCE: 0.99";
                      message_role := "user";
                      message_name := "Analyst" |}]) |}.

(** The result of a tick below the gate: [extend] at 0.5. *)
Definition extend_result : DecisionResult :=
  {| decision := "extend"; confidence := c0_5; sample_size := 100;
     reason := "Insufficient sample size (100 < 2000)";
     prob_treatment_better := None; ai_override := false |}.

(** A run of the sampler for scenario 1: every control draw is 0.1, the
    first 18000 treatment draws are 0.104 and the last 2000 are 0.099. *)
Definition tape_18000 (i : nat) : float :=
  if Z.of_nat i <? 20000 then of_ratio 1 10
  else if Z.of_nat i <? 38000 then of_ratio 104 1000
  else of_ratio 99 1000.

(** The counts of end-to-end scenario 2. *)
Definition scenario_2_counts : MetricsClient := fixed_counts 10 50 11 50.

(** A stored specification asking for 20000 samples. *)
Definition gated_metadata : pyspec :=
  SpecDict {[ "min_sample_size" := VAtom (AInt 20000) ]}.

(** A collection that answers every query with one hit carrying
    [gated_metadata], and whose [add] succeeds. *)
Definition one_hit_store : ChromaCollection :=
  {| query := fun _ _ _ =>
       Ok {| documents := [["Experiment: checkout_button_color"]];
             metadatas := [[gated_metadata]];
             distances := [[c0]] |};
     add_error := fun _ _ => None |}.

Definition slack_ok : SlackClient :=
  {| post_decision_outcome := fun _ _ _ _ => Ok true |}.

(** An aio_pika delivery with the decoded [body], on an open channel whose
    broker takes the acknowledgement or the rejection. *)
Definition aio_pika_message (decoded : result pyval) : IncomingMessage :=
  {| body := decoded;
     default_exchange := None;
     has_reply := false;
     ack_error := None;
     reject_error := None;
     channel_is_closed := false |}.

(** The queue message [{"experiment_key": "checkout_button_color"}]. *)
Definition monitor_message : IncomingMessage :=
  aio_pika_message (Ok (VDict {[ "experiment_key" := checkout_key ]})).

(** The same body on a message object that offers [reply] and whose
    channel offers a [default_exchange] that publishes without error. *)
Definition replying_message : IncomingMessage :=
  {| body := Ok (VDict {[ "experiment_key" := checkout_key ]});
     default_exchange := Some {| publish_error := fun _ _ => None |};
     has_reply := true;
     ack_error := None;
     reject_error := None;
     channel_is_closed := false |}.

(** What the analysis returns for [gated_metadata] and the placeholder
    counts. *)
Definition gated_result : DecisionResult :=
  {| decision := "extend"; confidence := c0_5; sample_size := 10000;
     reason := "Insufficient sample size (10000 < 20000)";
     prob_treatment_better := None; ai_override := false |}.

Definition gated_prompt : Prompt :=
  {| prompt_experiment := checkout_key;
     prompt_metric_name := AStr "N/A";
     prompt_metric_type := AStr "N/A";
     prompt_result := gated_result |}.

(** ** Reading more runs *)

(** The call of the advisory review. *)
Definition advisory_call (ev : event) : Prop :=
  match ev with
  | EvAnalystChat _ => True
  | _ => False
  end.

(** The decisions [analyze_experiment] can return. *)
Definition numeric_decision (d : string) : Prop :=
  d = "extend" \/ d = "ship_treatment" \/ d = "ship_control".

(** A spec whose primary metric has the type "ratio". *)
Definition ratio_spec : pyspec :=
  SpecDict {[ "primary_metric" := VDict {[ "type" := AStr "ratio" ]} ]}.

(** A call to numpy's sampler. *)
Definition sampler_call (ev : event) : Prop :=
  match ev with
  | EvRandomBeta _ _ _ => True
  | _ => False
  end.

(** The entry [store_experiment] hands to the collection. *)
Definition entry_of (experiment_key : atom) (spec : gmap string pyval)
    (outcome : option Outcome) : ChromaEntry :=
  {| entry_key := experiment_key; entry_spec := spec;
     entry_outcome := outcome |}.

(** The outcome dict of [handle_experiment_decision] at loop time [t]. *)
Definition outcome_of (dec : string) (conf : float) (size : Z) (why : string)
    (t : float) : Outcome :=
  {| outcome_decision := dec; outcome_confidence := conf;
     final_sample_size := size; outcome_reason := why; timestamp := t |}.

(** A collection that holds nothing: every query comes back without
    documents. *)
Definition empty_store : ChromaCollection :=
  {| query := fun _ _ _ =>
       Ok {| documents := []; metadatas := []; distances := [] |};
     add_error := fun _ _ => None |}.

(** A collection whose first result row has two documents and one
    metadata. *)
Definition ragged_store : ChromaCollection :=
  {| query := fun _ _ _ =>
       Ok {| documents := [["first"; "second"]];
             metadatas := [[gated_metadata]];
             distances := [] |};
     add_error := fun _ _ => None |}.

(** A collection whose only hit was stored without metadata. *)
Definition bare_hit_store : ChromaCollection :=
  {| query := fun _ _ _ =>
       Ok {| documents := [["Experiment: checkout_button_color"]];
             metadatas := [[SpecNone]];
             distances := [[c0]] |};
     add_error := fun _ _ => None |}.

(** A queue message whose body is no JSON. *)
Definition garbled_message : IncomingMessage :=
  aio_pika_message (Raise (Exn "JSONDecodeError" "Expecting value")).

(** Every character of [s] satisfies [p]. *)
Fixpoint all_chars (p : ascii -> bool) (s : string) : bool :=
  match s with
  | EmptyString => true
  | String c s' => (p c && all_chars p s')%bool
  end.

(** A float of the closed interval [[0, 1]]. *)
Definition in_unit_interval (x : float) : Prop :=
  leb c0 x = true /\ leb x c1 = true.

(** The reasons of the mean branch. *)
Definition mean_branch_reason (s : string) : Prop :=
  s = "Treatment shows improvement" \/ s = "Treatment shows degradation"
  \/ s = "No clear difference".

(** ** integrations/slack.py: sending a message

    [post_experiment_decision] renders its text and hands it to
    [send_message], which tries the bot token and falls back to the
    webhook.  The HTTP client ([httpx]) is an argument: a post either
    raises or returns a reply.  The posts made are threaded through the
    functions, oldest first. *)

(** What [__init__] read from the environment: [os.getenv] gives [None] or
    a string. *)
Record SlackSettings : Type := {
  bot_token : option string;
  channel_approvals : option string;
  webhook_url : option string
}.

(** Truth value of an optional string: [None] and [""] are falsy. *)
Definition env_set (v : option string) : bool :=
  match v with
  | Some (String _ _) => true
  | _ => false
  end.

(** [channel or self.channel_approvals]. *)
Definition channel_or (channel dflt : option string) : option string :=
  if env_set channel then channel else dflt.

Inductive HttpCall : Type :=
  | PostWebhook (url text : string) (channel : option string)
  | PostChat (token channel text : string).

(** A reply: what [raise_for_status()] does, and the truth value of
    [response.json().get("ok")] (which can raise as well). *)
Record HttpReply : Type := {
  raise_for_status : option exn;
  json_ok : result bool
}.

Definition HttpClient : Type := HttpCall -> result HttpReply.

Definition _send_webhook_message (s : SlackSettings) (http : HttpClient)
    (message : string) (channel : option string) (calls : list HttpCall)
  : bool * list HttpCall :=
  match webhook_url s with
  | Some (String c u) =>
      let call := PostWebhook (String c u) message
                    (channel_or channel (channel_approvals s)) in
      match http call with
      | Ok reply =>
          match raise_for_status reply with
          | None => (true, (calls ++ [call])%list)
          | Some _ => (false, (calls ++ [call])%list)
          end
      | Raise _ => (false, (calls ++ [call])%list)
      end
  | _ => (false, calls)
  end.

Definition _send_bot_message (s : SlackSettings) (http : HttpClient)
    (message : string) (channel : option string) (calls : list HttpCall)
  : bool * list HttpCall :=
  match bot_token s with
  | Some (String c t) =>
      match channel_or channel (channel_approvals s) with
      | Some (String c' ch) =>
          let call := PostChat (String c t) (String c' ch) message in
          match http call with
          | Ok reply =>
              match raise_for_status reply, json_ok reply with
              | None, Ok true => (true, (calls ++ [call])%list)
              | _, _ => (false, (calls ++ [call])%list)
              end
          | Raise _ => (false, (calls ++ [call])%list)
          end
      | _ => (false, calls)
      end
  | _ => (false, calls)
  end.

Definition send_message (s : SlackSettings) (http : HttpClient)
    (message : string) (channel : option string) (calls : list HttpCall)
  : bool * list HttpCall :=
  let '(sent, calls1) := _send_bot_message s http message channel calls in
  if sent then (true, calls1)
  else _send_webhook_message s http message channel calls1.

(** A post that was delivered: the transport returned a reply whose status
    is fine and, for the chat API, whose body says [ok]. *)
Definition delivered (http : HttpClient) (call : HttpCall) : Prop :=
  exists reply,
    http call = Ok reply /\ raise_for_status reply = None /\
    match call with
    | PostChat _ _ _ => json_ok reply = Ok true
    | PostWebhook _ _ _ => True
    end.

(** Settings with a bot token, a channel and a webhook. *)
Definition full_settings : SlackSettings :=
  {| bot_token := Some "xoxb-1"; channel_approvals := Some "#approvals";
     webhook_url := Some "https://hooks.slack.com/services/T/B/X" |}.

(** A client on which every post succeeds. *)
Definition http_ok : HttpClient :=
  fun _ => Ok {| raise_for_status := None; json_ok := Ok true |}.

(** ** integrations/posthog.py: event metrics

    [get_experiment_metrics] asks for the events of both variants and
    aggregates them.  [_make_request] is an argument of the model: it
    returns the decoded JSON body, or [None] when anything in it raised. *)

(** A decoded JSON value; numbers are ints, and a dict lists its members
    in document order. *)
#[warnings="-register-all"] Inductive json : Type :=
  | JNull
  | JBool (b : bool)
  | JNum (z : Z)
  | JStr (s : string)
  | JList (l : list json)
  | JDict (d : list (string * json)).

Definition json_type_name (v : json) : string :=
  match v with
  | JNull => "NoneType"
  | JBool _ => "bool"
  | JNum _ => "int"
  | JStr _ => "str"
  | JList _ => "list"
  | JDict _ => "dict"
  end.

(** [bool(v)]. *)
Definition json_truthy (v : json) : bool :=
  match v with
  | JNull => false
  | JBool b => b
  | JNum z => negb (z =? 0)
  | JStr s => negb (String.eqb s "")
  | JList l => match l with [] => false | _ => true end
  | JDict d => match d with [] => false | _ => true end
  end.

(** [d.get(k, dflt)] on a dict decoded by [json.loads]: of two members
    with one name the later wins. *)
Fixpoint dict_get (k : string) (d : list (string * json)) (dflt : json)
  : json :=
  match d with
  | [] => dflt
  | (k', v) :: d' => dict_get k d' (if String.eqb k k' then v else dflt)
  end.

(** [v.get(k, dflt)]. *)
Definition json_get (v : json) (k : string) (dflt : json) : result json :=
  match v with
  | JDict d => Ok (dict_get k d dflt)
  | _ => Raise (no_attribute_get (json_type_name v))
  end.

(** The [filters] of [get_experiment_metrics], before [json.dumps]. *)
Record EventFilters : Type := {
  ab_variant : string;
  filter_experiment_key : atom
}.

(** The [params] of the request. *)
Record EventQuery : Type := {
  event_name : atom;
  date_from : string;
  date_to : string;
  limit : Z;
  properties : option EventFilters
}.

(** The PostHog API as [get_events] sees it: [_make_request(endpoint,
    params)]; and [(datetime.now() - timedelta(days=n)).strftime(...)], the
    formatted date of the day [n] days before now.  The date exists for
    the [n] the calendar holds; outside them the subtraction raises
    [OverflowError], which this function does not show: the statements
    about [get_experiment_metrics] bound [days_back] or start from the
    requests made with the two dates. *)
Record PostHogApi : Type := {
  _make_request : string -> EventQuery -> option json;
  strftime_days_ago : Z -> string
}.

Definition get_events (api : PostHogApi) (event : atom)
    (start_date end_date : string) (filters : option EventFilters)
  : result json :=
  let params := {| event_name := event; date_from := start_date;
                   date_to := end_date; limit := 10000;
                   properties := filters |} in
  match _make_request api "events" params with
  | Some response =>
      if json_truthy response
      then json_get response "results" (JList [])
      else Ok (JList [])
  | None => Ok (JList [])
  end.

(** [len(v)]. *)
Definition json_len (v : json) : result Z :=
  match v with
  | JList l => Ok (Z.of_nat (length l))
  | JStr s => Ok (Z.of_nat (String.length s))
  | JDict d => Ok (Z.of_nat (length (remove_dups (map fst d))))
  | _ => Raise (TypeError ("object of type '" ++ json_type_name v
                           ++ "' has no len()"))
  end.

(** [sum(1 for e in events if e.get("success", False))] over a list. *)
Fixpoint count_success (events : list json) : result Z :=
  match events with
  | [] => Ok 0
  | e :: events' =>
      match json_get e "success" (JBool false) with
      | Raise x => Raise x
      | Ok v =>
          match count_success events' with
          | Raise x => Raise x
          | Ok n => Ok (if json_truthy v then 1 + n else n)
          end
      end
  end.

(** The same sum over whatever [get_events] returned: a string iterates
    over its characters and a dict over its keys, which have no [get]. *)
Definition sum_success (v : json) : result Z :=
  match v with
  | JList l => count_success l
  | JStr s =>
      if String.eqb s "" then Ok 0 else Raise (no_attribute_get "str")
  | JDict d =>
      match d with
      | [] => Ok 0
      | _ => Raise (no_attribute_get "str")
      end
  | _ => Raise (TypeError ("'" ++ json_type_name v
                           ++ "' object is not iterable"))
  end.

(** A Python number: the rate is the int [0] for an arm without events
    and a float otherwise. *)
Inductive number : Type :=
  | Int (z : Z)
  | Float (f : float).

Record ArmMetrics : Type := {
  total : Z;
  success : Z;
  rate : number
}.

Record ExperimentMetrics : Type := {
  control : ArmMetrics;
  treatment : ArmMetrics;
  metrics_experiment_key : atom;
  metric : atom;
  period : string
}.

(** [success / count if count > 0 else 0]. *)
Definition rate_of (success count : Z) : result number :=
  if 0 <? count
  then match py_truediv success count with
       | Ok f => Ok (Float f)
       | Raise e => Raise e
       end
  else Ok (Int 0).

Definition get_experiment_metrics (api : PostHogApi)
    (experiment_key metric_name : atom) (days_back : Z)
  : result ExperimentMetrics :=
  let end_date := strftime_days_ago api 0 in
  let start_date := strftime_days_ago api days_back in
  match get_events api metric_name start_date end_date
          (Some {| ab_variant := "control";
                   filter_experiment_key := experiment_key |}) with
  | Raise e => Raise e
  | Ok control_events =>
  match get_events api metric_name start_date end_date
          (Some {| ab_variant := "treatment";
                   filter_experiment_key := experiment_key |}) with
  | Raise e => Raise e
  | Ok treatment_events =>
  match json_len control_events with
  | Raise e => Raise e
  | Ok control_count =>
  match json_len treatment_events with
  | Raise e => Raise e
  | Ok treatment_count =>
  match sum_success control_events with
  | Raise e => Raise e
  | Ok control_success =>
  match sum_success treatment_events with
  | Raise e => Raise e
  | Ok treatment_success =>
  match rate_of control_success control_count with
  | Raise e => Raise e
  | Ok control_rate =>
  match rate_of treatment_success treatment_count with
  | Raise e => Raise e
  | Ok treatment_rate =>
      Ok {| control := {| total := control_count;
                          success := control_success;
                          rate := control_rate |};
            treatment := {| total := treatment_count;
                            success := treatment_success;
                            rate := treatment_rate |};
            metrics_experiment_key := experiment_key;
            metric := metric_name;
            period := start_date ++ " to " ++ end_date |}
  end end end end end end end end.

(** An arm as [get_experiment_metrics] can report it: the successes are
    among the events, and the rate is the int 0 without events and a float
    of [[0, 1]] otherwise. *)
Definition sound_arm (a : ArmMetrics) : Prop :=
  0 <= success a <= total a /\
  match rate a with
  | Int z => z = 0 /\ total a = 0
  | Float f => 0 < total a /\ in_unit_interval f
  end.

(** An arm without events. *)
Definition empty_arm : ArmMetrics :=
  {| total := 0; success := 0; rate := Int 0 |}.

(** An API that cannot be reached. *)
Definition posthog_down : PostHogApi :=
  {| _make_request := fun _ _ => None;
     strftime_days_ago := fun n => if n =? 0 then "2024-01-08"
                                   else "2024-01-01" |}.

(** An API that answers every request with two events, one of them a
    success. *)
Definition posthog_two_events : PostHogApi :=
  {| _make_request := fun _ _ =>
       Some (JDict [("results",
                     JList [JDict [("success", JBool true)]; JDict []])]);
     strftime_days_ago := fun n => if n =? 0 then "2024-01-08"
                                   else "2024-01-01" |}.

(** * Properties *)

Ltac run_step :=
  unfold mbind, M_bind, mret, M_ret, lift, raise, emit, advance, persist,
    get_world, try_except in *; cbn [fst snd] in *.

Lemma after_events_nil (w : world) : after_events w [] = w.
Proof. destruct w; unfold after_events; cbn. now rewrite app_nil_r. Qed.

Lemma after_events_app (w : world) (e1 e2 : list event) :
  after_events (after_events w e1) e2 = after_events w (e1 ++ e2).
Proof. unfold after_events; cbn. now rewrite app_assoc. Qed.

Lemma get_metric_counts_run (ph : MetricsClient) (key : atom) (w : world) :
  get_metric_counts ph key w
  = (metric_counts ph key, after_events w [EvGetMetricCounts key]).
Proof. reflexivity. Qed.

(** *** The sampler and the Bayesian test *)

Lemma random_beta_run (a b size : Z) (w : world) :
  np.random_beta a b size w
  = if negb (np.fits_double a && np.fits_double b)
    then (Raise (OverflowError "int too large to convert to float"),
          after_events w [EvRandomBeta a b size])
    else if (a <=? 0) then (Raise (ValueError "a <= 0"),
                        after_events w [EvRandomBeta a b size])
    else if (b <=? 0) then (Raise (ValueError "b <= 0"),
                        after_events w [EvRandomBeta a b size])
    else if (size <? 0)
         then (Raise (ValueError "negative dimensions are not allowed"),
               after_events w [EvRandomBeta a b size])
    else (Ok (draws w (Z.to_nat size)),
          {| tape := tape w; cursor := (cursor w + Z.to_nat size)%nat;
             collection := collection w; clock := clock w;
             trace := trace w ++ [EvRandomBeta a b size] |}).
Proof.
  unfold np.random_beta. run_step.
  destruct (negb (np.fits_double a && np.fits_double b)); [reflexivity|].
  destruct (a <=? 0); [reflexivity|].
  destruct (b <=? 0); [reflexivity|].
  destruct (size <? 0); reflexivity.
Qed.

Lemma bayes_prob_better_returns (suc_a tot_a suc_b tot_b sims : Z)
    (w : world) :
  exists p w', bayes_prob_better suc_a tot_a suc_b tot_b sims w = (Ok p, w').
Proof.
  unfold bayes_prob_better, try_except.
  destruct (bayes_prob_better_body suc_a tot_a suc_b tot_b sims w)
    as [[p|e] w'] eqn:E.
  - now exists p, w'.
  - now exists c0_5, w'.
Qed.

Lemma bayes_body_degenerate (suc_a tot_a suc_b tot_b sims : Z) (w : world) :
  suc_a + 1 <= 0 \/ tot_a - suc_a + 1 <= 0 \/ suc_b + 1 <= 0
  \/ tot_b - suc_b + 1 <= 0 \/ sims < 0 ->
  exists e w',
    bayes_prob_better_body suc_a tot_a suc_b tot_b sims w = (Raise e, w').
Proof.
  intros H. unfold bayes_prob_better_body.
  unfold mbind, M_bind. rewrite random_beta_run.
  destruct (negb (np.fits_double (suc_a + 1)
                  && np.fits_double (tot_a - suc_a + 1))); [eauto|].
  destruct (suc_a + 1 <=? 0) eqn:A1; [eauto|].
  destruct (tot_a - suc_a + 1 <=? 0) eqn:B1; [eauto|].
  destruct (sims <? 0) eqn:S1; [eauto|].
  rewrite random_beta_run.
  destruct (negb (np.fits_double (suc_b + 1)
                  && np.fits_double (tot_b - suc_b + 1))); [eauto|].
  destruct (suc_b + 1 <=? 0) eqn:A2; [eauto|].
  destruct (tot_b - suc_b + 1 <=? 0) eqn:B2; [eauto|].
  exfalso. lia.
Qed.

(** C7. [bayes_prob_better] never propagates an exception: on every input
    and in every world it returns a float; whenever its [try] block raises
    the float is the neutral 0.5; and the block does raise on degenerate
    inputs (a Beta parameter that is not positive, a negative sample
    count). *)
Theorem bayes_prob_better_error_neutral
    (suc_a tot_a suc_b tot_b sims : Z) (w : world) :
  exists p w',
    bayes_prob_better suc_a tot_a suc_b tot_b sims w = (Ok p, w') /\
    (forall e w'',
        bayes_prob_better_body suc_a tot_a suc_b tot_b sims w = (Raise e, w'')
        -> p = c0_5 /\ w' = w'') /\
    (suc_a + 1 <= 0 \/ tot_a - suc_a + 1 <= 0 \/ suc_b + 1 <= 0
     \/ tot_b - suc_b + 1 <= 0 \/ sims < 0 -> p = c0_5).
Proof.
  unfold bayes_prob_better, try_except.
  destruct (bayes_prob_better_body suc_a tot_a suc_b tot_b sims w)
    as [[p|e] w'] eqn:E.
  - exists p, w'. split; [reflexivity|]. split.
    + intros e w'' H. discriminate H.
    + intros H.
      destruct (bayes_body_degenerate suc_a tot_a suc_b tot_b sims w H)
        as (e & w'' & H').
      rewrite H' in E. discriminate E.
  - exists c0_5, w'. split; [reflexivity|]. split.
    + intros e' w'' H. inversion H. now split.
    + reflexivity.
Qed.

(** *** [analyze_experiment] *)

Section Analyze.

Variable ph : MetricsClient.
Variable key : atom.
Variable spec : pyspec.
Variable w : world.
Variables suc_c tot_c suc_t tot_t : Z.
Variable min_sample : Z.

Hypothesis counts_ok : metric_counts ph key = Ok (suc_c, tot_c, suc_t, tot_t).
Hypothesis min_sample_ok :
  spec_get spec "min_sample_size" (VAtom (AInt 2000))
  = Ok (VAtom (AInt min_sample)).

Let w1 : world := after_events w [EvGetMetricCounts key].

Lemma analyze_body_below_gate :
  tot_c + tot_t < min_sample ->
  analyze_experiment_body ph key spec w
  = (Ok {| decision := "extend"; confidence := c0_5;
           sample_size := tot_c + tot_t;
           reason := "Insufficient sample size (" ++ pretty (tot_c + tot_t)
                     ++ " < " ++ pretty min_sample ++ ")";
           prob_treatment_better := None; ai_override := false |}, w1).
Proof.
  intros Hlt. unfold analyze_experiment_body.
  unfold mbind at 1, M_bind at 1. rewrite get_metric_counts_run, counts_ok.
  run_step. rewrite min_sample_ok. cbn.
  destruct (Z.ltb_spec (tot_c + tot_t) min_sample); [reflexivity | lia].
Qed.

Lemma analyze_body_past_gate (metric_type : atom) :
  min_sample <= tot_c + tot_t ->
  (exists pm, spec_get spec "primary_metric" (VDict ∅) = Ok pm /\
              val_get pm "type" (AStr "rate") = Ok metric_type) ->
  analyze_experiment_body ph key spec w
  = (if decide (metric_type = AStr "rate") then
       prob_better ← bayes_prob_better suc_c tot_c suc_t tot_t default_sims;
       mret (rate_result (tot_c + tot_t) prob_better)
     else if decide (metric_type = AStr "mean") then
       control_rate ←
         (if 0 <? tot_c then lift (py_truediv suc_c tot_c) else mret c0);
       treatment_rate ←
         (if 0 <? tot_t then lift (py_truediv suc_t tot_t) else mret c0);
       mret (if gtb treatment_rate (mul control_rate c1_1) then
               {| decision := "ship_treatment"; confidence := c0_9;
                  sample_size := tot_c + tot_t;
                  reason := "Treatment shows improvement";
                  prob_treatment_better := None; ai_override := false |}
             else if ltb treatment_rate (mul control_rate c0_9) then
               {| decision := "ship_control"; confidence := c0_9;
                  sample_size := tot_c + tot_t;
                  reason := "Treatment shows degradation";
                  prob_treatment_better := None; ai_override := false |}
             else
               {| decision := "extend"; confidence := c0_5;
                  sample_size := tot_c + tot_t;
                  reason := "No clear difference";
                  prob_treatment_better := None; ai_override := false |})
     else
       mret {| decision := "extend"; confidence := c0_5;
               sample_size := tot_c + tot_t;
               reason := "Unknown metric type: " ++ pystr metric_type;
               prob_treatment_better := None; ai_override := false |}) w1.
Proof.
  intros Hge (pm & Hpm & Hty). unfold analyze_experiment_body.
  unfold mbind at 1, M_bind at 1. rewrite get_metric_counts_run, counts_ok.
  unfold mbind at 1, M_bind at 1, lift at 1. rewrite min_sample_ok.
  unfold mbind at 1, M_bind at 1, lift at 1. cbn [int_operand_of_lt].
  destruct (Z.ltb_spec (tot_c + tot_t) min_sample); [lia|].
  unfold mbind at 1, M_bind at 1, lift at 1. rewrite Hpm.
  unfold mbind at 1, M_bind at 1, lift at 1. rewrite Hty.
  fold w1.
  destruct (decide (metric_type = AStr "rate")) as [Hrate|Hrate].
  - unfold mbind, M_bind.
    destruct (bayes_prob_better suc_c tot_c suc_t tot_t default_sims w1)
      as [[p|e] w2]; [|reflexivity].
    unfold rate_result.
    destruct (geb p c0_95); [reflexivity|].
    destruct (leb p c0_05); reflexivity.
  - destruct (decide (metric_type = AStr "mean")) as [Hmean|Hmean];
      [|reflexivity].
    unfold mbind, M_bind.
    destruct ((if 0 <? tot_c then lift (py_truediv suc_c tot_c)
               else mret c0) w1) as [[cr|e] w2]; [|reflexivity].
    destruct ((if 0 <? tot_t then lift (py_truediv suc_t tot_t)
               else mret c0) w2) as [[tr|e] w3]; [|reflexivity].
    destruct (gtb tr (mul cr c1_1)); [reflexivity|].
    destruct (ltb tr (mul cr c0_9)); reflexivity.
Qed.

End Analyze.

Lemma analyze_experiment_returns (ph : MetricsClient) (key : atom)
    (spec : pyspec) (w : world) :
  exists r w', analyze_experiment ph key spec w = (Ok r, w').
Proof.
  unfold analyze_experiment, try_except.
  destruct (analyze_experiment_body ph key spec w) as [[r|e] w']; eauto.
Qed.

(** A float at most a positive finite [a] is not at least a positive
    finite [b] of a larger exponent. *)
Lemma SFleb_exponent_gap (ma mb : positive) (ea eb : Z) (p : float) :
  ea < eb ->
  SFleb p (S754_finite false ma ea) = true ->
  SFleb (S754_finite false mb eb) p = false.
Proof.
  intros Hgap. unfold SFleb.
  destruct p as [s|s| |s m e]; simpl.
  - reflexivity.
  - destruct s; [reflexivity | discriminate].
  - discriminate.
  - destruct s; [reflexivity|].
    destruct (Z.compare_spec e ea) as [He|He|He].
    + subst e. intros _.
      destruct (Z.compare_spec eb ea); [lia | lia | reflexivity].
    + intros _. destruct (Z.compare_spec eb e); [lia | lia | reflexivity].
    + discriminate.
Qed.

(** No float is both [<= 0.05] and [>= 0.95]. *)
Lemma thresholds_disjoint (p : float) :
  leb p c0_05 = true -> geb p c0_95 = false.
Proof.
  unfold leb, geb, c0_05, c0_95.
  apply SFleb_exponent_gap. lia.
Qed.

(** C1. Gate precedence: when the metrics source answers with counts whose
    totals sum to less than the specification's [min_sample_size] (2000
    when the key is absent), [analyze_experiment] returns [extend] with
    confidence 0.5 and the reason "Insufficient sample size (total < min)",
    whatever the success counts are; the only call it makes is the metrics
    fetch, so the sampler is not run and no draw is consumed. *)
Theorem gate_precedence (ph : MetricsClient) (key : atom) (spec : pyspec)
    (w : world) (suc_c tot_c suc_t tot_t min_sample : Z) :
  metric_counts ph key = Ok (suc_c, tot_c, suc_t, tot_t) ->
  spec_get spec "min_sample_size" (VAtom (AInt 2000))
  = Ok (VAtom (AInt min_sample)) ->
  tot_c + tot_t < min_sample ->
  exists r w',
    analyze_experiment ph key spec w = (Ok r, w') /\
    decision r = "extend" /\
    confidence r = c0_5 /\
    reason r = "Insufficient sample size (" ++ pretty (tot_c + tot_t)
               ++ " < " ++ pretty min_sample ++ ")" /\
    trace w' = (trace w ++ [EvGetMetricCounts key])%list /\
    cursor w' = cursor w.
Proof.
  intros Hc Hm Hlt.
  unfold analyze_experiment, try_except.
  rewrite (analyze_body_below_gate ph key spec w _ _ _ _ _ Hc Hm Hlt).
  eexists _, _. split; [reflexivity|]. cbn. repeat split.
Qed.

(** C2. Rate-metric decision rule: past the gate and with metric type
    [rate] (also the default), [analyze_experiment] runs
    [bayes_prob_better] on the counts with 20000 draws, obtains a
    probability P, and returns [ship_treatment] with confidence P when
    P >= 0.95, [ship_control] with confidence 1 - P when P <= 0.05, and
    [extend] with confidence 0.5 otherwise; [prob_treatment_better] is P in
    all three cases. *)
Theorem rate_decision_rule (ph : MetricsClient) (key : atom) (spec : pyspec)
    (w : world) (suc_c tot_c suc_t tot_t min_sample : Z) (pm : pyval) :
  metric_counts ph key = Ok (suc_c, tot_c, suc_t, tot_t) ->
  spec_get spec "min_sample_size" (VAtom (AInt 2000))
  = Ok (VAtom (AInt min_sample)) ->
  min_sample <= tot_c + tot_t ->
  spec_get spec "primary_metric" (VDict ∅) = Ok pm ->
  val_get pm "type" (AStr "rate") = Ok (AStr "rate") ->
  exists P r w',
    bayes_prob_better suc_c tot_c suc_t tot_t 20000
      (after_events w [EvGetMetricCounts key]) = (Ok P, w') /\
    analyze_experiment ph key spec w = (Ok r, w') /\
    prob_treatment_better r = Some P /\
    (geb P c0_95 = true ->
       decision r = "ship_treatment" /\ confidence r = P) /\
    (leb P c0_05 = true ->
       decision r = "ship_control" /\ confidence r = sub c1 P) /\
    (geb P c0_95 = false -> leb P c0_05 = false ->
       decision r = "extend" /\ confidence r = c0_5).
Proof.
  intros Hc Hm Hge Hpm Hty.
  destruct (bayes_prob_better_returns suc_c tot_c suc_t tot_t 20000
              (after_events w [EvGetMetricCounts key])) as (P & w' & HP).
  exists P, (rate_result (tot_c + tot_t) P), w'.
  split; [exact HP|]. split.
  - unfold analyze_experiment, try_except.
    rewrite (analyze_body_past_gate ph key spec w _ _ _ _ _ Hc Hm
               (AStr "rate") Hge (ex_intro _ pm (conj Hpm Hty))).
    rewrite decide_True by reflexivity.
    unfold mbind, M_bind, default_sims. rewrite HP. reflexivity.
  - unfold rate_result. split; [|split; [|split]].
    + destruct (geb P c0_95); [reflexivity|].
      destruct (leb P c0_05); reflexivity.
    + intros H. now rewrite H.
    + intros H. rewrite (thresholds_disjoint P H), H. now split.
    + intros H1 H2. rewrite H1, H2. now split.
Qed.

(** C10. [analyze_experiment] never raises: for every metrics source, key,
    specification and world it returns a result dict; and whenever its
    [try] block raises an exception [e], wherever in the block, the dict is
    [extend] with confidence 0.5, reason "Analysis error: " followed by
    [str(e)], and sample size 0. *)
Theorem analyze_experiment_total (ph : MetricsClient) (key : atom)
    (spec : pyspec) (w : world) :
  exists r w',
    analyze_experiment ph key spec w = (Ok r, w') /\
    (forall e w'',
        analyze_experiment_body ph key spec w = (Raise e, w'') ->
        w' = w'' /\
        decision r = "extend" /\
        confidence r = c0_5 /\
        reason r = "Analysis error: " ++ str_exn e /\
        sample_size r = 0).
Proof.
  unfold analyze_experiment, try_except.
  destruct (analyze_experiment_body ph key spec w) as [[r|e] w'] eqn:E.
  - exists r, w'. split; [reflexivity|]. intros e w'' H. discriminate H.
  - exists (analysis_error e), w'. split; [reflexivity|].
    intros e' w'' H. inversion H; subst. cbn. repeat split.
Qed.

(** *** The mean branch *)

(** C3, as the code has it.  Past the gate and with metric type [mean],
    [analyze_experiment] does not run the z-style test of [msprt_test] and
    fetches no observations: its only call is the metrics fetch, and it
    compares the two conversion rates ([suc / tot], or 0 when [tot] is not
    positive).  It returns [ship_treatment] with confidence 0.9 when the
    treatment rate exceeds 1.1 times the control rate, [ship_control] with
    confidence 0.9 when it is below 0.9 times the control rate, and
    [extend] with confidence 0.5 otherwise. *)
Theorem mean_metric_dispatch (ph : MetricsClient) (key : atom)
    (spec : pyspec) (w : world) (suc_c tot_c suc_t tot_t min_sample : Z)
    (pm : pyval) (control_rate treatment_rate : float) :
  metric_counts ph key = Ok (suc_c, tot_c, suc_t, tot_t) ->
  spec_get spec "min_sample_size" (VAtom (AInt 2000))
  = Ok (VAtom (AInt min_sample)) ->
  min_sample <= tot_c + tot_t ->
  spec_get spec "primary_metric" (VDict ∅) = Ok pm ->
  val_get pm "type" (AStr "rate") = Ok (AStr "mean") ->
  rate_or_zero suc_c tot_c = Ok control_rate ->
  rate_or_zero suc_t tot_t = Ok treatment_rate ->
  exists r,
    analyze_experiment ph key spec w
    = (Ok r, after_events w [EvGetMetricCounts key]) /\
    sample_size r = tot_c + tot_t /\
    prob_treatment_better r = None /\
    (gtb treatment_rate (mul control_rate c1_1) = true ->
       decision r = "ship_treatment" /\ confidence r = c0_9) /\
    (gtb treatment_rate (mul control_rate c1_1) = false ->
     ltb treatment_rate (mul control_rate c0_9) = true ->
       decision r = "ship_control" /\ confidence r = c0_9) /\
    (gtb treatment_rate (mul control_rate c1_1) = false ->
     ltb treatment_rate (mul control_rate c0_9) = false ->
       decision r = "extend" /\ confidence r = c0_5).
Proof.
  intros Hc Hm Hge Hpm Hty Hcr Htr.
  unfold analyze_experiment, try_except.
  rewrite (analyze_body_past_gate ph key spec w _ _ _ _ _ Hc Hm
             (AStr "mean") Hge (ex_intro _ pm (conj Hpm Hty))).
  rewrite decide_False by discriminate.
  rewrite decide_True by reflexivity.
  unfold rate_or_zero in Hcr, Htr.
  unfold mbind, M_bind.
  replace ((if 0 <? tot_c then lift (py_truediv suc_c tot_c) else mret c0)
             (after_events w [EvGetMetricCounts key]))
    with (Ok control_rate, after_events w [EvGetMetricCounts key])
    by (destruct (0 <? tot_c); unfold lift, mret, M_ret;
        [now rewrite Hcr | now inversion Hcr]).
  replace ((if 0 <? tot_t then lift (py_truediv suc_t tot_t) else mret c0)
             (after_events w [EvGetMetricCounts key]))
    with (Ok treatment_rate, after_events w [EvGetMetricCounts key])
    by (destruct (0 <? tot_t); unfold lift, mret, M_ret;
        [now rewrite Htr | now inversion Htr]).
  unfold mret, M_ret.
  destruct (gtb treatment_rate (mul control_rate c1_1));
    [|destruct (ltb treatment_rate (mul control_rate c0_9))];
    (eexists; split; [reflexivity|]; cbn [sample_size prob_treatment_better
       decision confidence]; repeat split; intros; try discriminate;
     reflexivity).
Qed.

Lemma c0_9_not_z_test_confidence : c0_9 <> c0_95 /\ c0_9 <> c0_5.
Proof. split; discriminate. Qed.

(** C3, counterexample.  With metric type [mean] and counts
    (100, 5000, 200, 5000), past the default gate of 2000,
    [analyze_experiment] returns [ship_treatment] with confidence 0.9 and
    the reason "Treatment shows improvement": no outcome of the z-style
    test, whose shipping decisions carry confidence 0.95. *)
Lemma mean_metric_dispatch_counterexample :
  exists r,
    fst (analyze_experiment (fixed_counts 100 5000 200 5000) checkout_key
           mean_spec (fresh_world (fun _ => c0_5))) = Ok r /\
    decision r = "ship_treatment" /\
    confidence r = c0_9 /\
    reason r = "Treatment shows improvement" /\
    ~ z_test_outcome r.
Proof.
  eexists. split; [vm_compute; reflexivity|].
  cbn [decision confidence reason]. repeat split.
  intros [[H _]|[[_ H]|[H _]]]; discriminate H.
Qed.

(** *** The advisory reviewer *)

Lemma use_ai_analyst_run (reviewer : AdvisoryReviewer) (key : atom)
    (spec : pyspec) (a : DecisionResult) (w : world) :
  exists w',
    use_ai_analyst reviewer key spec a w
    = (Ok match advisory_reply reviewer key spec a with
          | Some reply =>
              match review_reply reply a with
              | Ok r => r
              | Raise _ => a
              end
          | None => a
          end, w').
Proof.
  unfold use_ai_analyst, use_ai_analyst_body, advisory_reply,
    create_monitoring_chat, initiate_chat.
  unfold try_except, mbind, M_bind, lift, raise, emit, mret, M_ret.
  destruct (create_monitoring_chat_error reviewer); [eauto|].
  destruct (build_prompt key spec a) as [p|e]; [|eauto].
  destruct (a_initiate_chat reviewer p) as [cr|e]; [|eauto].
  destruct (last_message cr) as [m|e]; [|eauto].
  destruct (text_of_message m) as [txt|e]; [|eauto].
  destruct (review_reply txt a) as [r|e]; eauto.
Qed.






(** C9.  When the reply holds a [DECISION:] token followed by the word [g]
    and no [CONFIDENCE:] token, and the numeric confidence is below 0.8
    (as the 0.5 of every [extend] is), [use_ai_analyst] returns an
    override: its decision is [g] in lower case, whatever word [g] is, its
    confidence is 0.8, the sample size is the numeric one and
    [ai_override] is set. *)
Theorem advisory_decision_only_overrides (reviewer : AdvisoryReviewer)
    (key : atom) (spec : pyspec) (a : DecisionResult) (w : world)
    (reply g : string) :
  advisory_reply reviewer key spec a = Some reply ->
  re.search_decision reply = Some g ->
  re.search_confidence reply = None ->
  ltb (confidence a) c0_8 = true ->
  exists r w',
    use_ai_analyst reviewer key spec a w = (Ok r, w') /\
    decision r = re.lower g /\
    confidence r = c0_8 /\
    sample_size r = sample_size a /\
    ai_override r = true.
Proof.
  intros Hreply Hd Hc Hlt.
  destruct (use_ai_analyst_run reviewer key spec a w) as (w' & Hrun).
  rewrite Hreply in Hrun. unfold review_reply in Hrun.
  rewrite Hd, Hc in Hrun. cbn [ai_confidence_of] in Hrun.
  unfold gtb in Hrun. unfold ltb in Hlt. rewrite Hlt in Hrun.
  eexists _, w'. split; [exact Hrun|].
  cbn [ai_override_result decision confidence sample_size ai_override].
  repeat split.
Qed.

(** C9, at an input: the reply "DECISION: Banana" turns an [extend] at 0.5
    into the decision "banana" at 0.8. *)
Lemma advisory_decision_only_overrides_witness :
  exists r w',
    use_ai_analyst (replying "DECISION: Banana") checkout_key spec_min_2000
      extend_result (fresh_world (fun _ => c0_5)) = (Ok r, w') /\
    decision r = "banana" /\
    confidence r = c0_8 /\
    sample_size r = 100 /\
    ai_override r = true.
Proof.
  exact (advisory_decision_only_overrides (replying "DECISION: Banana")
           checkout_key spec_min_2000 extend_result
           (fresh_world (fun _ => c0_5)) "DECISION: Banana" "Banana"
           eq_refl eq_refl eq_refl eq_refl).
Defined.

(** *** Scenario 1: the placeholder counts *)

Lemma double_limit_int64 : 2 ^ 63 <= np.double_limit.
Proof. unfold np.double_limit. vm_compute. discriminate. Qed.

Lemma fits_double_below (z : Z) :
  0 < z < np.double_limit -> np.fits_double z = true.
Proof. intros H. unfold np.fits_double. apply Z.ltb_lt. lia. Qed.

Lemma bayes_prob_better_run (suc_a tot_a suc_b tot_b sims : Z) (w : world) :
  0 < suc_a + 1 < np.double_limit ->
  0 < tot_a - suc_a + 1 < np.double_limit ->
  0 < suc_b + 1 < np.double_limit ->
  0 < tot_b - suc_b + 1 < np.double_limit -> 0 <= sims ->
  bayes_prob_better suc_a tot_a suc_b tot_b sims w
  = (Ok (posterior_estimate w sims),
     {| tape := tape w;
        cursor := (cursor w + Z.to_nat sims + Z.to_nat sims)%nat;
        collection := collection w; clock := clock w;
        trace := (trace w ++ [EvRandomBeta (suc_a + 1) (tot_a - suc_a + 1) sims;
                             EvRandomBeta (suc_b + 1) (tot_b - suc_b + 1) sims]
                 )%list |}).
Proof.
  intros Ha1 Hb1 Ha2 Hb2 Hs.
  unfold bayes_prob_better, bayes_prob_better_body, try_except.
  unfold mbind, M_bind. rewrite random_beta_run.
  rewrite !fits_double_below by assumption. cbn [andb negb].
  rewrite (proj2 (Z.leb_gt (suc_a + 1) 0)) by lia.
  rewrite (proj2 (Z.leb_gt (tot_a - suc_a + 1) 0)) by lia.
  rewrite (proj2 (Z.ltb_ge sims 0)) by lia.
  rewrite random_beta_run.
  rewrite !fits_double_below by assumption. cbn [andb negb].
  rewrite (proj2 (Z.leb_gt (suc_b + 1) 0)) by lia.
  rewrite (proj2 (Z.leb_gt (tot_b - suc_b + 1) 0)) by lia.
  rewrite (proj2 (Z.ltb_ge sims 0)) by lia.
  unfold mret, M_ret, draws, posterior_estimate. cbn [tape cursor collection
    clock trace]. rewrite <- app_assoc. reflexivity.
Qed.

Lemma analyze_placeholder_counts (key : atom) (w : world) :
  exists w',
    analyze_experiment PostHogClient key spec_min_2000 w
    = (Ok (rate_result 10000
             (posterior_estimate (after_events w [EvGetMetricCounts key])
                20000)), w') /\
    trace w' = (trace w ++ [EvGetMetricCounts key;
                            EvRandomBeta 481 4521 20000;
                            EvRandomBeta 521 4481 20000])%list.
Proof.
  unfold analyze_experiment, try_except.
  rewrite (analyze_body_past_gate PostHogClient key spec_min_2000 w
             480 5000 520 5000 2000 eq_refl eq_refl (AStr "rate"));
    [|lia|exists (VDict ∅); split; reflexivity].
  rewrite decide_True by reflexivity.
  unfold mbind, M_bind, default_sims.
  rewrite bayes_prob_better_run by (pose proof double_limit_int64; lia).
  unfold mret, M_ret. eexists. split; [reflexivity|].
  cbn [trace after_events]. rewrite <- app_assoc. reflexivity.
Qed.

Lemma rate_result_ship_treatment (total : Z) (p : float) :
  decision (rate_result total p) = "ship_treatment" <-> geb p c0_95 = true.
Proof.
  unfold rate_result. destruct (geb p c0_95).
  - split; reflexivity.
  - destruct (leb p c0_05); split; discriminate.
Qed.

(** C5, as the code has it.  For [min_sample_size = 2000] and the
    placeholder counts (480, 5000, 520, 5000) the gate passes
    (10000 >= 2000), [analyze_experiment] runs the Bayesian test with
    20000 draws from Beta(481, 4521) and from Beta(521, 4481), and reports
    as [prob_treatment_better] the fraction P of draw pairs in which the
    treatment draw is the larger.  The decision is [ship_treatment], with
    confidence P, exactly when P >= 0.95: the draws decide, the counts
    alone do not. *)
Theorem scenario_1_placeholder_counts (key : atom) (w : world) :
  exists r w',
    analyze_experiment PostHogClient key spec_min_2000 w = (Ok r, w') /\
    sample_size r = 10000 /\
    prob_treatment_better r
    = Some (posterior_estimate (after_events w [EvGetMetricCounts key])
              20000) /\
    (decision r = "ship_treatment" <->
     geb (posterior_estimate (after_events w [EvGetMetricCounts key]) 20000)
         c0_95 = true) /\
    (decision r = "ship_treatment" ->
     confidence r
     = posterior_estimate (after_events w [EvGetMetricCounts key]) 20000) /\
    trace w' = (trace w ++ [EvGetMetricCounts key;
                            EvRandomBeta 481 4521 20000;
                            EvRandomBeta 521 4481 20000])%list.
Proof.
  destruct (analyze_placeholder_counts key w) as (w' & Hrun & Htr).
  eexists _, w'. split; [exact Hrun|].
  set (P := posterior_estimate _ _).
  split; [|split; [|split; [|split]]].
  - unfold rate_result. destruct (geb P c0_95); [reflexivity|].
    destruct (leb P c0_05); reflexivity.
  - unfold rate_result. destruct (geb P c0_95); [reflexivity|].
    destruct (leb P c0_05); reflexivity.
  - apply rate_result_ship_treatment.
  - intros H. apply rate_result_ship_treatment in H.
    unfold rate_result. now rewrite H.
  - exact Htr.
Qed.

Lemma map_seq_constant {A : Type} (f : nat -> A) (c : A) (n a : nat) :
  (forall i, (a <= i < a + n)%nat -> f i = c) ->
  map f (seq a n) = repeat c n.
Proof.
  revert a. induction n as [|n IH]; intros a H; [reflexivity|].
  cbn [seq map repeat]. rewrite (H a) by lia. f_equal.
  apply IH. intros i Hi. apply H. lia.
Qed.

Lemma greater_repeat (x y : float) (k : nat) (l r : list float) :
  np.greater (repeat x k ++ l) (repeat y k ++ r)
  = (repeat (gtb x y) k ++ np.greater l r)%list.
Proof.
  unfold np.greater. induction k as [|k IH]; [reflexivity|].
  cbn [repeat app zip_with]. now rewrite IH.
Qed.

Lemma greater_repeat_all (x y : float) (k : nat) :
  np.greater (repeat x k) (repeat y k) = repeat (gtb x y) k.
Proof.
  pose proof (greater_repeat x y k [] []) as H.
  rewrite !app_nil_r in H. exact H.
Qed.

Lemma mean_bool_two_blocks (k l : nat) :
  np.mean_bool (repeat true k ++ repeat false l)
  = div (of_Z (Z.of_nat k)) (of_Z (Z.of_nat (k + l))).
Proof.
  unfold np.mean_bool.
  rewrite count_occ_app, count_occ_repeat_eq by reflexivity.
  rewrite count_occ_repeat_neq by discriminate.
  rewrite length_app, !repeat_length. now rewrite Nat.add_0_r.
Qed.

Lemma posterior_estimate_tape_18000 (evs : list event) :
  posterior_estimate (after_events (fresh_world tape_18000) evs) 20000
  = c0_9.
Proof.
  unfold posterior_estimate. cbn [tape cursor after_events fresh_world].
  rewrite Nat.add_0_l.
  replace (Z.to_nat 20000) with (Z.to_nat 18000 + Z.to_nat 2000)%nat by lia.
  set (k := Z.to_nat 18000). set (l := Z.to_nat 2000).
  rewrite (seq_app k l (k + l)), map_app.
  rewrite (map_seq_constant tape_18000 (of_ratio 104 1000) k (k + l)).
  2:{ intros i Hi. unfold tape_18000.
      rewrite (proj2 (Z.ltb_ge (Z.of_nat i) 20000)) by lia.
      now rewrite (proj2 (Z.ltb_lt (Z.of_nat i) 38000)) by lia. }
  rewrite (map_seq_constant tape_18000 (of_ratio 99 1000) l (k + l + k)).
  2:{ intros i Hi. unfold tape_18000.
      rewrite (proj2 (Z.ltb_ge (Z.of_nat i) 20000)) by lia.
      now rewrite (proj2 (Z.ltb_ge (Z.of_nat i) 38000)) by lia. }
  rewrite (map_seq_constant tape_18000 (of_ratio 1 10) (k + l) 0).
  2:{ intros i Hi. unfold tape_18000.
      now rewrite (proj2 (Z.ltb_lt (Z.of_nat i) 20000)) by lia. }
  rewrite repeat_app, greater_repeat, greater_repeat_all.
  replace (gtb (of_ratio 104 1000) (of_ratio 1 10)) with true
    by (vm_compute; reflexivity).
  replace (gtb (of_ratio 99 1000) (of_ratio 1 10)) with false
    by (vm_compute; reflexivity).
  rewrite mean_bool_two_blocks.
  replace (Z.of_nat k) with 18000 by lia.
  replace (Z.of_nat (k + l)) with 20000 by lia.
  vm_compute. reflexivity.
Qed.

(** C5, counterexample.  In a run where the sampler's control draws are all
    0.1 and 18000 of its 20000 treatment draws are 0.104 and the others
    0.099, the estimate is 0.9, below 0.95, and the decision for the
    placeholder counts is [extend], not [ship_treatment]. *)
Lemma scenario_1_counterexample :
  exists r w',
    analyze_experiment PostHogClient checkout_key spec_min_2000
      (fresh_world tape_18000) = (Ok r, w') /\
    prob_treatment_better r = Some c0_9 /\
    geb c0_9 c0_95 = false /\
    decision r = "extend" /\
    decision r <> "ship_treatment".
Proof.
  destruct (analyze_placeholder_counts checkout_key (fresh_world tape_18000))
    as (w' & Hrun & _).
  rewrite posterior_estimate_tape_18000 in Hrun.
  eexists _, w'. split; [exact Hrun|].
  repeat split. discriminate.
Qed.

(** *** What leaves the store alone *)

Lemma keeps_ret {A : Type} (a : A) : keeps_store (mret a).
Proof. intros w r w' H. inversion H. now split. Qed.

Lemma keeps_lift {A : Type} (x : result A) : keeps_store (lift x).
Proof. intros w r w' H. inversion H. now split. Qed.

Lemma keeps_raise {A : Type} (e : exn) : keeps_store (raise (A := A) e).
Proof. intros w r w' H. inversion H. now split. Qed.

Lemma keeps_emit (ev : event) : keeps_store (emit ev).
Proof. intros w r w' H. inversion H. now split. Qed.

Lemma keeps_advance (n : nat) : keeps_store (advance n).
Proof. intros w r w' H. inversion H. now split. Qed.

Lemma keeps_get_world : keeps_store get_world.
Proof. intros w r w' H. inversion H. now split. Qed.

Lemma keeps_bind {A B : Type} (m : M A) (f : A -> M B) :
  keeps_store m -> (forall a, keeps_store (f a)) -> keeps_store (m ≫= f).
Proof.
  intros Hm Hf w r w' H. unfold mbind, M_bind in H.
  destruct (m w) as [[a|e] w1] eqn:E.
  - destruct (Hm _ _ _ E) as [Hc Hk].
    destruct (Hf a _ _ _ H) as [Hc' Hk']. split; congruence.
  - inversion H; subst. exact (Hm _ _ _ E).
Qed.

Lemma keeps_try_except {A : Type} (m : M A) (h : exn -> M A) :
  keeps_store m -> (forall e, keeps_store (h e)) ->
  keeps_store (try_except m h).
Proof.
  intros Hm Hh w r w' H. unfold try_except in H.
  destruct (m w) as [[a|e] w1] eqn:E.
  - inversion H; subst. exact (Hm _ _ _ E).
  - destruct (Hm _ _ _ E) as [Hc Hk].
    destruct (Hh e _ _ _ H) as [Hc' Hk']. split; congruence.
Qed.

Ltac keeps :=
  repeat first
    [ apply keeps_ret | apply keeps_lift | apply keeps_raise
    | apply keeps_emit | apply keeps_advance | apply keeps_get_world
    | apply keeps_try_except | apply keeps_bind
    | match goal with
      | |- forall _, _ => intro
      | |- keeps_store (if ?c then _ else _) => destruct c
      | |- keeps_store (match ?x with _ => _ end) => destruct x
      | |- keeps_store (let '( _ , _ ) := ?x in _) => destruct x
      end ].

Lemma random_beta_keeps (a b size : Z) :
  keeps_store (np.random_beta a b size).
Proof. unfold np.random_beta. keeps. Qed.

Lemma bayes_prob_better_keeps (suc_a tot_a suc_b tot_b sims : Z) :
  keeps_store (bayes_prob_better suc_a tot_a suc_b tot_b sims).
Proof.
  unfold bayes_prob_better, bayes_prob_better_body.
  apply keeps_try_except; [|intro; apply keeps_ret].
  apply keeps_bind; [apply random_beta_keeps|intro].
  apply keeps_bind; [apply random_beta_keeps|intro]. apply keeps_ret.
Qed.

Lemma analyze_experiment_keeps (ph : MetricsClient) (key : atom)
    (spec : pyspec) : keeps_store (analyze_experiment ph key spec).
Proof.
  unfold analyze_experiment, analyze_experiment_body, get_metric_counts.
  apply keeps_try_except; [|intro; apply keeps_ret].
  apply keeps_bind; [keeps|]. intros [[[suc_c tot_c] suc_t] tot_t].
  apply keeps_bind; [keeps|]. intros min_sample_v.
  apply keeps_bind; [keeps|]. intros min_sample.
  destruct (tot_c + tot_t <? min_sample); [keeps|].
  apply keeps_bind; [keeps|]. intros pm.
  apply keeps_bind; [keeps|]. intros metric_type.
  destruct (decide (metric_type = AStr "rate")) as [Hr|Hr].
  - apply keeps_bind; [apply bayes_prob_better_keeps|]. intros p.
    destruct (geb p c0_95); [keeps|]. destruct (leb p c0_05); keeps.
  - destruct (decide (metric_type = AStr "mean")) as [Hm|Hm]; [|keeps].
    apply keeps_bind; [destruct (0 <? tot_c); keeps|]. intros cr.
    apply keeps_bind; [destruct (0 <? tot_t); keeps|]. intros tr.
    destruct (gtb tr (mul cr c1_1)); [keeps|].
    destruct (ltb tr (mul cr c0_9)); keeps.
Qed.


(** *** The calls of the analysis and of the review *)

Lemma Forall_elem_of (P : event -> Prop) (evs : list event) (ev : event) :
  Forall P evs -> ev ∈ evs -> P ev.
Proof. intros H Hin. rewrite list.Forall_forall in H. now apply H. Qed.

Lemma random_beta_calls (a b size : Z) (w : world) :
  exists r w',
    np.random_beta a b size w = (r, w') /\
    trace w' = (trace w ++ [EvRandomBeta a b size])%list /\
    collection w' = collection w /\ clock w' = clock w.
Proof.
  rewrite random_beta_run.
  destruct (negb (np.fits_double a && np.fits_double b));
    [eexists _, _; repeat split|].
  destruct (a <=? 0); [eexists _, _; repeat split|].
  destruct (b <=? 0); [eexists _, _; repeat split|].
  destruct (size <? 0); eexists _, _; repeat split.
Qed.

Lemma bayes_prob_better_calls (suc_a tot_a suc_b tot_b sims : Z) (w : world) :
  exists p w' evs,
    bayes_prob_better suc_a tot_a suc_b tot_b sims w = (Ok p, w') /\
    trace w' = (trace w ++ evs)%list /\ Forall sampler_call evs /\
    collection w' = collection w /\ clock w' = clock w.
Proof.
  unfold bayes_prob_better, bayes_prob_better_body, try_except.
  unfold mbind, M_bind.
  destruct (random_beta_calls (suc_a + 1) (tot_a - suc_a + 1) sims w)
    as (r1 & w1 & -> & Ht1 & Hc1 & Hk1).
  destruct r1 as [sa|e].
  - destruct (random_beta_calls (suc_b + 1) (tot_b - suc_b + 1) sims w1)
      as (r2 & w2 & -> & Ht2 & Hc2 & Hk2).
    destruct r2 as [sb|e]; unfold mret, M_ret;
      (eexists _, _, _; split; [reflexivity|];
       split; [rewrite Ht2, Ht1, <- app_assoc; reflexivity|];
       split; [repeat constructor|]; split; congruence).
  - unfold mret, M_ret. eexists _, _, _. split; [reflexivity|].
    split; [exact Ht1|]. split; [repeat constructor|]. split; congruence.
Qed.

Lemma analyze_experiment_shape (ph : MetricsClient) (key : atom)
    (spec : pyspec) (w : world) :
  exists r w' evs,
    analyze_experiment ph key spec w = (Ok r, w') /\
    numeric_decision (decision r) /\
    ai_override r = false /\
    (decision r = "extend" -> confidence r = c0_5) /\
    trace w' = (trace w ++ EvGetMetricCounts key :: evs)%list /\
    Forall sampler_call evs /\
    collection w' = collection w /\ clock w' = clock w.
Proof.
  unfold analyze_experiment, analyze_experiment_body, try_except.
  unfold mbind at 1, M_bind at 1. rewrite get_metric_counts_run.
  set (w1 := after_events w [EvGetMetricCounts key]).
  assert (Hleaf : forall r : DecisionResult,
             numeric_decision (decision r) -> ai_override r = false ->
             (decision r = "extend" -> confidence r = c0_5) ->
             exists r' w' evs,
               (Ok r, w1) = (Ok r', w') /\
               numeric_decision (decision r') /\ ai_override r' = false /\
               (decision r' = "extend" -> confidence r' = c0_5) /\
               trace w' = (trace w ++ EvGetMetricCounts key :: evs)%list /\
               Forall sampler_call evs /\
               collection w' = collection w /\ clock w' = clock w).
  { intros r H1 H2 H3. exists r, w1, []. repeat split; try assumption.
    constructor. }
  assert (Herr : forall e : exn,
             exists r' w' evs,
               (Ok (analysis_error e), w1) = (Ok r', w') /\
               numeric_decision (decision r') /\ ai_override r' = false /\
               (decision r' = "extend" -> confidence r' = c0_5) /\
               trace w' = (trace w ++ EvGetMetricCounts key :: evs)%list /\
               Forall sampler_call evs /\
               collection w' = collection w /\ clock w' = clock w).
  { intros e. apply Hleaf; [now left | reflexivity | reflexivity]. }
  destruct (metric_counts ph key) as [[[[suc_c tot_c] suc_t] tot_t]|e];
    [|apply Herr].
  unfold mbind at 1, M_bind at 1, lift at 1.
  destruct (spec_get spec "min_sample_size" (VAtom (AInt 2000)))
    as [min_sample_v|e]; [|apply Herr].
  unfold mbind at 1, M_bind at 1, lift at 1.
  destruct (int_operand_of_lt min_sample_v) as [min_sample|e]; [|apply Herr].
  destruct (tot_c + tot_t <? min_sample).
  { apply Hleaf; [now left | reflexivity | reflexivity]. }
  unfold mbind at 1, M_bind at 1, lift at 1.
  destruct (spec_get spec "primary_metric" (VDict ∅)) as [pm|e];
    [|apply Herr].
  unfold mbind at 1, M_bind at 1, lift at 1.
  destruct (val_get pm "type" (AStr "rate")) as [metric_type|e];
    [|apply Herr].
  destruct (decide (metric_type = AStr "rate")) as [Hrate|Hrate].
  - unfold mbind, M_bind.
    destruct (bayes_prob_better_calls suc_c tot_c suc_t tot_t default_sims w1)
      as (p & w2 & evs & -> & Ht & Hs & Hc & Hk).
    assert (Hrate_leaf : forall r : DecisionResult,
               numeric_decision (decision r) -> ai_override r = false ->
               (decision r = "extend" -> confidence r = c0_5) ->
               exists r' w' evs',
                 (Ok r, w2) = (Ok r', w') /\
                 numeric_decision (decision r') /\ ai_override r' = false /\
                 (decision r' = "extend" -> confidence r' = c0_5) /\
                 trace w' = (trace w ++ EvGetMetricCounts key :: evs')%list /\
                 Forall sampler_call evs' /\
                 collection w' = collection w /\ clock w' = clock w).
    { intros r H1 H2 H3. exists r, w2, evs.
      repeat split; try assumption.
      rewrite Ht. unfold w1. cbn [trace after_events].
      now rewrite <- app_assoc. }
    unfold mret, M_ret.
    destruct (geb p c0_95);
      [apply Hrate_leaf; [right; now left | reflexivity | discriminate]|].
    destruct (leb p c0_05);
      [apply Hrate_leaf; [right; now right | reflexivity | discriminate]|].
    apply Hrate_leaf; [now left | reflexivity | reflexivity].
  - destruct (decide (metric_type = AStr "mean")) as [Hmean|Hmean].
    + unfold mbind, M_bind.
      destruct ((if 0 <? tot_c then lift (py_truediv suc_c tot_c)
                 else mret c0) w1) as [[cr|e] w2] eqn:E1.
      2:{ assert (w2 = w1) as ->
            by (destruct (0 <? tot_c); inversion E1; reflexivity).
          apply Herr. }
      assert (w2 = w1) as ->
        by (destruct (0 <? tot_c); inversion E1; reflexivity).
      destruct ((if 0 <? tot_t then lift (py_truediv suc_t tot_t)
                 else mret c0) w1) as [[tr|e] w3] eqn:E2.
      2:{ assert (w3 = w1) as ->
            by (destruct (0 <? tot_t); inversion E2; reflexivity).
          apply Herr. }
      assert (w3 = w1) as ->
        by (destruct (0 <? tot_t); inversion E2; reflexivity).
      unfold mret, M_ret.
      destruct (gtb tr (mul cr c1_1));
        [apply Hleaf; [right; now left | reflexivity | discriminate]|].
      destruct (ltb tr (mul cr c0_9));
        [apply Hleaf; [right; now right | reflexivity | discriminate]|].
      apply Hleaf; [now left | reflexivity | reflexivity].
    + apply Hleaf; [now left | reflexivity | reflexivity].
Qed.

Lemma use_ai_analyst_calls (reviewer : AdvisoryReviewer) (key : atom)
    (spec : pyspec) (a : DecisionResult) (w : world) :
  exists r w' evs,
    use_ai_analyst reviewer key spec a w = (Ok r, w') /\
    trace w' = (trace w ++ evs)%list /\ Forall advisory_call evs /\
    (build_prompt key spec a = Raise (no_attribute_get "NoneType") ->
     r = a /\ evs = []) /\
    collection w' = collection w /\ clock w' = clock w.
Proof.
  unfold use_ai_analyst, use_ai_analyst_body, create_monitoring_chat,
    initiate_chat.
  unfold try_except, mbind, M_bind, lift, raise, emit, mret, M_ret.
  assert (Hnil : forall w0 : world, trace w0 = (trace w0 ++ [])%list)
    by (intros; now rewrite app_nil_r).
  destruct (create_monitoring_chat_error reviewer).
  { exists a, w, []. repeat split; auto. }
  destruct (build_prompt key spec a) as [p|e].
  2:{ exists a, w, []. repeat split; auto. }
  cbn [trace collection clock].
  destruct (a_initiate_chat reviewer p) as [cr|e].
  2:{ eexists a, _, [EvAnalystChat p]. split; [reflexivity|].
      cbn [trace collection clock]. repeat split; try discriminate.
      repeat constructor. }
  destruct (last_message cr) as [m|e].
  2:{ eexists a, _, [EvAnalystChat p]. split; [reflexivity|].
      cbn [trace collection clock]. repeat split; try discriminate.
      repeat constructor. }
  destruct (text_of_message m) as [txt|e].
  2:{ eexists a, _, [EvAnalystChat p]. split; [reflexivity|].
      cbn [trace collection clock]. repeat split; try discriminate.
      repeat constructor. }
  destruct (review_reply txt a) as [r|e];
    (eexists _, _, [EvAnalystChat p]; split; [reflexivity|];
     cbn [trace collection clock]; repeat split; try discriminate;
     repeat constructor).
Qed.

(** *** The monitoring loop *)

Lemma retrieve_similar_experiments_run (c : ChromaCollection) (q : atom)
    (n : Z) (w : world) :
  retrieve_similar_experiments c q n w
  = (Ok (similar_of c (collection w) q n),
     after_events w [EvChromaQuery q n]).
Proof.
  unfold retrieve_similar_experiments, similar_of.
  unfold try_except, mbind, M_bind, emit, get_world, lift, mret, M_ret.
  cbn [collection].
  destruct (query c (collection w) q n) as [results|e]; [|reflexivity].
  destruct (documents results) as [|docs ?]; [reflexivity|].
  destruct (collect_similar results 0 docs); reflexivity.
Qed.

Lemma handle_experiment_decision_run (self : MonitoringWorker) (key : atom)
    (f : DecisionResult) (w : world) (first : Similar) (rest : list Similar) :
  similar_of (memory self) (collection w) key 5 = first :: rest ->
  exists w',
    handle_experiment_decision self key (decision f) (confidence f)
      (sample_size f) (reason f) w = (Ok tt, w') /\
    trace w'
    = (trace w ++ [EvChromaQuery key 5;
                   EvChromaAdd (outcome_entry key f (clock w));
                   EvSlackDecision key (decision f) (confidence f)
                     (sample_size f)])%list /\
    collection w'
    = (collection w
       ++ stored_by (memory self) (collection w)
            (outcome_entry key f (clock w)))%list /\
    clock w' = clock w.
Proof.
  intros Hsim.
  unfold handle_experiment_decision.
  unfold try_except at 1. unfold mbind at 1, M_bind at 1, get_world at 1.
  unfold mbind at 1, M_bind at 1.
  rewrite retrieve_similar_experiments_run, Hsim.
  unfold store_experiment, post_experiment_decision, stored_by, outcome_entry.
  unfold try_except, mbind, M_bind, emit, get_world, lift, raise, persist,
    mret, M_ret.
  unfold after_events. cbn [collection trace clock tape cursor].
  replace (render_error ∅) with (@None exn) by reflexivity.
  cbn [collection trace clock tape cursor].
  destruct (add_error (memory self) (collection w) _) as [e|];
    cbn [collection trace clock tape cursor];
    destruct (post_decision_outcome (slack self) key (decision f)
                (confidence f) (sample_size f)) as [b|e'];
    (eexists; split; [reflexivity|];
     cbn [collection trace clock]; rewrite <- ?app_assoc, ?app_nil_r;
     repeat split; reflexivity).
Qed.

Lemma terminal_not_extend (d : string) : terminal d -> d <> "extend".
Proof. intros [->|[->| ->]]; discriminate. Qed.

Lemma publish_run (msg : IncomingMessage) (routing_key : string)
    (payload : gmap string atom) (w : world) :
  publish msg routing_key payload w
  = (publish_result msg routing_key payload,
     after_events w (publish_events msg routing_key payload)).
Proof.
  unfold publish, publish_result, publish_events.
  unfold mbind, M_bind, emit, raise, mret, M_ret.
  destruct (default_exchange msg) as [exchange|];
    [|now rewrite after_events_nil].
  destruct (has_reply msg); [|now rewrite after_events_nil].
  destruct (publish_error exchange routing_key payload); reflexivity.
Qed.

Lemma on_monitor_experiment_settles (self : MonitoringWorker)
    (msg : IncomingMessage) (w w1 : world) (r : result unit) :
  on_monitor_experiment_body self msg w = (r, w1) ->
  on_monitor_experiment self msg w
  = (settlement_result msg (raised r),
     after_events w1 (settlement_events msg (raised r))).
Proof.
  intros Hbody.
  unfold on_monitor_experiment, on_monitor_experiment_try, try_except.
  unfold mbind at 1, M_bind at 1. rewrite Hbody.
  unfold settlement_result, settlement_events, process_exit, ack, reject.
  unfold mbind, M_bind, emit, raise, mret, M_ret.
  destruct r as [[]|e]; cbn [raised].
  - destruct (ack_error msg); reflexivity.
  - destruct (reject_error msg) as [e'|]; [|reflexivity].
    destruct (channel_is_closed msg); [reflexivity|].
    unfold after_events. cbn [tape cursor collection clock trace].
    rewrite <- app_assoc. reflexivity.
Qed.

Lemma settlement_events_elem (msg : IncomingMessage) (block_raised : bool)
    (ev : event) :
  ev ∈ settlement_events msg block_raised -> ev = EvAck \/ ev = EvReject false.
Proof.
  unfold settlement_events.
  destruct block_raised;
    [destruct (reject_error msg); [destruct (channel_is_closed msg)|]|];
    rewrite ?elem_of_cons, elem_of_nil; tauto.
Qed.

Lemma publish_events_elem (msg : IncomingMessage) (routing_key : string)
    (payload : gmap string atom) (ev : event) :
  ev ∈ publish_events msg routing_key payload ->
  ev = EvPublish routing_key payload.
Proof.
  unfold publish_events.
  destruct (default_exchange msg); [destruct (has_reply msg)|];
    rewrite ?elem_of_cons, elem_of_nil; tauto.
Qed.

(** Every path of a tick. *)
Lemma on_monitor_experiment_cases (self : MonitoringWorker)
    (msg : IncomingMessage) (w : world) :
  exists res w',
    on_monitor_experiment self msg w = (res, w') /\
    ((exists e,
         (body msg = Raise e \/
          exists payload, body msg = Ok payload /\
            val_get payload "experiment_key" ANone = Raise e) /\
         res = settlement_result msg true /\
         w' = after_events w (settlement_events msg true)) \/
     (exists payload key,
         body msg = Ok payload /\
         val_get payload "experiment_key" ANone = Ok key /\
         ((similar_of (memory self) (collection w) key 5 = [] /\
           res = settlement_result msg false /\
           w' = after_events w
                  (EvChromaQuery key 5 :: settlement_events msg false)) \/
          (exists first rest a f w2 w3 evs_a evs_r tail,
              similar_of (memory self) (collection w) key 5 = first :: rest /\
              analyze_experiment (posthog self) key (metadata first)
                (after_events w [EvChromaQuery key 5]) = (Ok a, w2) /\
              use_ai_analyst (analyst self) key (metadata first) a w2
              = (Ok f, w3) /\
              trace w3
              = (trace w ++ EvChromaQuery key 5 :: EvGetMetricCounts key
                                :: evs_a ++ evs_r)%list /\
              Forall sampler_call evs_a /\ Forall advisory_call evs_r /\
              collection w'
              = (collection w
                 ++ stored_by (memory self) (collection w)
                      (outcome_entry key f (clock w)))%list /\
              clock w' = clock w /\
              trace w'
              = (trace w3
                 ++ [EvChromaQuery key 5;
                     EvChromaAdd (outcome_entry key f (clock w));
                     EvSlackDecision key (decision f) (confidence f)
                       (sample_size f)] ++ tail)%list /\
              ((decision f = "extend" /\
                tail
                = (EvSleep (monitoring_interval self)
                   :: publish_events msg "exp.monitor"
                        (continuation_payload key)
                   ++ settlement_events msg
                        (raised (publish_result msg "exp.monitor"
                                   (continuation_payload key))))%list /\
                res = settlement_result msg
                        (raised (publish_result msg "exp.monitor"
                                   (continuation_payload key)))) \/
               (decision f <> "extend" /\
                tail = settlement_events msg false /\
                res = settlement_result msg false)))))).
Proof.
  destruct (on_monitor_experiment_body self msg w) as [r w1] eqn:Hrun.
  rewrite (on_monitor_experiment_settles self msg w w1 r Hrun).
  eexists _, _. split; [reflexivity|].
  revert Hrun. unfold on_monitor_experiment_body.
  unfold mbind at 1, M_bind at 1, lift at 1.
  destruct (body msg) as [payload|e] eqn:Hbody.
  2:{ intros Hrun. inversion Hrun; subst r w1. left. exists e.
      split; [now left|]. split; reflexivity. }
  unfold mbind at 1, M_bind at 1, lift at 1.
  destruct (val_get payload "experiment_key" ANone) as [key|e] eqn:Hkey.
  2:{ intros Hrun. inversion Hrun; subst r w1. left. exists e.
      split; [right; exists payload; split; [reflexivity|exact Hkey]|].
      split; reflexivity. }
  unfold mbind at 1, M_bind at 1.
  rewrite retrieve_similar_experiments_run.
  destruct (similar_of (memory self) (collection w) key 5)
    as [|first rest] eqn:Hsim.
  { unfold mret, M_ret. intros Hrun. inversion Hrun; subst r w1.
    right. exists payload, key. split; [reflexivity|].
    split; [exact Hkey|]. left.
    split; [exact Hsim|]. split; [reflexivity|].
    cbn [raised]. rewrite after_events_app. reflexivity. }
  destruct (analyze_experiment_shape (posthog self) key (metadata first)
              (after_events w [EvChromaQuery key 5]))
    as (a & w2 & evs_a & Han & _ & _ & _ & Ht2 & Hs2 & Hc2 & Hk2).
  destruct (use_ai_analyst_calls (analyst self) key (metadata first) a w2)
    as (f & w3 & evs_r & Hai & Ht3 & Hs3 & _ & Hc3 & Hk3).
  cbn [collection clock trace after_events] in Hc2, Hk2, Ht2.
  assert (Hsim3 : similar_of (memory self) (collection w3) key 5
                  = first :: rest) by (now rewrite Hc3, Hc2).
  destruct (handle_experiment_decision_run self key f w3 first rest Hsim3)
    as (w4 & Hh & Ht4 & Hc4 & Hk4).
  rewrite Hc3, Hc2, Hk3, Hk2 in Hc4. rewrite Hk3, Hk2 in Ht4.
  unfold mbind at 1, M_bind at 1. rewrite Han.
  unfold mbind at 1, M_bind at 1. rewrite Hai.
  unfold mbind at 1, M_bind at 1. rewrite Hh.
  assert (Htrace3 : trace w3
                    = (trace w ++ EvChromaQuery key 5 :: EvGetMetricCounts key
                                      :: evs_a ++ evs_r)%list).
  { rewrite Ht3, Ht2. rewrite <- !app_assoc. reflexivity. }
  destruct (decide (decision f = "extend")) as [Hext|Hext].
  - unfold asyncio_sleep. unfold mbind at 1, M_bind at 1, emit at 1.
    fold (continuation_payload key). rewrite publish_run.
    intros Hrun. inversion Hrun; subst r w1.
    right. exists payload, key. split; [reflexivity|].
    split; [exact Hkey|]. right.
    eexists first, rest, a, f, w2, w3, evs_a, evs_r, _.
    split; [exact Hsim|]. split; [exact Han|]. split; [exact Hai|].
    split; [exact Htrace3|]. split; [exact Hs2|]. split; [exact Hs3|].
    cbn [collection trace clock after_events].
    split; [exact Hc4|]. split; [rewrite Hk4, Hk3, Hk2; reflexivity|].
    split; [rewrite Ht4, <- !app_assoc; cbn [app]; reflexivity|].
    left. split; [exact Hext|]. split; reflexivity.
  - unfold mret, M_ret. intros Hrun. inversion Hrun; subst r w1.
    right. exists payload, key. split; [reflexivity|].
    split; [exact Hkey|]. right.
    eexists first, rest, a, f, w2, w3, evs_a, evs_r, _.
    split; [exact Hsim|]. split; [exact Han|]. split; [exact Hai|].
    split; [exact Htrace3|]. split; [exact Hs2|]. split; [exact Hs3|].
    cbn [collection trace clock after_events raised].
    split; [exact Hc4|]. split; [rewrite Hk4, Hk3, Hk2; reflexivity|].
    split; [rewrite Ht4, <- !app_assoc; cbn [app]; reflexivity|].
    right. split; [exact Hext|]. split; reflexivity.
Qed.

(** C4, as the code runs on an aio_pika delivery (a message whose channel
    has no [default_exchange]).  One monitoring tick of a worker built by
    [__init__], for a message whose body decodes to a dict with key [key],
    whose specification is found in the store, and whose effective result
    (after analysis and advisory review) is [f].  The tick queries the
    store again, hands the outcome of [f] to the collection, where it is
    kept unless [add] raises, and notifies Slack.  It publishes nothing,
    whatever the decision.
    - If the decision of [f] is [extend], whatever is kept carries the
      decision [extend], none of the terminal ones, and the worker sleeps
      the fixed 600 seconds.  Evaluating the publish expression then raises
      [AttributeError] before anything is sent: the handler rejects the
      message without requeue, no continuation is published, and the tick
      raises ([MessageProcessError] when the broker took the rejection,
      because leaving [async with msg.process()] acknowledges a message
      that is already processed).
    - If the decision is terminal ([ship_treatment], [ship_control] or
      [stop]) the tick ends after the notification: it neither sleeps nor
      publishes, and the message is acknowledged. *)
Theorem monitoring_loop_step (ph : MetricsClient) (sl : SlackClient)
    (gh : bool) (mem : ChromaCollection) (an : AdvisoryReviewer)
    (msg : IncomingMessage) (w w2 w3 : world) (payload : pyval) (key : atom)
    (first : Similar) (rest : list Similar) (a f : DecisionResult) :
  body msg = Ok payload ->
  val_get payload "experiment_key" ANone = Ok key ->
  default_exchange msg = None ->
  similar_of mem (collection w) key 5 = first :: rest ->
  analyze_experiment ph key (metadata first)
    (after_events w [EvChromaQuery key 5]) = (Ok a, w2) ->
  use_ai_analyst an key (metadata first) a w2 = (Ok f, w3) ->
  exists res w',
    on_monitor_experiment (new_MonitoringWorker ph sl gh mem an) msg w
    = (res, w') /\
    collection w'
    = (collection w
       ++ stored_by mem (collection w) (outcome_entry key f (clock w)))%list /\
    (forall rk p, EvPublish rk p ∈ trace w' -> EvPublish rk p ∈ trace w) /\
    (decision f = "extend" ->
       (forall e o,
           e ∈ stored_by mem (collection w) (outcome_entry key f (clock w)) ->
           entry_outcome e = Some o ->
           outcome_decision o = "extend" /\ ~ terminal (outcome_decision o)) /\
       trace w'
       = (trace w3
          ++ [EvChromaQuery key 5;
              EvChromaAdd (outcome_entry key f (clock w));
              EvSlackDecision key "extend" (confidence f) (sample_size f);
              EvSleep 600]
          ++ settlement_events msg true)%list /\
       res = settlement_result msg true /\
       (exists e, res = Raise e) /\
       (reject_error msg = None ->
          settlement_events msg true = [EvReject false] /\
          res = Raise (MessageProcessError "Message already processed"))) /\
    (terminal (decision f) ->
       res = settlement_result msg false /\
       trace w'
       = (trace w3
          ++ [EvChromaQuery key 5;
              EvChromaAdd (outcome_entry key f (clock w));
              EvSlackDecision key (decision f) (confidence f)
                (sample_size f);
              EvAck])%list).
Proof.
  intros Hbody Hkey Hchan Hsim Han Hai.
  set (self := new_MonitoringWorker ph sl gh mem an).
  destruct (on_monitor_experiment_cases self msg w)
    as (res & w' & Hrun & Hcases).
  exists res, w'. split; [exact Hrun|].
  destruct Hcases as [(e & Hbad & _)|(payload' & key' & Hb' & Hk' & Hrest)].
  { destruct Hbad as [Hbad|(p & Hb' & Hbad)]; [congruence|].
    rewrite Hbody in Hb'. inversion Hb'; subst p. congruence. }
  rewrite Hbody in Hb'. inversion Hb'; subst payload'.
  rewrite Hkey in Hk'. inversion Hk'; subst key'.
  cbn [memory posthog analyst monitoring_interval self new_MonitoringWorker]
    in Hrest.
  destruct Hrest as [(Hnil & _)|Hrest]; [congruence|].
  destruct Hrest as (first' & rest' & a' & f' & w2' & w3' & evs_a & evs_r
                     & tail & Hsim' & Han' & Hai' & Ht3 & Hsa & Hsr & Hc
                     & _ & Ht & Htail).
  rewrite Hsim in Hsim'. inversion Hsim'; subst first' rest'.
  rewrite Han in Han'. inversion Han'; subst a' w2'.
  rewrite Hai in Hai'. inversion Hai'; subst f' w3'.
  assert (Hpub : publish_events msg "exp.monitor" (continuation_payload key)
                 = []) by (unfold publish_events; now rewrite Hchan).
  assert (Hres : raised (publish_result msg "exp.monitor"
                           (continuation_payload key)) = true)
    by (unfold publish_result; now rewrite Hchan).
  rewrite Hpub, Hres in Htail. cbn [app] in Htail.
  split; [exact Hc|]. split; [|split].
  - intros rk p Hin. rewrite Ht, Ht3 in Hin.
    rewrite !elem_of_app in Hin.
    destruct Hin as [[Hin|Hin]|Hin]; [exact Hin| |].
    + exfalso. rewrite !elem_of_cons, elem_of_app in Hin.
      destruct Hin as [Hin|[Hin|[Hin|Hin]]]; try discriminate Hin.
      * pose proof (Forall_elem_of _ _ _ Hsa Hin) as H. exact H.
      * pose proof (Forall_elem_of _ _ _ Hsr Hin) as H. exact H.
    + exfalso. destruct Hin as [Hin|Hin].
      { rewrite !elem_of_cons, elem_of_nil in Hin.
        destruct Hin as [Hin|[Hin|[Hin|[]]]]; discriminate Hin. }
      destruct Htail as [(_ & -> & _)|(_ & -> & _)].
      * rewrite elem_of_cons in Hin.
        destruct Hin as [Hin|Hin]; [discriminate Hin|].
        apply settlement_events_elem in Hin.
        destruct Hin as [Hin|Hin]; discriminate Hin.
      * apply settlement_events_elem in Hin.
        destruct Hin as [Hin|Hin]; discriminate Hin.
  - intros Hext.
    destruct Htail as [(_ & -> & ->)|(Hne & _)]; [|contradiction].
    split; [|split; [|split; [|split]]].
    + intros en o Hin Ho. unfold stored_by in Hin.
      destruct (add_error mem (collection w) _);
        [now apply elem_of_nil in Hin|].
      apply list_elem_of_singleton in Hin. subst en.
      cbn [outcome_entry entry_outcome] in Ho. inversion Ho; subst o.
      cbn [outcome_decision]. split; [exact Hext|].
      rewrite Hext. intros [H|[H|H]]; discriminate H.
    + rewrite Ht, Hext. reflexivity.
    + reflexivity.
    + unfold settlement_result. destruct (reject_error msg); eauto.
    + intros Hrej. unfold settlement_events, settlement_result.
      rewrite Hrej. split; reflexivity.
  - intros Hterm. apply terminal_not_extend in Hterm.
    destruct Htail as [(Hext & _)|(_ & -> & ->)]; [contradiction|].
    split; [reflexivity|]. rewrite Ht. reflexivity.
Qed.

(** *** The theorems at concrete inputs *)

(** C1 at scenario 2: counts (10, 50, 11, 50) against a floor of 2000. *)
Lemma gate_precedence_witness :
  exists r w',
    analyze_experiment scenario_2_counts checkout_key spec_min_2000
      (fresh_world (fun _ => c0_5)) = (Ok r, w') /\
    decision r = "extend" /\
    confidence r = c0_5 /\
    reason r = "Insufficient sample size (100 < 2000)" /\
    trace w' = [EvGetMetricCounts checkout_key] /\
    cursor w' = 0%nat.
Proof.
  exact (gate_precedence scenario_2_counts checkout_key spec_min_2000
           (fresh_world (fun _ => c0_5)) 10 50 11 50 2000
           eq_refl eq_refl eq_refl).
Defined.

(** C2 at the placeholder counts and a floor of 2000. *)
Lemma rate_decision_rule_witness :
  exists P r w',
    bayes_prob_better 480 5000 520 5000 20000
      (after_events (fresh_world tape_18000)
         [EvGetMetricCounts checkout_key]) = (Ok P, w') /\
    analyze_experiment PostHogClient checkout_key spec_min_2000
      (fresh_world tape_18000) = (Ok r, w') /\
    prob_treatment_better r = Some P /\
    (geb P c0_95 = true ->
       decision r = "ship_treatment" /\ confidence r = P) /\
    (leb P c0_05 = true ->
       decision r = "ship_control" /\ confidence r = sub c1 P) /\
    (geb P c0_95 = false -> leb P c0_05 = false ->
       decision r = "extend" /\ confidence r = c0_5).
Proof.
  refine (rate_decision_rule PostHogClient checkout_key spec_min_2000
            (fresh_world tape_18000) 480 5000 520 5000 2000 (VDict ∅)
            eq_refl eq_refl _ eq_refl eq_refl).
  lia.
Defined.

(** C3 at counts (100, 5000, 200, 5000): rates 0.02 and 0.04. *)
Lemma mean_metric_dispatch_witness :
  exists r,
    analyze_experiment (fixed_counts 100 5000 200 5000) checkout_key
      mean_spec (fresh_world (fun _ => c0_5))
    = (Ok r, after_events (fresh_world (fun _ => c0_5))
               [EvGetMetricCounts checkout_key]) /\
    sample_size r = 5000 + 5000 /\
    prob_treatment_better r = None /\
    (gtb (of_ratio 200 5000) (mul (of_ratio 100 5000) c1_1) = true ->
       decision r = "ship_treatment" /\ confidence r = c0_9) /\
    (gtb (of_ratio 200 5000) (mul (of_ratio 100 5000) c1_1) = false ->
     ltb (of_ratio 200 5000) (mul (of_ratio 100 5000) c0_9) = true ->
       decision r = "ship_control" /\ confidence r = c0_9) /\
    (gtb (of_ratio 200 5000) (mul (of_ratio 100 5000) c1_1) = false ->
     ltb (of_ratio 200 5000) (mul (of_ratio 100 5000) c0_9) = false ->
       decision r = "extend" /\ confidence r = c0_5).
Proof.
  refine (mean_metric_dispatch (fixed_counts 100 5000 200 5000) checkout_key
            mean_spec (fresh_world (fun _ => c0_5)) 100 5000 200 5000 2000
            (VDict {[ "type" := AStr "mean" ]})
            (of_ratio 100 5000) (of_ratio 200 5000)
            eq_refl eq_refl _ eq_refl eq_refl eq_refl eq_refl).
  lia.
Defined.

(** C4 at a tick that extends: the stored specification asks for 20000
    samples, the placeholder counts give 10000, and the analyst's chat
    ends with a message dict.  The extend outcome is stored and the worker
    sleeps 600 seconds; then the message is rejected, no continuation is
    published, and the tick raises [MessageProcessError]. *)
Lemma monitoring_loop_step_witness :
  exists w',
    on_monitor_experiment
      (new_MonitoringWorker PostHogClient slack_ok false one_hit_store
         (supervisor.create_monitoring_chat autogen_stop))
      monitor_message (fresh_world (fun _ => c0_5))
    = (Raise (MessageProcessError "Message already processed"), w') /\
    (exists e o, collection w' = [e] /\ entry_outcome e = Some o /\
                 outcome_decision o = "extend") /\
    (forall rk p, ~ EvPublish rk p ∈ trace w') /\
    exists before,
      trace w' = (before ++ [EvSleep 600; EvReject false])%list.
Proof.
  pose (w0 := fresh_world (fun _ => c0_5)).
  pose (w2 := after_events w0 [EvChromaQuery checkout_key 5;
                               EvGetMetricCounts checkout_key]).
  pose (w3 := after_events w2 [EvAnalystChat gated_prompt]).
  destruct (monitoring_loop_step PostHogClient slack_ok false one_hit_store
              (supervisor.create_monitoring_chat autogen_stop)
              monitor_message w0 w2 w3
              (VDict {[ "experiment_key" := checkout_key ]}) checkout_key
              {| content := "Experiment: checkout_button_color";
                 metadata := gated_metadata; distance := c0 |} []
              gated_result gated_result)
    as (res & w' & Hrun & Hcoll & Hpub & Hext & _).
  - reflexivity.
  - reflexivity.
  - reflexivity.
  - reflexivity.
  - vm_compute. reflexivity.
  - vm_compute. reflexivity.
  - destruct (Hext eq_refl) as (_ & Htrace & _ & _ & Hrej).
    destruct (Hrej eq_refl) as (Hevs & ->).
    exists w'. split; [exact Hrun|]. split; [|split].
    + eexists _, _. split; [exact Hcoll|]. split; reflexivity.
    + intros rk p Hin. apply Hpub in Hin. now apply elem_of_nil in Hin.
    + eexists (trace w3 ++ [_; _; _])%list.
      rewrite Htrace, Hevs, <- app_assoc. reflexivity.
Defined.

(** * Further properties of the code *)

(** *** The z-style test *)

Lemma SFltb_negative_not_above (p : float) (ma mb : positive) (ea eb : Z) :
  SFltb p (S754_finite true ma ea) = true ->
  SFltb (S754_finite false mb eb) p = false.
Proof.
  unfold SFltb. destruct p as [s|s| |s m e]; simpl; try discriminate.
  - destruct s; [reflexivity | discriminate].
  - destruct s; [reflexivity | discriminate].
Qed.

(** X1.  [msprt_test], for every data and whatever [np.mean] and [np.std]
    return: the reason is "insufficient_data" exactly when one of the lists
    has fewer than 10 observations; the decision is [ship_treatment]
    exactly when both lists have 10 and the effect size is above 1.96,
    [ship_control] exactly when both have 10 and it is below -1.96 (a NaN
    effect size is neither); and the confidence is 0.95 for the two shipping
    decisions and 0.5 for [extend]. *)
Theorem msprt_test_decisions (np_mean np_std : list float -> float)
    (control_data treatment_data : list float) :
  let r := msprt_test np_mean np_std control_data treatment_data in
  let e := effect_size np_mean np_std control_data treatment_data in
  let enough :=
    (10 <= length control_data)%nat /\ (10 <= length treatment_data)%nat in
  (test_reason r = "insufficient_data" <-> ~ enough) /\
  (test_decision r = "ship_treatment" <-> enough /\ gtb e c1_96 = true) /\
  (test_decision r = "ship_control"
   <-> enough /\ ltb e (SFopp c1_96) = true) /\
  (test_decision r = "extend"
   <-> ~ enough \/ (gtb e c1_96 = false /\ ltb e (SFopp c1_96) = false)) /\
  test_confidence r
  = (if decide (test_decision r = "extend") then c0_5 else c0_95).
Proof.
  cbv zeta. unfold msprt_test.
  set (e := effect_size np_mean np_std control_data treatment_data).
  destruct (Nat.ltb_spec (length control_data) 10) as [Hc|Hc];
    [|destruct (Nat.ltb_spec (length treatment_data) 10) as [Ht|Ht]];
    cbn [orb].
  1,2: cbn [test_reason test_decision test_confidence];
    (split; [split; [intros _ [? ?]; lia | reflexivity]|]);
    (split; [split; [discriminate | intros [[? ?] _]; lia]|]);
    (split; [split; [discriminate | intros [[? ?] _]; lia]|]);
    (split; [split; [intros _; left; intros [? ?]; lia | reflexivity]|]);
    reflexivity.
  assert (Hexcl : ltb e (SFopp c1_96) = true -> gtb e c1_96 = false).
  { unfold ltb, gtb, c1_96. cbn [SFopp negb].
    apply SFltb_negative_not_above. }
  assert (Henough : (10 <= length control_data)%nat
                    /\ (10 <= length treatment_data)%nat) by (split; lia).
  destruct (gtb e c1_96) eqn:Hgt;
    [|destruct (ltb e (SFopp c1_96)) eqn:Hlt];
    cbn [test_reason test_decision test_confidence].
  - split; [split; [discriminate | tauto]|].
    split; [split; [tauto | reflexivity]|].
    split; [split; [discriminate
                   | intros [_ H]; specialize (Hexcl H); discriminate]|].
    split; [split; [discriminate
                   | intros [H|[H _]]; [tauto | discriminate]]|].
    reflexivity.
  - split; [split; [discriminate | tauto]|].
    split; [split; [discriminate | intros [_ H]; discriminate]|].
    split; [split; [tauto | reflexivity]|].
    split; [split; [discriminate
                   | intros [H|[_ H]]; [tauto | discriminate]]|].
    reflexivity.
  - split; [split; [discriminate | tauto]|].
    split; [split; [discriminate | intros [_ H]; discriminate]|].
    split; [split; [discriminate | intros [_ H]; discriminate]|].
    split; [split; [intros _; right; split; reflexivity | reflexivity]|].
    reflexivity.
Qed.

(** *** More on [analyze_experiment] *)

(** X2.  Invariants of [analyze_experiment], for every metrics source, key,
    specification and world: it returns a result whose decision is
    [extend], [ship_treatment] or [ship_control] (never [stop], never
    another word), whose confidence is 0.5 whenever the decision is
    [extend], and whose [ai_override] is unset; its first call is the
    metrics fetch and every later call is a call to the sampler; it leaves
    the Chroma collection and the clock as they are. *)
Theorem analyze_experiment_invariants (ph : MetricsClient) (key : atom)
    (spec : pyspec) (w : world) :
  exists r w' evs,
    analyze_experiment ph key spec w = (Ok r, w') /\
    numeric_decision (decision r) /\
    ai_override r = false /\
    (decision r = "extend" -> confidence r = c0_5) /\
    trace w' = (trace w ++ EvGetMetricCounts key :: evs)%list /\
    Forall sampler_call evs /\
    collection w' = collection w /\ clock w' = clock w.
Proof. apply analyze_experiment_shape. Qed.

(** X3.  Past the gate, a metric type that is neither "rate" nor "mean"
    (any other string, a number, [None]) makes [analyze_experiment] return
    [extend] with confidence 0.5, the total as sample size and the reason
    "Unknown metric type: " followed by the type; its only call is the
    metrics fetch. *)
Theorem analyze_unknown_metric_type (ph : MetricsClient) (key : atom)
    (spec : pyspec) (w : world) (suc_c tot_c suc_t tot_t min_sample : Z)
    (pm : pyval) (ty : atom) :
  metric_counts ph key = Ok (suc_c, tot_c, suc_t, tot_t) ->
  spec_get spec "min_sample_size" (VAtom (AInt 2000))
  = Ok (VAtom (AInt min_sample)) ->
  min_sample <= tot_c + tot_t ->
  spec_get spec "primary_metric" (VDict ∅) = Ok pm ->
  val_get pm "type" (AStr "rate") = Ok ty ->
  ty <> AStr "rate" -> ty <> AStr "mean" ->
  analyze_experiment ph key spec w
  = (Ok {| decision := "extend"; confidence := c0_5;
           sample_size := tot_c + tot_t;
           reason := "Unknown metric type: " ++ pystr ty;
           prob_treatment_better := None; ai_override := false |},
     after_events w [EvGetMetricCounts key]).
Proof.
  intros Hc Hm Hge Hpm Hty Hrate Hmean.
  unfold analyze_experiment, try_except.
  rewrite (analyze_body_past_gate ph key spec w _ _ _ _ _ Hc Hm
             ty Hge (ex_intro _ pm (conj Hpm Hty))).
  rewrite decide_False by assumption.
  rewrite decide_False by assumption.
  reflexivity.
Qed.

Lemma analyze_unknown_metric_type_witness :
  analyze_experiment PostHogClient checkout_key ratio_spec
    (fresh_world (fun _ => c0_5))
  = (Ok {| decision := "extend"; confidence := c0_5;
           sample_size := 5000 + 5000;
           reason := "Unknown metric type: ratio";
           prob_treatment_better := None; ai_override := false |},
     after_events (fresh_world (fun _ => c0_5))
       [EvGetMetricCounts checkout_key]).
Proof.
  refine (analyze_unknown_metric_type PostHogClient checkout_key ratio_spec
            (fresh_world (fun _ => c0_5)) 480 5000 520 5000 2000
            (VDict {[ "type" := AStr "ratio" ]}) (AStr "ratio")
            eq_refl eq_refl _ eq_refl eq_refl _ _).
  - lia.
  - discriminate.
  - discriminate.
Defined.

(** X4.  A [min_sample_size] that is present and is [None], a string or
    a dict makes the comparison of the gate raise [TypeError]: for all
    counts, [analyze_experiment] returns [extend] with confidence 0.5, the
    reason "Analysis error: '<' not supported between instances of 'int'
    and '<type>'" and sample size 0, although the counts were fetched. *)
Theorem analyze_floor_not_comparable (ph : MetricsClient) (key : atom)
    (d : gmap string pyval) (v : pyval) (w : world) (counts : Z * Z * Z * Z) :
  metric_counts ph key = Ok counts ->
  d !! "min_sample_size" = Some v ->
  v = VAtom ANone \/ (exists s, v = VAtom (AStr s))
  \/ (exists dd, v = VDict dd) ->
  analyze_experiment ph key (SpecDict d) w
  = (Ok {| decision := "extend"; confidence := c0_5; sample_size := 0;
           reason := "Analysis error: '<' not supported between instances "
                     ++ "of 'int' and '" ++ type_name v ++ "'";
           prob_treatment_better := None; ai_override := false |},
     after_events w [EvGetMetricCounts key]).
Proof.
  intros Hc Hd Hv.
  unfold analyze_experiment, analyze_experiment_body, try_except.
  unfold mbind at 1, M_bind at 1. rewrite get_metric_counts_run, Hc.
  destruct counts as [[[suc_c tot_c] suc_t] tot_t].
  unfold mbind at 1, M_bind at 1, lift at 1. cbn [spec_get]. rewrite Hd.
  cbn [default from_option].
  unfold mbind at 1, M_bind at 1, lift at 1.
  destruct Hv as [-> | [(s & ->) | (dd & ->)]]; reflexivity.
Qed.

Lemma analyze_floor_not_comparable_witness :
  analyze_experiment PostHogClient checkout_key spec_min_none
    (fresh_world (fun _ => c0_5))
  = (Ok {| decision := "extend"; confidence := c0_5; sample_size := 0;
           reason := "Analysis error: '<' not supported between instances "
                     ++ "of 'int' and '" ++ type_name (VAtom ANone) ++ "'";
           prob_treatment_better := None; ai_override := false |},
     after_events (fresh_world (fun _ => c0_5))
       [EvGetMetricCounts checkout_key]).
Proof.
  refine (analyze_floor_not_comparable PostHogClient checkout_key
            {[ "min_sample_size" := VAtom ANone ]} (VAtom ANone)
            (fresh_world (fun _ => c0_5)) (480, 5000, 520, 5000)
            eq_refl eq_refl _).
  left. reflexivity.
Defined.

(** X5.  When the metrics source raises [e], or when the specification is
    [None] (a Chroma hit stored without metadata), [analyze_experiment]
    returns [extend] with confidence 0.5 and sample size 0 after the
    metrics fetch alone; the reason is "Analysis error: " followed by
    [str(e)], or by "'NoneType' object has no attribute 'get'". *)
Theorem analyze_without_counts_or_spec (ph : MetricsClient) (key : atom)
    (spec : pyspec) (w : world) :
  (forall e, metric_counts ph key = Raise e ->
     analyze_experiment ph key spec w
     = (Ok (analysis_error e), after_events w [EvGetMetricCounts key])) /\
  (forall counts, metric_counts ph key = Ok counts ->
     analyze_experiment ph key SpecNone w
     = (Ok (analysis_error (no_attribute_get "NoneType")),
        after_events w [EvGetMetricCounts key])) /\
  reason (analysis_error (no_attribute_get "NoneType"))
  = "Analysis error: 'NoneType' object has no attribute 'get'".
Proof.
  split; [|split].
  - intros e He.
    unfold analyze_experiment, analyze_experiment_body, try_except.
    unfold mbind at 1, M_bind at 1. rewrite get_metric_counts_run, He.
    reflexivity.
  - intros [[[suc_c tot_c] suc_t] tot_t] Hc.
    unfold analyze_experiment, analyze_experiment_body, try_except.
    unfold mbind at 1, M_bind at 1. rewrite get_metric_counts_run, Hc.
    reflexivity.
  - reflexivity.
Qed.

(** *** The sampler calls of [bayes_prob_better] *)

(** X6.  When the control arm is degenerate (more successes than trials,
    a negative success count) or the number of draws is negative,
    [bayes_prob_better] returns the neutral 0.5 after one sampler call: the
    treatment arm is never sampled and no draw is consumed. *)
Theorem bayes_degenerate_control_skips_treatment
    (suc_a tot_a suc_b tot_b sims : Z) (w : world) :
  suc_a + 1 <= 0 \/ tot_a - suc_a + 1 <= 0 \/ sims < 0 ->
  bayes_prob_better suc_a tot_a suc_b tot_b sims w
  = (Ok c0_5,
     after_events w [EvRandomBeta (suc_a + 1) (tot_a - suc_a + 1) sims]).
Proof.
  intros H.
  unfold bayes_prob_better, bayes_prob_better_body, try_except.
  unfold mbind at 1, M_bind at 1. rewrite random_beta_run.
  destruct (negb (np.fits_double (suc_a + 1)
                  && np.fits_double (tot_a - suc_a + 1))); [reflexivity|].
  destruct (suc_a + 1 <=? 0) eqn:A1; [reflexivity|].
  destruct (tot_a - suc_a + 1 <=? 0) eqn:B1; [reflexivity|].
  destruct (sims <? 0) eqn:S1; [reflexivity|].
  exfalso. lia.
Qed.

Lemma bayes_degenerate_control_skips_treatment_witness :
  bayes_prob_better 10 5 520 5000 20000 (fresh_world (fun _ => c0_9))
  = (Ok c0_5,
     after_events (fresh_world (fun _ => c0_9))
       [EvRandomBeta (10 + 1) (5 - 10 + 1) 20000]).
Proof.
  apply (bayes_degenerate_control_skips_treatment 10 5 520 5000 20000).
  right. left. lia.
Defined.

(** X7.  For sound counts ([0 <= suc <= tot] in both arms) whose Beta
    parameters convert to doubles, and for at most the 20000 draws per arm
    the worker asks for, [bayes_prob_better] makes exactly two sampler
    calls, for Beta(suc_a + 1, tot_a - suc_a + 1) and then
    Beta(suc_b + 1, tot_b - suc_b + 1), consumes [2 * sims] draws, and
    returns the fraction of pairs in which the second arm's draw is the
    larger, the first [sims] draws being the first arm's. *)
Theorem bayes_prob_better_sound_counts
    (suc_a tot_a suc_b tot_b sims : Z) (w : world) :
  0 <= suc_a <= tot_a -> tot_a + 1 < np.double_limit ->
  0 <= suc_b <= tot_b -> tot_b + 1 < np.double_limit ->
  0 <= sims <= default_sims ->
  exists w',
    bayes_prob_better suc_a tot_a suc_b tot_b sims w
    = (Ok (posterior_estimate w sims), w') /\
    cursor w' = (cursor w + 2 * Z.to_nat sims)%nat /\
    trace w'
    = (trace w ++ [EvRandomBeta (suc_a + 1) (tot_a - suc_a + 1) sims;
                   EvRandomBeta (suc_b + 1) (tot_b - suc_b + 1) sims])%list /\
    collection w' = collection w.
Proof.
  intros Ha Hla Hb Hlb Hs.
  rewrite bayes_prob_better_run by lia.
  eexists. split; [reflexivity|]. cbn [cursor trace collection].
  repeat split. lia.
Qed.

Lemma bayes_prob_better_sound_counts_witness :
  exists w',
    bayes_prob_better 480 5000 520 5000 20000 (fresh_world tape_18000)
    = (Ok (posterior_estimate (fresh_world tape_18000) 20000), w') /\
    cursor w' = (cursor (fresh_world tape_18000) + 2 * Z.to_nat 20000)%nat /\
    trace w'
    = (trace (fresh_world tape_18000)
       ++ [EvRandomBeta (480 + 1) (5000 - 480 + 1) 20000;
           EvRandomBeta (520 + 1) (5000 - 520 + 1) 20000])%list /\
    collection w' = collection (fresh_world tape_18000).
Proof.
  apply (bayes_prob_better_sound_counts 480 5000 520 5000 20000);
    first [lia | vm_compute; reflexivity | vm_compute; split; discriminate].
Defined.

(** *** The Chroma store *)

Lemma collect_similar_ok (results : QueryResult) (docs : list string) :
  forall (i : nat) (l : list Similar),
    collect_similar results i docs = Ok l ->
    map content l = docs /\
    forall (j : nat) (hit : Similar),
      l !! j = Some hit ->
      first_row_at (metadatas results) (i + j) (SpecDict ∅)
      = Ok (metadata hit) /\
      first_row_at (distances results) (i + j) c0 = Ok (distance hit).
Proof.
  induction docs as [|doc docs IH]; intros i l H; cbn [collect_similar] in H.
  - inversion H; subst. split; [reflexivity|]. intros j hit Hj.
    now rewrite lookup_nil in Hj.
  - destruct (first_row_at (metadatas results) i (SpecDict ∅)) as [m|e] eqn:Em;
      [|discriminate H].
    destruct (first_row_at (distances results) i c0) as [d|e] eqn:Ed;
      [|discriminate H].
    destruct (collect_similar results (S i) docs) as [rest|e] eqn:Er;
      [|discriminate H].
    inversion H; subst l. destruct (IH _ _ Er) as [Hmap Hrest].
    split; [cbn [map content]; now rewrite Hmap|].
    intros [|j] hit Hj.
    + inversion Hj; subst hit. rewrite Nat.add_0_r. now split.
    + cbn in Hj. replace (i + S j)%nat with (S i + j)%nat by lia.
      now apply Hrest.
Qed.

Lemma collect_similar_short_row (results : QueryResult)
    (docs : list string) :
  forall (i : nat),
    (exists j, (j < length docs)%nat /\
       ((exists e, first_row_at (metadatas results) (i + j) (SpecDict ∅)
                   = Raise e) \/
        (exists e, first_row_at (distances results) (i + j) c0 = Raise e))) ->
    exists e, collect_similar results i docs = Raise e.
Proof.
  induction docs as [|doc docs IH]; intros i (j & Hj & Hbad).
  - cbn in Hj. lia.
  - cbn [collect_similar].
    destruct j as [|j].
    + rewrite Nat.add_0_r in Hbad.
      destruct Hbad as [(e & ->)|(e & He)]; [eauto|].
      rewrite He.
      destruct (first_row_at (metadatas results) i (SpecDict ∅)); eauto.
    + destruct (IH (S i)) as (e & ->).
      { exists j. split; [cbn in Hj; lia|].
        now replace (S i + j)%nat with (i + S j)%nat by lia. }
      destruct (first_row_at (metadatas results) i (SpecDict ∅)); [|eauto].
      destruct (first_row_at (distances results) i c0); eauto.
Qed.

Lemma collect_similar_indexed (results : QueryResult) (docs : list string) :
  forall (i : nat),
    (forall j, (j < length docs)%nat ->
       exists m d,
         first_row_at (metadatas results) (i + j) (SpecDict ∅) = Ok m /\
         first_row_at (distances results) (i + j) c0 = Ok d) ->
    exists l, collect_similar results i docs = Ok l.
Proof.
  induction docs as [|doc docs IH]; intros i Hall; cbn [collect_similar].
  - eauto.
  - destruct (Hall 0%nat) as (m & d & Hm & Hd); [cbn; lia|].
    rewrite Nat.add_0_r in Hm, Hd. rewrite Hm, Hd.
    destruct (IH (S i)) as (l & ->); [|eauto].
    intros j Hj. replace (S i + j)%nat with (i + S j)%nat by lia.
    apply Hall. cbn. lia.
Qed.

(** X8.  [retrieve_similar_experiments] never raises and makes one call,
    the query.  Its result is all or nothing.  When the query raises the
    result is empty.  When the query returns, let [docs] be its first
    document row (nothing, when there is no row): if every index of
    [docs] can be read in the first metadata row and in the first distance
    row (an empty list of rows reads as [{}] and [0]), the result has one
    hit per document, in order, the hit at index [j] carrying the document,
    the metadata and the distance at index [j]; if some index cannot be
    read, the result is empty. *)
Theorem retrieve_similar_all_or_nothing (c : ChromaCollection) (q : atom)
    (n : Z) (w : world) :
  exists l,
    retrieve_similar_experiments c q n w
    = (Ok l, after_events w [EvChromaQuery q n]) /\
    (forall e, query c (collection w) q n = Raise e -> l = []) /\
    (forall res, query c (collection w) q n = Ok res ->
       let docs := hd [] (documents res) in
       let readable :=
         forall j, (j < length docs)%nat ->
           exists m d,
             first_row_at (metadatas res) j (SpecDict ∅) = Ok m /\
             first_row_at (distances res) j c0 = Ok d in
       (readable -> map content l = docs) /\
       (~ readable -> l = []) /\
       forall (j : nat) (hit : Similar),
         l !! j = Some hit ->
         first_row_at (metadatas res) j (SpecDict ∅) = Ok (metadata hit) /\
         first_row_at (distances res) j c0 = Ok (distance hit)).
Proof.
  rewrite retrieve_similar_experiments_run. eexists. split; [reflexivity|].
  unfold similar_of.
  destruct (query c (collection w) q n) as [res|e].
  - split; [discriminate|]. intros res' Heq. inversion Heq; subst res'.
    cbv zeta.
    destruct (documents res) as [|docs more]; cbn [hd].
    { split; [reflexivity|]. split; [reflexivity|].
      intros j hit Hj. now rewrite lookup_nil in Hj. }
    destruct (collect_similar res 0 docs) as [l|e] eqn:El.
    + destruct (collect_similar_ok res docs 0 l El) as [Hmap Hhits].
      split; [intros _; exact Hmap|]. split; [|exact Hhits].
      intros Hno. exfalso. apply Hno. intros j Hj.
      assert (Hlen : length l = length docs)
        by (now rewrite <- Hmap, length_map).
      destruct (lookup_lt_is_Some_2 l j) as (hit & Hhit); [lia|].
      destruct (Hhits j hit Hhit) as [Hm Hd]. eauto.
    + split; [|split; [reflexivity|]].
      * intros Hall.
        destruct (collect_similar_indexed res docs 0 Hall) as (l & Hl).
        rewrite Hl in El. discriminate El.
      * intros j hit Hj. now rewrite lookup_nil in Hj.
  - split; [reflexivity|]. discriminate.
Qed.

(** X9.  When the first metadata row is shorter than the first document
    row, indexing it raises [IndexError] inside the loop and
    [retrieve_similar_experiments] returns the empty list: the hits already
    built are dropped, not truncated to the shorter row. *)
Theorem retrieve_similar_short_row_drops_all (c : ChromaCollection)
    (q : atom) (n : Z) (w : world) (res : QueryResult)
    (docs : list string) (more : list (list string))
    (row : list pyspec) (more' : list (list pyspec)) :
  query c (collection w) q n = Ok res ->
  documents res = docs :: more ->
  metadatas res = row :: more' ->
  (length row < length docs)%nat ->
  retrieve_similar_experiments c q n w
  = (Ok [], after_events w [EvChromaQuery q n]).
Proof.
  intros Hq Hdocs Hmeta Hlen.
  rewrite retrieve_similar_experiments_run. unfold similar_of.
  rewrite Hq, Hdocs.
  destruct (collect_similar_short_row res docs 0) as (e & ->);
    [|reflexivity].
  exists (length row). split; [exact Hlen|]. left.
  unfold first_row_at. rewrite Hmeta. cbn [Nat.add].
  rewrite (proj2 (lookup_ge_None row (length row))) by lia. eauto.
Qed.

Lemma retrieve_similar_short_row_drops_all_witness :
  retrieve_similar_experiments ragged_store checkout_key 5
    (fresh_world (fun _ => c0_5))
  = (Ok [], after_events (fresh_world (fun _ => c0_5))
              [EvChromaQuery checkout_key 5]).
Proof.
  refine (retrieve_similar_short_row_drops_all ragged_store checkout_key 5
            (fresh_world (fun _ => c0_5))
            {| documents := [["first"; "second"]];
               metadatas := [[gated_metadata]];
               distances := [] |}
            ["first"; "second"] [] [gated_metadata] []
            eq_refl eq_refl eq_refl _).
  cbn. lia.
Defined.

Lemma store_experiment_run (c : ChromaCollection) (key : atom)
    (spec : gmap string pyval) (outcome : option Outcome) (w : world) :
  store_experiment c key spec outcome w
  = (Ok tt,
     match render_error spec with
     | Some _ => w
     | None =>
         {| tape := tape w; cursor := cursor w;
            collection :=
              collection w
              ++ stored_by c (collection w) (entry_of key spec outcome);
            clock := clock w;
            trace := trace w ++ [EvChromaAdd (entry_of key spec outcome)] |}
     end).
Proof.
  unfold store_experiment, stored_by, entry_of.
  unfold try_except, mbind, M_bind, emit, get_world, lift, raise, persist,
    mret, M_ret.
  destruct (render_error spec) as [e|]; [reflexivity|].
  cbn [collection trace clock tape cursor].
  destruct (add_error c (collection w) _) as [e|];
    cbn [collection trace clock tape cursor];
    [now rewrite app_nil_r | reflexivity].
Qed.

(** X10.  [store_experiment] never raises.  When rendering the document
    fails ([primary_metric] is no dict, [variants] cannot be joined)
    nothing is sent to the collection and the world is unchanged; otherwise
    [add] is called once with the entry, which the collection gains unless
    [add] raises.  Entries already in the collection are never removed or
    changed. *)
Theorem store_experiment_total (c : ChromaCollection) (key : atom)
    (spec : gmap string pyval) (outcome : option Outcome) (w : world) :
  exists w',
    store_experiment c key spec outcome w = (Ok tt, w') /\
    clock w' = clock w /\ cursor w' = cursor w /\
    (forall e, render_error spec = Some e -> w' = w) /\
    (render_error spec = None ->
       trace w' = (trace w ++ [EvChromaAdd (entry_of key spec outcome)])%list /\
       (forall e, add_error c (collection w) (entry_of key spec outcome)
                  = Some e -> collection w' = collection w) /\
       (add_error c (collection w) (entry_of key spec outcome) = None ->
          collection w'
          = (collection w ++ [entry_of key spec outcome])%list)).
Proof.
  rewrite store_experiment_run. eexists. split; [reflexivity|].
  unfold stored_by.
  destruct (render_error spec) as [e|].
  - repeat split; try reflexivity; discriminate.
  - cbn [clock cursor trace collection].
    split; [reflexivity|]. split; [reflexivity|]. split; [discriminate|].
    intros _. split; [reflexivity|]. split.
    + intros e ->. now rewrite app_nil_r.
    + intros ->. reflexivity.
Qed.

(** *** [handle_experiment_decision] *)

Lemma handle_experiment_decision_cases (self : MonitoringWorker) (key : atom)
    (dec : string) (conf : float) (size : Z) (why : string) (w : world) :
  exists w',
    handle_experiment_decision self key dec conf size why w = (Ok tt, w') /\
    clock w' = clock w /\ cursor w' = cursor w /\
    match similar_of (memory self) (collection w) key 5 with
    | [] =>
        trace w' = (trace w ++ [EvChromaQuery key 5;
                                EvSlackDecision key dec conf size])%list /\
        collection w' = collection w
    | _ :: _ =>
        trace w'
        = (trace w
           ++ [EvChromaQuery key 5;
               EvChromaAdd
                 (entry_of key ∅
                    (Some (outcome_of dec conf size why (clock w))));
               EvSlackDecision key dec conf size])%list /\
        collection w'
        = (collection w
           ++ stored_by (memory self) (collection w)
                (entry_of key ∅
                   (Some (outcome_of dec conf size why (clock w)))))%list
    end.
Proof.
  unfold handle_experiment_decision.
  unfold try_except at 1. unfold mbind at 1, M_bind at 1, get_world at 1.
  unfold mbind at 1, M_bind at 1.
  rewrite retrieve_similar_experiments_run.
  destruct (similar_of (memory self) (collection w) key 5) as [|first rest].
  - unfold post_experiment_decision, mbind, M_bind, emit, lift, mret, M_ret.
    unfold after_events. cbn [collection trace clock tape cursor].
    destruct (post_decision_outcome (slack self) key dec conf size)
      as [b|e'];
      (eexists; split; [reflexivity|]; cbn [collection trace clock cursor];
       rewrite <- ?app_assoc; repeat split; reflexivity).
  - unfold mbind at 1, M_bind at 1. rewrite store_experiment_run.
    replace (render_error ∅) with (@None exn) by reflexivity.
    unfold post_experiment_decision, mbind, M_bind, emit, lift, mret, M_ret.
    unfold after_events, outcome_of. cbn [collection trace clock tape cursor].
    destruct (post_decision_outcome (slack self) key dec conf size)
      as [b|e'];
      (eexists; split; [reflexivity|]; cbn [collection trace clock cursor];
       rewrite <- ?app_assoc; repeat split; reflexivity).
Qed.

(** X11.  [handle_experiment_decision] never raises, whatever the store
    and Slack do.  It queries the store once; if the query has a hit it
    hands one outcome entry (empty specification, the decision, the
    confidence, the sample size, the reason, the loop time) to the
    collection, which gains it unless [add] raises; if the query has no hit
    it stores nothing.  In both cases it then posts the decision to Slack
    once: a store that fails or has no hit does not prevent the
    notification, and a notification that fails is swallowed. *)
Theorem handle_experiment_decision_total (self : MonitoringWorker)
    (key : atom) (dec : string) (conf : float) (size : Z) (why : string)
    (w : world) :
  exists w',
    handle_experiment_decision self key dec conf size why w = (Ok tt, w') /\
    clock w' = clock w /\ cursor w' = cursor w /\
    match similar_of (memory self) (collection w) key 5 with
    | [] =>
        trace w' = (trace w ++ [EvChromaQuery key 5;
                                EvSlackDecision key dec conf size])%list /\
        collection w' = collection w
    | _ :: _ =>
        trace w'
        = (trace w
           ++ [EvChromaQuery key 5;
               EvChromaAdd
                 (entry_of key ∅
                    (Some (outcome_of dec conf size why (clock w))));
               EvSlackDecision key dec conf size])%list /\
        collection w'
        = (collection w
           ++ stored_by (memory self) (collection w)
                (entry_of key ∅
                   (Some (outcome_of dec conf size why (clock w)))))%list
    end.
Proof. apply handle_experiment_decision_cases. Qed.

(** *** Every path of a monitoring tick *)

(** X12.  A tick whose key has no hit in the store ends there: after the
    one query the block returns, and leaving [async with msg.process()]
    acknowledges the message.  Nothing else happens: no metrics fetch, no
    review, no store, no notification, no sleep, no publish, no reject; the
    experiment leaves the monitoring loop silently.  The tick raises only
    if the acknowledgement does. *)
Theorem monitor_missing_spec_dropped (self : MonitoringWorker)
    (msg : IncomingMessage) (w : world) (payload : pyval) (key : atom) :
  body msg = Ok payload ->
  val_get payload "experiment_key" ANone = Ok key ->
  similar_of (memory self) (collection w) key 5 = [] ->
  on_monitor_experiment self msg w
  = (match ack_error msg with
     | Some e => Raise e
     | None => Ok tt
     end, after_events w [EvChromaQuery key 5; EvAck]).
Proof.
  intros Hbody Hkey Hsim.
  rewrite (on_monitor_experiment_settles self msg w
             (after_events w [EvChromaQuery key 5]) (Ok tt)).
  - cbn [raised settlement_result settlement_events].
    rewrite after_events_app. reflexivity.
  - unfold on_monitor_experiment_body.
    unfold mbind at 1, M_bind at 1, lift at 1. rewrite Hbody.
    unfold mbind at 1, M_bind at 1, lift at 1. rewrite Hkey.
    unfold mbind at 1, M_bind at 1.
    rewrite retrieve_similar_experiments_run, Hsim. reflexivity.
Qed.

Lemma monitor_missing_spec_dropped_witness :
  on_monitor_experiment
    (new_MonitoringWorker PostHogClient slack_ok false empty_store
       (supervisor.create_monitoring_chat autogen_stop))
    monitor_message (fresh_world (fun _ => c0_5))
  = (match ack_error monitor_message with
     | Some e => Raise e
     | None => Ok tt
     end, after_events (fresh_world (fun _ => c0_5))
            [EvChromaQuery checkout_key 5; EvAck]).
Proof.
  exact (monitor_missing_spec_dropped
           (new_MonitoringWorker PostHogClient slack_ok false empty_store
              (supervisor.create_monitoring_chat autogen_stop))
           monitor_message (fresh_world (fun _ => c0_5))
           (VDict {[ "experiment_key" := checkout_key ]}) checkout_key
           eq_refl eq_refl eq_refl).
Defined.

(** X13.  A message whose body does not decode, or decodes to a value that
    is no dict, is rejected by the handler without requeue and nothing
    else is done with it: no query, no fetch, no store, no notification.
    The tick then always raises.  When the broker takes the rejection,
    leaving [async with msg.process()] acknowledges a message that is
    already processed, which raises [MessageProcessError] before anything
    is sent.  When the rejection itself raises, its error goes on, after a
    second rejection if the channel is open. *)
Theorem monitor_malformed_message_rejected (self : MonitoringWorker)
    (msg : IncomingMessage) (w : world) (e : exn) :
  (body msg = Raise e \/
   exists payload, body msg = Ok payload /\
     val_get payload "experiment_key" ANone = Raise e) ->
  on_monitor_experiment self msg w
  = (match reject_error msg with
     | None => Raise (MessageProcessError "Message already processed")
     | Some e' => Raise e'
     end,
     after_events w
       match reject_error msg with
       | None => [EvReject false]
       | Some _ =>
           if channel_is_closed msg then [EvReject false]
           else [EvReject false; EvReject false]
       end).
Proof.
  intros Hbad.
  rewrite (on_monitor_experiment_settles self msg w w (Raise e));
    [reflexivity|].
  unfold on_monitor_experiment_body.
  unfold mbind at 1, M_bind at 1, lift at 1.
  destruct Hbad as [Hbody|(payload & Hbody & Hkey)]; rewrite Hbody.
  - reflexivity.
  - unfold mbind at 1, M_bind at 1, lift at 1. rewrite Hkey. reflexivity.
Qed.

Lemma monitor_malformed_message_rejected_witness :
  on_monitor_experiment
    (new_MonitoringWorker PostHogClient slack_ok false one_hit_store
       (supervisor.create_monitoring_chat autogen_stop))
    garbled_message (fresh_world (fun _ => c0_5))
  = (match reject_error garbled_message with
     | None => Raise (MessageProcessError "Message already processed")
     | Some e' => Raise e'
     end,
     after_events (fresh_world (fun _ => c0_5))
       match reject_error garbled_message with
       | None => [EvReject false]
       | Some _ =>
           if channel_is_closed garbled_message then [EvReject false]
           else [EvReject false; EvReject false]
       end).
Proof.
  apply (monitor_malformed_message_rejected _ garbled_message _
           (Exn "JSONDecodeError" "Expecting value")).
  left. reflexivity.
Defined.

(** X14.  What a tick never does, for every worker, message and world: it
    publishes only to [exp.monitor], only the continuation of a key for
    which it has, in the same tick, notified the decision [extend] and
    slept the monitoring interval; and it never requeues a message it
    rejects. *)
Theorem monitor_publishes_only_after_extend (self : MonitoringWorker)
    (msg : IncomingMessage) (w : world) :
  exists evs,
    trace (snd (on_monitor_experiment self msg w)) = (trace w ++ evs)%list /\
    (forall rk p,
        EvPublish rk p ∈ evs ->
        rk = "exp.monitor" /\
        exists key conf size,
          p = continuation_payload key /\
          EvSlackDecision key "extend" conf size ∈ evs /\
          EvSleep (monitoring_interval self) ∈ evs) /\
    (forall b, EvReject b ∈ evs -> b = false).
Proof.
  destruct (on_monitor_experiment_cases self msg w) as (res & w' & -> & Hcases).
  cbn [snd].
  destruct Hcases as [(e & _ & _ & ->)|(payload & key & _ & _ & Hrest)].
  { eexists. split; [reflexivity|]. split.
    - intros rk p Hin. apply settlement_events_elem in Hin.
      destruct Hin as [Hin|Hin]; discriminate Hin.
    - intros b Hin. apply settlement_events_elem in Hin.
      destruct Hin as [Hin|Hin]; [discriminate Hin | now inversion Hin]. }
  destruct Hrest as [(_ & _ & ->)|Hrest].
  { eexists. split; [reflexivity|]. split.
    - intros rk p Hin. rewrite elem_of_cons in Hin.
      destruct Hin as [Hin|Hin]; [discriminate Hin|].
      apply settlement_events_elem in Hin.
      destruct Hin as [Hin|Hin]; discriminate Hin.
    - intros b Hin. rewrite elem_of_cons in Hin.
      destruct Hin as [Hin|Hin]; [discriminate Hin|].
      apply settlement_events_elem in Hin.
      destruct Hin as [Hin|Hin]; [discriminate Hin | now inversion Hin]. }
  destruct Hrest as (first & rest & a & f & w2 & w3 & evs_a & evs_r & tail
                     & _ & _ & _ & Ht3 & Hsa & Hsr & _ & _ & Ht & Htail).
  rewrite Ht, Ht3, <- app_assoc. eexists. split; [reflexivity|].
  assert (Hpre : forall ev,
             ev ∈ (EvChromaQuery key 5 :: EvGetMetricCounts key
                     :: evs_a ++ evs_r)%list ->
             match ev with
             | EvPublish _ _ | EvReject _ => False
             | _ => True
             end).
  { intros ev Hin. rewrite !elem_of_cons, elem_of_app in Hin.
    destruct Hin as [->|[->|[Hin|Hin]]]; [exact I | exact I | |].
    - pose proof (Forall_elem_of _ _ _ Hsa Hin) as H.
      destruct ev; try contradiction; exact I.
    - pose proof (Forall_elem_of _ _ _ Hsr Hin) as H.
      destruct ev; try contradiction; exact I. }
  split.
  - intros rk p Hin. rewrite elem_of_app in Hin.
    destruct Hin as [Hin|Hin]; [destruct (Hpre _ Hin)|].
    cbn [app] in Hin. rewrite !elem_of_cons in Hin.
    destruct Hin as [Hin|[Hin|[Hin|Hin]]]; try discriminate Hin.
    destruct Htail as [(Hext & -> & _)|(_ & -> & _)].
    + rewrite elem_of_cons, elem_of_app in Hin.
      destruct Hin as [Hin|[Hin|Hin]]; [discriminate Hin| |].
      * apply publish_events_elem in Hin. inversion Hin; subst rk p.
        split; [reflexivity|].
        exists key, (confidence f), (sample_size f). split; [reflexivity|].
        rewrite <- Hext. split.
        -- apply elem_of_app. right. cbn [app]. rewrite !elem_of_cons.
           right. right. now left.
        -- apply elem_of_app. right. cbn [app]. rewrite !elem_of_cons.
           right. right. right. now left.
      * apply settlement_events_elem in Hin.
        destruct Hin as [Hin|Hin]; discriminate Hin.
    + apply settlement_events_elem in Hin.
      destruct Hin as [Hin|Hin]; discriminate Hin.
  - intros b Hin. rewrite elem_of_app in Hin.
    destruct Hin as [Hin|Hin]; [destruct (Hpre _ Hin)|].
    cbn [app] in Hin. rewrite !elem_of_cons in Hin.
    destruct Hin as [Hin|[Hin|[Hin|Hin]]]; try discriminate Hin.
    destruct Htail as [(Hext & -> & _)|(_ & -> & _)].
    + rewrite elem_of_cons, elem_of_app in Hin.
      destruct Hin as [Hin|[Hin|Hin]]; [discriminate Hin| |].
      * apply publish_events_elem in Hin. discriminate Hin.
      * apply settlement_events_elem in Hin.
        destruct Hin as [Hin|Hin]; [discriminate Hin | now inversion Hin].
    + apply settlement_events_elem in Hin.
      destruct Hin as [Hin|Hin]; [discriminate Hin | now inversion Hin].
Qed.

(** On a message object that does offer [reply] and a
    [default_exchange], the same tick publishes the continuation and the
    message is acknowledged. *)
Lemma replying_message_publishes :
  exists w',
    on_monitor_experiment
      (new_MonitoringWorker PostHogClient slack_ok false one_hit_store
         (supervisor.create_monitoring_chat autogen_stop))
      replying_message (fresh_world (fun _ => c0_5)) = (Ok tt, w') /\
    exists before,
      trace w'
      = (before ++ [EvSleep 600;
                    EvPublish "exp.monitor"
                      (continuation_payload checkout_key);
                    EvAck])%list.
Proof.
  eexists. split; [vm_compute; reflexivity|].
  cbn [trace]. eexists [_; _; _; _; _; _]. reflexivity.
Qed.

(** X15.  The store is append-only across a tick: for every worker,
    message and world, the collection after the tick is the collection
    before it followed by at most one entry.  That entry is an outcome
    record: it is stored with an empty specification, and the decision,
    the confidence and the sample size its document is rendered from are
    those of the Slack notification made in the same tick. *)
Theorem monitor_store_append_only (self : MonitoringWorker)
    (msg : IncomingMessage) (w : world) :
  exists l evs,
    collection (snd (on_monitor_experiment self msg w))
    = (collection w ++ l)%list /\
    trace (snd (on_monitor_experiment self msg w)) = (trace w ++ evs)%list /\
    (length l <= 1)%nat /\
    forall e, e ∈ l ->
      entry_spec e = ∅ /\
      exists o,
        entry_outcome e = Some o /\
        EvSlackDecision (entry_key e) (outcome_decision o)
          (outcome_confidence o) (final_sample_size o) ∈ evs.
Proof.
  destruct (on_monitor_experiment_cases self msg w) as (res & w' & -> & Hcases).
  cbn [snd].
  destruct Hcases as [(e & _ & _ & ->)|(payload & key & _ & _ & Hrest)].
  { exists [], (settlement_events msg true).
    cbn [collection trace after_events]. rewrite app_nil_r.
    split; [reflexivity|]. split; [reflexivity|]. split; [cbn; lia|].
    intros e' Hin. now apply elem_of_nil in Hin. }
  destruct Hrest as [(_ & _ & ->)|Hrest].
  { exists [], (EvChromaQuery key 5 :: settlement_events msg false).
    cbn [collection trace after_events]. rewrite app_nil_r.
    split; [reflexivity|]. split; [reflexivity|]. split; [cbn; lia|].
    intros e' Hin. now apply elem_of_nil in Hin. }
  destruct Hrest as (first & rest & a & f & w2 & w3 & evs_a & evs_r & tail
                     & _ & _ & _ & Ht3 & _ & _ & Hc & _ & Ht & _).
  eexists _, _. split; [exact Hc|].
  split; [rewrite Ht, Ht3, <- app_assoc; reflexivity|].
  unfold stored_by.
  destruct (add_error (memory self) (collection w) _).
  - split; [cbn; lia|]. intros e' Hin. now apply elem_of_nil in Hin.
  - split; [cbn; lia|]. intros e' Hin.
    apply list_elem_of_singleton in Hin. subst e'.
    split; [reflexivity|]. eexists. split; [reflexivity|].
    cbn [outcome_entry entry_key outcome_decision outcome_confidence
         final_sample_size].
    apply elem_of_app. right. cbn [app]. rewrite !elem_of_cons.
    right. right. now left.
Qed.

Lemma analyze_experiment_spec_none (ph : MetricsClient) (key : atom)
    (w : world) :
  exists e,
    analyze_experiment ph key SpecNone w
    = (Ok (analysis_error e), after_events w [EvGetMetricCounts key]).
Proof.
  unfold analyze_experiment, analyze_experiment_body, try_except.
  unfold mbind at 1, M_bind at 1. rewrite get_metric_counts_run.
  destruct (metric_counts ph key) as [[[[suc_c tot_c] suc_t] tot_t]|e];
    eexists; reflexivity.
Qed.

(** X16.  A first hit stored without metadata ([None]) ends the
    monitoring of its experiment on an aio_pika delivery.  Whatever the
    metrics source, the reviewer and Slack do, the analysis fails on
    [spec.get], the reviewer is not consulted (rendering its prompt fails
    the same way), and the decision is [extend] with confidence 0.5 and
    sample size 0; it is handed to the store and to Slack and the worker
    sleeps the monitoring interval.  Then the publish expression raises
    [AttributeError]: the message is rejected without requeue, nothing is
    published, and, the broker taking the rejection, the tick raises
    [MessageProcessError]. *)
Theorem monitor_bare_hit_rejected (self : MonitoringWorker)
    (msg : IncomingMessage) (w : world) (payload : pyval) (key : atom)
    (first : Similar) (rest : list Similar) :
  body msg = Ok payload ->
  val_get payload "experiment_key" ANone = Ok key ->
  default_exchange msg = None ->
  reject_error msg = None ->
  similar_of (memory self) (collection w) key 5 = first :: rest ->
  metadata first = SpecNone ->
  exists w' e,
    on_monitor_experiment self msg w
    = (Raise (MessageProcessError "Message already processed"), w') /\
    trace w'
    = (trace w
       ++ [EvChromaQuery key 5; EvGetMetricCounts key; EvChromaQuery key 5;
           EvChromaAdd (outcome_entry key (analysis_error e) (clock w));
           EvSlackDecision key "extend" c0_5 0;
           EvSleep (monitoring_interval self);
           EvReject false])%list.
Proof.
  intros Hbody Hkey Hchan Hrej Hsim Hmeta.
  destruct (on_monitor_experiment_cases self msg w)
    as (res & w' & Hrun & Hcases).
  destruct Hcases as [(e & Hbad & _)|(payload' & key' & Hb' & Hk' & Hrest)].
  { destruct Hbad as [Hbad|(p & Hb' & Hbad)]; [congruence|].
    rewrite Hbody in Hb'. inversion Hb'; subst p. congruence. }
  rewrite Hbody in Hb'. inversion Hb'; subst payload'.
  rewrite Hkey in Hk'. inversion Hk'; subst key'.
  destruct Hrest as [(Hnil & _)|Hrest]; [congruence|].
  destruct Hrest as (first' & rest' & a & f & w2 & w3 & evs_a & evs_r & tail
                     & Hsim' & Han & Hai & _ & _ & _ & _ & _ & Ht & Htail).
  rewrite Hsim in Hsim'. inversion Hsim'; subst first' rest'.
  rewrite Hmeta in Han, Hai.
  destruct (analyze_experiment_spec_none (posthog self) key
              (after_events w [EvChromaQuery key 5])) as (e & Han').
  rewrite Han' in Han. inversion Han; subst a w2.
  destruct (use_ai_analyst_calls (analyst self) key SpecNone
              (analysis_error e)
              (after_events (after_events w [EvChromaQuery key 5])
                 [EvGetMetricCounts key]))
    as (f' & w3' & evs & Hai' & Ht3 & _ & Hnone & _).
  rewrite Hai' in Hai. inversion Hai; subst f' w3'.
  destruct (Hnone eq_refl) as [-> ->].
  rewrite app_nil_r in Ht3. cbn [trace after_events] in Ht3.
  destruct Htail as [(_ & Htl & Hres)|(Hne & _)]; [|now contradiction Hne].
  unfold publish_events, publish_result in Htl, Hres.
  rewrite Hchan in Htl, Hres. cbn [raised app] in Htl, Hres.
  unfold settlement_events in Htl. unfold settlement_result in Hres.
  rewrite Hrej in Htl, Hres. subst tail res.
  exists w', e. split; [exact Hrun|].
  rewrite Ht, Ht3, <- !app_assoc. reflexivity.
Qed.

Lemma monitor_bare_hit_rejected_witness :
  exists w' e,
    on_monitor_experiment
      (new_MonitoringWorker PostHogClient slack_ok false bare_hit_store
         (supervisor.create_monitoring_chat autogen_stop))
      monitor_message (fresh_world (fun _ => c0_5))
    = (Raise (MessageProcessError "Message already processed"), w') /\
    trace w'
    = (trace (fresh_world (fun _ => c0_5))
       ++ [EvChromaQuery checkout_key 5; EvGetMetricCounts checkout_key;
           EvChromaQuery checkout_key 5;
           EvChromaAdd (outcome_entry checkout_key (analysis_error e)
                          (clock (fresh_world (fun _ => c0_5))));
           EvSlackDecision checkout_key "extend" c0_5 0;
           EvSleep (monitoring_interval
                      (new_MonitoringWorker PostHogClient slack_ok false
                         bare_hit_store
                         (supervisor.create_monitoring_chat autogen_stop)));
           EvReject false])%list.
Proof.
  exact (monitor_bare_hit_rejected
           (new_MonitoringWorker PostHogClient slack_ok false bare_hit_store
              (supervisor.create_monitoring_chat autogen_stop))
           monitor_message (fresh_world (fun _ => c0_5))
           (VDict {[ "experiment_key" := checkout_key ]}) checkout_key
           {| content := "Experiment: checkout_button_color";
              metadata := SpecNone; distance := c0 |} []
           eq_refl eq_refl eq_refl eq_refl eq_refl eq_refl).
Defined.

(** *** The patterns *)



Lemma span_app (p : ascii -> bool) (a t : string) :
  all_chars p a = true ->
  match t with
  | String c _ => p c = false
  | EmptyString => True
  end ->
  re.span p (a ++ t) = (a, t).
Proof.
  intros Ha Ht. induction a as [|c a IH].
  - change ("" ++ t) with t.
    destruct t as [|c t]; [reflexivity|]. cbn [re.span].
    cbn beta iota in Ht. now rewrite Ht.
  - change (String c a ++ t) with (String c (a ++ t)). cbn [re.span].
    cbn [all_chars] in Ha. apply andb_true_iff in Ha as [Hc Ha].
    rewrite Hc, (IH Ha). reflexivity.
Qed.






(** *** The advisory confidence *)








Lemma SFltb_irrefl (x : float) : SFltb x x = false.
Proof.
  unfold SFltb, SFcompare.
  destruct x as [s|s| |s m e]; try reflexivity.
  - destruct s; reflexivity.
  - destruct s; rewrite Z.compare_refl, Pos.compare_cont_refl; reflexivity.
Qed.

(** X18.  The override rule, in both directions.  When the reply holds a
    [DECISION:] token with the word [g] and the advisory confidence is [c]
    (the number after [CONFIDENCE:], or the default 0.8), the result is
    the override, with confidence [c] as parsed and not clamped to [0, 1],
    if [c] is strictly above the numeric confidence, and the numeric result
    otherwise; in particular an advisory confidence equal to the numeric
    one does not override. *)
Theorem advisory_confidence_rule (reviewer : AdvisoryReviewer) (key : atom)
    (spec : pyspec) (a : DecisionResult) (w : world) (reply g : string)
    (c : float) :
  advisory_reply reviewer key spec a = Some reply ->
  re.search_decision reply = Some g ->
  ai_confidence_of (re.search_confidence reply) = Ok c ->
  exists r w',
    use_ai_analyst reviewer key spec a w = (Ok r, w') /\
    (gtb c (confidence a) = true ->
     r = ai_override_result (re.lower g) c
           (default "AI analysis" (re.search_rationale reply)) a) /\
    (gtb c (confidence a) = false -> r = a) /\
    (c = confidence a -> r = a).
Proof.
  intros Hreply Hd Hc.
  destruct (use_ai_analyst_run reviewer key spec a w) as (w' & Hrun).
  rewrite Hreply in Hrun. unfold review_reply in Hrun.
  rewrite Hd, Hc in Hrun.
  eexists _, w'. split; [exact Hrun|].
  split; [intros ->; reflexivity|].
  split; [intros ->; reflexivity|].
  intros ->. unfold gtb. now rewrite SFltb_irrefl.
Qed.

Lemma advisory_confidence_rule_witness :
  exists r w',
    use_ai_analyst (replying "DECISION: Stop CONFIDENCE: 7") checkout_key
      spec_min_2000 extend_result (fresh_world (fun _ => c0_5)) = (Ok r, w') /\
    (gtb (of_ratio 7 1) (confidence extend_result) = true ->
     r = ai_override_result (re.lower "Stop") (of_ratio 7 1)
           (default "AI analysis"
              (re.search_rationale "DECISION: Stop CONFIDENCE: 7"))
           extend_result) /\
    (gtb (of_ratio 7 1) (confidence extend_result) = false ->
     r = extend_result) /\
    (of_ratio 7 1 = confidence extend_result -> r = extend_result).
Proof.
  exact (advisory_confidence_rule (replying "DECISION: Stop CONFIDENCE: 7")
           checkout_key spec_min_2000 extend_result
           (fresh_world (fun _ => c0_5)) "DECISION: Stop CONFIDENCE: 7"
           "Stop" (of_ratio 7 1) eq_refl eq_refl eq_refl).
Defined.

(** X19.  [float(s)] on the confidence group rejects a second dot: for
    digit strings [a] and [b], the text [a.b.] followed by anything raises
    [ValueError].  A confidence written at the end of a sentence
    ("CONFIDENCE: 0.9.") therefore does not parse, and the numeric
    decision stands. *)
Theorem float_of_string_second_dot (a b rest : string) :
  all_chars re.is_digit a = true ->
  all_chars re.is_digit b = true ->
  float_of_string (a ++ "." ++ b ++ "." ++ rest)
  = Raise (ValueError ("could not convert string to float: '"
                       ++ (a ++ "." ++ b ++ "." ++ rest) ++ "'")).
Proof.
  intros Ha Hb. unfold float_of_string.
  rewrite (span_app re.is_digit a ("." ++ b ++ "." ++ rest) Ha)
    by reflexivity.
  change ("." ++ b ++ "." ++ rest) with (String "." (b ++ "." ++ rest)).
  cbv beta iota zeta.
  rewrite (span_app re.is_digit b ("." ++ rest) Hb) by reflexivity.
  reflexivity.
Qed.

Lemma float_of_string_second_dot_witness :
  float_of_string ("0" ++ "." ++ "9" ++ "." ++ "")
  = Raise (ValueError ("could not convert string to float: '"
                       ++ ("0" ++ "." ++ "9" ++ "." ++ "") ++ "'")).
Proof.
  exact (float_of_string_second_dot "0" "9" "" eq_refl eq_refl).
Defined.

(** *** Binary64 quotients of a smaller by a larger number *)

Lemma Zdigits2_log2 (p : positive) :
  Zdigits2 (Z.pos p) = Z.log2 (Z.pos p) + 1.
Proof.
  assert (H : forall q, digits2_pos q = Pos.size q)
    by (induction q; cbn; congruence).
  cbn [Zdigits2]. rewrite H.
  destruct p; cbn [Pos.size Z.log2]; lia.
Qed.

Lemma Zdigits2_nonneg (m : Z) : 0 <= m -> 0 <= Zdigits2 m.
Proof. destruct m; cbn; lia. Qed.

Lemma Zdigits2_lt_pow2 (m a : Z) :
  0 <= a -> 0 <= m < 2 ^ a -> Zdigits2 m <= a.
Proof.
  intros Ha [Hm Hlt]. destruct m as [|p|p]; [cbn; lia | | lia].
  rewrite Zdigits2_log2.
  assert (Z.log2 (Z.pos p) < a) by (apply Z.log2_lt_pow2; lia). lia.
Qed.

Lemma Zdigits2_le_pow2 (m a : Z) :
  0 <= a -> 0 <= m <= 2 ^ a -> Zdigits2 m <= a + 1.
Proof.
  intros Ha [Hm Hle]. apply Zdigits2_lt_pow2; [lia|]. split; [lia|].
  rewrite Z.pow_add_r by lia. change (2 ^ 1) with 2.
  assert (0 < 2 ^ a) by (apply Z.pow_pos_nonneg; lia). lia.
Qed.

Lemma Zdigits2_pow2_le (p : positive) :
  2 ^ (Zdigits2 (Z.pos p) - 1) <= Z.pos p < 2 ^ Zdigits2 (Z.pos p).
Proof.
  rewrite Zdigits2_log2.
  replace (Z.log2 (Z.pos p) + 1 - 1) with (Z.log2 (Z.pos p)) by lia.
  replace (Z.log2 (Z.pos p) + 1) with (Z.succ (Z.log2 (Z.pos p))) by lia.
  apply Z.log2_spec. lia.
Qed.

Lemma fexp_le_0 (e : Z) : e <= 0 -> fexp prec emax e <= -53.
Proof. unfold fexp, emin, prec, emax. lia. Qed.

Lemma fexp_le_1 (e : Z) : e <= 1 -> fexp prec emax e <= -52.
Proof. unfold fexp, emin, prec, emax. lia. Qed.

Lemma iter_pos_nat {A : Type} (f : A -> A) (p : positive) :
  forall x, SpecFloat.iter_pos f p x = Nat.iter (Pos.to_nat p) f x.
Proof.
  induction p as [p IH|p IH|]; intros x; cbn [SpecFloat.iter_pos].
  - rewrite !IH, Pos2Nat.inj_xI.
    replace (S (2 * Pos.to_nat p)) with (Pos.to_nat p + (Pos.to_nat p + 1))%nat
      by lia.
    rewrite !Nat.iter_add. reflexivity.
  - rewrite !IH, Pos2Nat.inj_xO.
    replace (2 * Pos.to_nat p)%nat with (Pos.to_nat p + Pos.to_nat p)%nat
      by lia.
    rewrite Nat.iter_add. reflexivity.
  - reflexivity.
Qed.

Lemma shr_1_m (mrs : shr_record) :
  0 <= shr_m mrs -> shr_m (shr_1 mrs) = shr_m mrs / 2.
Proof.
  destruct mrs as [m r s]. cbn [shr_m shr_1]. intros Hm.
  destruct m as [|[p|p|]|p]; cbn [shr_m]; try lia; try reflexivity.
  - rewrite Pos2Z.inj_xI. Z.div_mod_to_equations. lia.
  - rewrite Pos2Z.inj_xO. Z.div_mod_to_equations. lia.
Qed.

Lemma shr_iter_m (n : nat) (mrs : shr_record) :
  0 <= shr_m mrs ->
  shr_m (Nat.iter n shr_1 mrs) = shr_m mrs / 2 ^ Z.of_nat n.
Proof.
  intros Hm. induction n as [|n IH].
  - cbn. now rewrite Z.div_1_r.
  - rewrite Nat.iter_succ, shr_1_m.
    + rewrite IH, Z.div_div by
        (try apply Z.pow_nonzero; try apply Z.pow_pos_nonneg; lia).
      rewrite Nat2Z.inj_succ, Z.pow_succ_r by lia. f_equal. lia.
    + rewrite IH. apply Z.div_pos; [lia|]. apply Z.pow_pos_nonneg; lia.
Qed.

Lemma shr_fexp_m (m e : Z) (l : location) :
  0 <= m ->
  exists mrs e2,
    shr_fexp prec emax m e l = (mrs, e2) /\
    e2 = Z.max e (fexp prec emax (Zdigits2 m + e)) /\
    shr_m mrs = m / 2 ^ (e2 - e).
Proof.
  intros Hm. unfold shr_fexp, shr.
  assert (Hrec : shr_m (shr_record_of_loc m l) = m)
    by (destruct l as [|[]]; reflexivity).
  destruct (fexp prec emax (Zdigits2 m + e) - e) as [|n|n] eqn:En.
  - eexists _, _. split; [reflexivity|]. split; [lia|].
    replace (e - e) with 0 by lia. now rewrite Hrec, Z.div_1_r.
  - eexists _, _. split; [reflexivity|]. split; [lia|].
    rewrite iter_pos_nat, shr_iter_m by (rewrite Hrec; exact Hm).
    rewrite Hrec, positive_nat_Z. f_equal. f_equal. lia.
  - eexists _, _. split; [reflexivity|]. split; [lia|].
    replace (e - e) with 0 by lia. now rewrite Hrec, Z.div_1_r.
Qed.

Lemma round_nearest_even_bounds (m : Z) (l : location) :
  m <= round_nearest_even m l <= m + 1.
Proof.
  unfold round_nearest_even. destruct l as [|[]]; try lia.
  destruct (Z.even m); lia.
Qed.

Lemma leb_c1_finite_eq (m : positive) :
  (m ?= 4503599627370496)%positive <> Gt ->
  leb (S754_finite false m (-52)) c1 = true.
Proof.
  intros Hm. unfold leb, SFleb, c1. cbn [SFcompare].
  change (-52 ?= -52) with Eq. cbv iota.
  rewrite Pos.compare_cont_spec. cbn [Pos.switch_Eq].
  destruct (m ?= 4503599627370496)%positive; try reflexivity.
  now contradiction Hm.
Qed.

Lemma leb_c1_finite (m : positive) (e : Z) :
  e <= -52 -> Z.pos m <= 2 ^ (- e) -> leb (S754_finite false m e) c1 = true.
Proof.
  intros He Hm. destruct (Z.eq_dec e (-52)) as [->|Hne].
  - apply leb_c1_finite_eq.
    change (2 ^ (- -52)) with 4503599627370496 in Hm.
    unfold Z.le in Hm. rewrite <- Pos2Z.inj_compare in Hm. exact Hm.
  - assert (Hlt : (e ?= -52) = Lt) by (apply Z.compare_lt_iff; lia).
    unfold leb, SFleb, c1. cbn [SFcompare]. now rewrite Hlt.
Qed.

Lemma binary_round_aux_unit (q e : Z) (l : location) :
  0 <= q < 2 ^ (- e) -> e <= -52 ->
  leb c0 (binary_round_aux prec emax false q e l) = true /\
  leb (binary_round_aux prec emax false q e l) c1 = true.
Proof.
  intros [Hq0 Hq] He. unfold binary_round_aux.
  destruct (shr_fexp_m q e l Hq0) as (mrs1 & e1 & -> & He1 & Hm1).
  assert (Hd : Zdigits2 q <= - e) by (apply Zdigits2_lt_pow2; lia).
  assert (He1' : e1 <= -52).
  { pose proof (fexp_le_0 (Zdigits2 q + e)). lia. }
  assert (Hpow : 2 ^ (- e) = 2 ^ (e1 - e) * 2 ^ (- e1))
    by (rewrite <- Z.pow_add_r by lia; f_equal; lia).
  assert (Hp1 : 0 < 2 ^ (e1 - e)) by (apply Z.pow_pos_nonneg; lia).
  assert (Hm1b : 0 <= shr_m mrs1 < 2 ^ (- e1)).
  { rewrite Hm1. split; [apply Z.div_pos; lia|].
    apply Z.div_lt_upper_bound; lia. }
  pose proof (round_nearest_even_bounds (shr_m mrs1)
                (loc_of_shr_record mrs1)) as Hr.
  set (m1 := round_nearest_even (shr_m mrs1) (loc_of_shr_record mrs1)) in *.
  assert (Hm1' : 0 <= m1 <= 2 ^ (- e1)) by lia.
  destruct (shr_fexp_m m1 e1 loc_Exact (proj1 Hm1'))
    as (mrs2 & e2 & -> & He2 & Hm2).
  assert (Hd1 : Zdigits2 m1 <= - e1 + 1) by (apply Zdigits2_le_pow2; lia).
  assert (He2' : e2 <= -52).
  { pose proof (fexp_le_1 (Zdigits2 m1 + e1)). lia. }
  assert (Hpow2 : 2 ^ (- e1) = 2 ^ (e2 - e1) * 2 ^ (- e2))
    by (rewrite <- Z.pow_add_r by lia; f_equal; lia).
  assert (Hp2 : 0 < 2 ^ (e2 - e1)) by (apply Z.pow_pos_nonneg; lia).
  assert (Hm2b : 0 <= shr_m mrs2 <= 2 ^ (- e2)).
  { rewrite Hm2. split; [apply Z.div_pos; lia|].
    apply Z.div_le_upper_bound; lia. }
  destruct (shr_m mrs2) as [|m2|m2]; [split; reflexivity | | lia].
  replace (e2 <=? emax - prec) with true
    by (symmetry; apply Z.leb_le; unfold emax, prec; lia).
  split; [reflexivity|].
  apply leb_c1_finite; [exact He2' | exact (proj2 Hm2b)].
Qed.

Lemma SFdiv_core_unit (mx my : positive) (ex ey : Z) :
  Z.pos mx * 2 ^ (ex - Z.min ex ey) < Z.pos my * 2 ^ (ey - Z.min ex ey) ->
  exists q e l,
    SFdiv_core_binary prec emax (Z.pos mx) ex (Z.pos my) ey = (q, e, l) /\
    0 <= q < 2 ^ (- e) /\ e <= -53.
Proof.
  intros Hlt. unfold SFdiv_core_binary. cbv zeta.
  set (d1 := Zdigits2 (Z.pos mx)). set (d2 := Zdigits2 (Z.pos my)).
  set (E := Z.min ex ey) in *.
  assert (Hmag : d1 + ex <= d2 + ey).
  { pose proof (Zdigits2_pow2_le mx) as [H1 _].
    pose proof (Zdigits2_pow2_le my) as [_ H2].
    fold d1 in H1. fold d2 in H2.
    assert (Hd1 : 1 <= d1) by (unfold d1; rewrite Zdigits2_log2;
                               pose proof (Z.log2_nonneg (Z.pos mx)); lia).
    assert (Hd2 : 1 <= d2) by (unfold d2; rewrite Zdigits2_log2;
                               pose proof (Z.log2_nonneg (Z.pos my)); lia).
    assert (Hex : 0 < 2 ^ (ex - E)) by (apply Z.pow_pos_nonneg; lia).
    assert (Hey : 0 < 2 ^ (ey - E)) by (apply Z.pow_pos_nonneg; lia).
    assert (Hlow : 2 ^ (d1 - 1 + (ex - E)) <= Z.pos mx * 2 ^ (ex - E)).
    { rewrite Z.pow_add_r by lia. apply Z.mul_le_mono_nonneg_r; lia. }
    assert (Hhigh : Z.pos my * 2 ^ (ey - E) < 2 ^ (d2 + (ey - E))).
    { rewrite Z.pow_add_r by lia. apply Z.mul_lt_mono_pos_r; lia. }
    assert (Hpow : 2 ^ (d1 - 1 + (ex - E)) < 2 ^ (d2 + (ey - E))) by lia.
    apply Z.pow_lt_mono_r_iff in Hpow; lia. }
  set (e' := Z.min (fexp prec emax (d1 + ex - (d2 + ey))) (ex - ey)).
  assert (He' : e' <= -53).
  { pose proof (fexp_le_0 (d1 + ex - (d2 + ey))). lia. }
  assert (He'' : e' <= ex - ey) by lia.
  set (s := ex - ey - e').
  match goal with
  | |- context [Z.div_eucl ?m _] => set (m' := m)
  end.
  assert (Hm' : m' = Z.pos mx * 2 ^ s).
  { unfold m'. assert (Hs : 0 <= s) by (unfold s; lia).
    destruct s as [|p|p] eqn:Es.
    - now rewrite Z.mul_1_r.
    - apply Z.shiftl_mul_pow2. lia.
    - lia. }
  destruct (Z.div_eucl m' (Z.pos my)) as [q r] eqn:Hdiv.
  assert (Hq : q = m' / Z.pos my) by (unfold Z.div; now rewrite Hdiv).
  exists q, e', (new_location (Z.pos my) r). split; [reflexivity|].
  split; [|exact He'].
  assert (Ht : 0 <= - e' - (ey - E)) by lia.
  assert (Hpt : 0 < 2 ^ (- e' - (ey - E))) by (apply Z.pow_pos_nonneg; lia).
  assert (Hs : 2 ^ s = 2 ^ (ex - E) * 2 ^ (- e' - (ey - E))).
  { rewrite <- Z.pow_add_r by lia. f_equal. unfold s. lia. }
  assert (He : 2 ^ (- e') = 2 ^ (ey - E) * 2 ^ (- e' - (ey - E))).
  { rewrite <- Z.pow_add_r by lia. f_equal. lia. }
  assert (Hm'pos : 0 <= m').
  { rewrite Hm'. apply Z.mul_nonneg_nonneg; [lia|].
    apply Z.pow_nonneg. lia. }
  rewrite Hq. split; [apply Z.div_pos; lia|].
  apply Z.div_lt_upper_bound; [lia|].
  rewrite Hm', Hs, He, !Z.mul_assoc.
  apply Z.mul_lt_mono_pos_r; [exact Hpt | exact Hlt].
Qed.

Lemma SFdiv_same (m : positive) (e : Z) :
  div (S754_finite false m e) (S754_finite false m e) = c1.
Proof.
  unfold div, SFdiv, SFdiv_core_binary. cbv zeta.
  replace (Zdigits2 (Z.pos m) + e - (Zdigits2 (Z.pos m) + e)) with 0 by lia.
  replace (e - e) with 0 by lia.
  change (Z.min (fexp prec emax 0) 0) with (-53).
  change (0 - -53) with 53. cbv iota.
  rewrite Z.shiftl_mul_pow2 by lia.
  destruct (Z.div_eucl (Z.pos m * 2 ^ 53) (Z.pos m)) as [q r] eqn:Hdiv.
  assert (Hq : q = 2 ^ 53).
  { transitivity (Z.pos m * 2 ^ 53 / Z.pos m);
      [unfold Z.div; now rewrite Hdiv|].
    rewrite Z.mul_comm. apply Z.div_mul. lia. }
  assert (Hr : r = 0).
  { transitivity ((Z.pos m * 2 ^ 53) mod Z.pos m);
      [unfold Z.modulo; now rewrite Hdiv|].
    rewrite Z.mul_comm. apply Z.mod_mul. lia. }
  subst q r.
  replace (new_location (Z.pos m) 0) with loc_Exact
    by (unfold new_location, new_location_even, new_location_odd;
        destruct (Z.even (Z.pos m)); reflexivity).
  vm_compute. reflexivity.
Qed.

Lemma iter_xO (k p : positive) :
  Z.pos (Pos.iter xO k p) = Z.pos k * 2 ^ Z.pos p /\
  digits2_pos (Pos.iter xO k p) = (digits2_pos k + p)%positive.
Proof.
  induction p as [|p [IH1 IH2]] using Pos.peano_ind.
  - cbn [Pos.iter]. split; [rewrite Pos2Z.inj_xO; lia|].
    cbn [digits2_pos]. now rewrite Pos.add_1_r.
  - rewrite Pos.iter_succ. split.
    + rewrite Pos2Z.inj_xO, IH1, Pos2Z.inj_succ, Z.pow_succ_r by lia. lia.
    + cbn [digits2_pos]. now rewrite IH2, Pos.add_succ_r.
Qed.

Lemma binary_round_aux_canonical (mz : positive) (ez : Z) :
  Zdigits2 (Z.pos mz) = 53 -> -1074 <= ez <= 971 ->
  binary_round_aux prec emax false (Z.pos mz) ez loc_Exact
  = S754_finite false mz ez.
Proof.
  intros Hd Hez. unfold binary_round_aux, shr_fexp. rewrite Hd.
  replace (fexp prec emax (53 + ez) - ez) with 0
    by (unfold fexp, emin, prec, emax; lia).
  cbn [shr shr_record_of_loc loc_of_shr_record round_nearest_even shr_m].
  rewrite Hd.
  replace (fexp prec emax (53 + ez) - ez) with 0
    by (unfold fexp, emin, prec, emax; lia).
  cbn [shr shr_record_of_loc shr_m].
  replace (ez <=? emax - prec) with true
    by (symmetry; apply Z.leb_le; unfold emax, prec; lia).
  reflexivity.
Qed.

Lemma of_Z_exact (k : positive) :
  Z.pos k < 2 ^ 53 ->
  exists m e,
    of_Z (Z.pos k) = S754_finite false m e /\ e <= 0 /\
    Z.pos m = Z.pos k * 2 ^ (- e).
Proof.
  intros Hk. unfold of_Z, binary_normalize, binary_round.
  pose proof (Zdigits2_log2 k) as Hd. cbn [Zdigits2] in Hd.
  assert (Hd53 : Z.pos (digits2_pos k) <= 53).
  { change (Z.pos (digits2_pos k)) with (Zdigits2 (Z.pos k)).
    apply Zdigits2_lt_pow2; lia. }
  replace (fexp prec emax (Z.pos (digits2_pos k) + 0))
    with (Z.pos (digits2_pos k) - 53)
    by (unfold fexp, emin, prec, emax; lia).
  unfold shl_align.
  destruct (Z.pos (digits2_pos k) - 53 - 0) as [|p|p] eqn:Ep; [|lia|].
  - exists k, 0. split; [|split; [lia|cbn; lia]].
    apply binary_round_aux_canonical; [|lia]. cbn [Zdigits2]. lia.
  - destruct (iter_xO k p) as [Hv Hdig].
    exists (Pos.iter xO k p), (Z.pos (digits2_pos k) - 53).
    split; [|split; [lia|]].
    + apply binary_round_aux_canonical; [|lia].
      cbn [Zdigits2]. rewrite Hdig, Pos2Z.inj_add. lia.
    + rewrite Hv. f_equal. f_equal. lia.
Qed.

Lemma leb_c0_c1 : leb c0 c1 = true /\ leb c1 c1 = true.
Proof. split; vm_compute; reflexivity. Qed.

Lemma div_of_Z_unit (k n : Z) :
  0 <= k <= n -> 0 < n < 2 ^ 53 ->
  leb c0 (div (of_Z k) (of_Z n)) = true /\
  leb (div (of_Z k) (of_Z n)) c1 = true.
Proof.
  intros [Hk Hkn] [Hn Hn53].
  destruct n as [|n|n]; [lia | | lia].
  destruct (of_Z_exact n Hn53) as (mn & en & Hofn & Hen & Hvn).
  destruct k as [|k|k]; [| | lia].
  - rewrite Hofn. split; reflexivity.
  - destruct (Z.eq_dec (Z.pos k) (Z.pos n)) as [Heq|Hne].
    + inversion Heq; subst k. rewrite Hofn, SFdiv_same. exact leb_c0_c1.
    + destruct (of_Z_exact k ltac:(lia)) as (mk & ek & Hofk & Hek & Hvk).
      rewrite Hofk, Hofn. unfold div, SFdiv.
      destruct (SFdiv_core_unit mk mn ek en) as (q & e & l & -> & Hq & He).
      { set (E := Z.min ek en).
        assert (HE : 0 <= - E) by (unfold E; lia).
        assert (Hp : 0 < 2 ^ (- E)) by (apply Z.pow_pos_nonneg; lia).
        rewrite Hvk, Hvn, <- !Z.mul_assoc, <- !Z.pow_add_r by lia.
        replace (- ek + (ek - E)) with (- E) by lia.
        replace (- en + (en - E)) with (- E) by lia.
        apply Z.mul_lt_mono_pos_r; lia. }
      cbn [xorb]. apply binary_round_aux_unit; [exact Hq | lia].
Qed.

Lemma of_ratio_unit (a : Z) (d : positive) :
  0 <= a <= Z.pos d ->
  leb c0 (of_ratio a d) = true /\ leb (of_ratio a d) c1 = true /\
  is_infinite (of_ratio a d) = false.
Proof.
  intros [Ha Had].
  assert (Hfin : forall x, leb c0 x = true -> leb x c1 = true ->
                           is_infinite x = false).
  { intros [s|[]| |s m e]; try reflexivity;
      unfold leb, SFleb, c0, c1; cbn [SFcompare]; discriminate. }
  destruct a as [|a|a]; [repeat split; reflexivity | | lia].
  cbn [of_ratio].
  assert (H : leb c0 (div (S754_finite false a 0) (S754_finite false d 0))
              = true /\
              leb (div (S754_finite false a 0) (S754_finite false d 0)) c1
              = true).
  { destruct (Z.eq_dec (Z.pos a) (Z.pos d)) as [Heq|Hne].
    - inversion Heq; subst a. rewrite SFdiv_same. exact leb_c0_c1.
    - unfold div, SFdiv.
      destruct (SFdiv_core_unit a d 0 0) as (q & e & l & -> & Hq & He).
      { change (0 - Z.min 0 0) with 0. change (2 ^ 0) with 1. lia. }
      cbn [xorb]. apply binary_round_aux_unit; [exact Hq | lia]. }
  destruct H as [H0 H1]. repeat split; [exact H0 | exact H1 |].
  now apply Hfin.
Qed.

(** *** Probabilities and rates stay in the unit interval *)

Lemma mean_bool_unit (x : list bool) :
  (0 < length x)%nat -> Z.of_nat (length x) < 2 ^ 53 ->
  in_unit_interval (np.mean_bool x).
Proof.
  intros Hpos Hlen. unfold np.mean_bool.
  pose proof (count_occ_bound bool_dec true x) as Hc.
  apply div_of_Z_unit; lia.
Qed.

Lemma neutral_in_unit_interval : in_unit_interval c0_5.
Proof. split; vm_compute; reflexivity. Qed.

Lemma bayes_prob_better_unit (suc_a tot_a suc_b tot_b sims : Z) (w : world) :
  1 <= sims -> sims < 2 ^ 53 ->
  exists p w',
    bayes_prob_better suc_a tot_a suc_b tot_b sims w = (Ok p, w') /\
    in_unit_interval p.
Proof.
  intros H1 H53.
  unfold bayes_prob_better, bayes_prob_better_body, try_except.
  unfold mbind, M_bind. rewrite random_beta_run.
  destruct (negb (np.fits_double (suc_a + 1)
                  && np.fits_double (tot_a - suc_a + 1)));
    [eexists _, _; split; [reflexivity | exact neutral_in_unit_interval]|].
  destruct (suc_a + 1 <=? 0);
    [eexists _, _; split; [reflexivity | exact neutral_in_unit_interval]|].
  destruct (tot_a - suc_a + 1 <=? 0);
    [eexists _, _; split; [reflexivity | exact neutral_in_unit_interval]|].
  destruct (sims <? 0);
    [eexists _, _; split; [reflexivity | exact neutral_in_unit_interval]|].
  rewrite random_beta_run.
  destruct (negb (np.fits_double (suc_b + 1)
                  && np.fits_double (tot_b - suc_b + 1)));
    [eexists _, _; split; [reflexivity | exact neutral_in_unit_interval]|].
  destruct (suc_b + 1 <=? 0);
    [eexists _, _; split; [reflexivity | exact neutral_in_unit_interval]|].
  destruct (tot_b - suc_b + 1 <=? 0);
    [eexists _, _; split; [reflexivity | exact neutral_in_unit_interval]|].
  destruct (sims <? 0);
    [eexists _, _; split; [reflexivity | exact neutral_in_unit_interval]|].
  unfold mret, M_ret. eexists _, _. split; [reflexivity|].
  assert (Hlen : forall w0 w1 : world,
             length (np.greater (draws w1 (Z.to_nat sims))
                                (draws w0 (Z.to_nat sims)))
             = Z.to_nat sims).
  { intros w0 w1. unfold np.greater, draws.
    rewrite length_zip_with, !length_map, !length_seq. lia. }
  apply mean_bool_unit; rewrite Hlen; lia.
Qed.

(** X20.  With at least one draw (and fewer than 2^53, so that the count
    is an exact float), the value [bayes_prob_better] returns is a
    probability: for all counts, sound or not, and every outcome of the
    sampler, [0 <= P <= 1]; never NaN, negative or above 1. *)
Theorem bayes_prob_better_unit_interval
    (suc_a tot_a suc_b tot_b sims : Z) (w : world) :
  1 <= sims -> sims < 2 ^ 53 ->
  exists p w',
    bayes_prob_better suc_a tot_a suc_b tot_b sims w = (Ok p, w') /\
    leb c0 p = true /\ leb p c1 = true.
Proof. apply bayes_prob_better_unit. Qed.

Lemma bayes_prob_better_unit_interval_witness :
  exists p w',
    bayes_prob_better 480 5000 520 5000 20000 (fresh_world tape_18000)
    = (Ok p, w') /\
    leb c0 p = true /\ leb p c1 = true.
Proof.
  apply (bayes_prob_better_unit_interval 480 5000 520 5000 20000);
    reflexivity || (intros H; discriminate H).
Defined.

Lemma analyze_experiment_probability (ph : MetricsClient) (key : atom)
    (spec : pyspec) (w : world) :
  exists r w',
    analyze_experiment ph key spec w = (Ok r, w') /\
    forall P, prob_treatment_better r = Some P ->
      exists suc_c tot_c suc_t tot_t w1 w2,
        bayes_prob_better suc_c tot_c suc_t tot_t default_sims w1
        = (Ok P, w2) /\
        r = rate_result (tot_c + tot_t) P.
Proof.
  unfold analyze_experiment, analyze_experiment_body, try_except.
  unfold mbind at 1, M_bind at 1. rewrite get_metric_counts_run.
  set (w1 := after_events w [EvGetMetricCounts key]).
  assert (Hnone : forall (r : DecisionResult) (w0 : world),
             prob_treatment_better r = None ->
             exists r' w',
               (Ok r, w0) = (Ok r', w') /\
               forall P, prob_treatment_better r' = Some P ->
                 exists suc_c tot_c suc_t tot_t w1 w2,
                   bayes_prob_better suc_c tot_c suc_t tot_t default_sims w1
                   = (Ok P, w2) /\
                   r' = rate_result (tot_c + tot_t) P).
  { intros r w0 Hr. exists r, w0. split; [reflexivity|].
    intros P HP. rewrite Hr in HP. discriminate HP. }
  destruct (metric_counts ph key) as [[[[suc_c tot_c] suc_t] tot_t]|e];
    [|now apply Hnone].
  unfold mbind at 1, M_bind at 1, lift at 1.
  destruct (spec_get spec "min_sample_size" (VAtom (AInt 2000)))
    as [min_sample_v|e]; [|now apply Hnone].
  unfold mbind at 1, M_bind at 1, lift at 1.
  destruct (int_operand_of_lt min_sample_v) as [min_sample|e];
    [|now apply Hnone].
  destruct (tot_c + tot_t <? min_sample); [now apply Hnone|].
  unfold mbind at 1, M_bind at 1, lift at 1.
  destruct (spec_get spec "primary_metric" (VDict ∅)) as [pm|e];
    [|now apply Hnone].
  unfold mbind at 1, M_bind at 1, lift at 1.
  destruct (val_get pm "type" (AStr "rate")) as [metric_type|e];
    [|now apply Hnone].
  destruct (decide (metric_type = AStr "rate")) as [Hrate|Hrate].
  - unfold mbind, M_bind.
    destruct (bayes_prob_better suc_c tot_c suc_t tot_t default_sims w1)
      as [[p|e] w2] eqn:Hb; [|now apply Hnone].
    unfold mret, M_ret.
    exists (rate_result (tot_c + tot_t) p), w2. split.
    + unfold rate_result. destruct (geb p c0_95); [reflexivity|].
      destruct (leb p c0_05); reflexivity.
    + intros P HP.
      assert (P = p) as ->.
      { unfold rate_result in HP. destruct (geb p c0_95);
          [now inversion HP|]. destruct (leb p c0_05); now inversion HP. }
      now exists suc_c, tot_c, suc_t, tot_t, w1, w2.
  - destruct (decide (metric_type = AStr "mean")) as [Hmean|Hmean];
      [|now apply Hnone].
    unfold mbind, M_bind.
    destruct ((if 0 <? tot_c then lift (py_truediv suc_c tot_c)
               else mret c0) w1) as [[cr|e] w2]; [|now apply Hnone].
    destruct ((if 0 <? tot_t then lift (py_truediv suc_t tot_t)
               else mret c0) w2) as [[tr|e] w3]; [|now apply Hnone].
    unfold mret, M_ret.
    destruct (gtb tr (mul cr c1_1)); [now apply Hnone|].
    destruct (ltb tr (mul cr c0_9)); now apply Hnone.
Qed.

(** X21.  Whatever [analyze_experiment] reports as
    [prob_treatment_better] is a probability: for every metrics source,
    key, specification and world, if the result carries a value [P] then
    [0 <= P <= 1], and the result is the one the rate rule gives for [P];
    a [ship_treatment] then has confidence [P], itself at most 1. *)
Theorem analyze_probability_unit_interval (ph : MetricsClient) (key : atom)
    (spec : pyspec) (w : world) :
  exists r w',
    analyze_experiment ph key spec w = (Ok r, w') /\
    forall P, prob_treatment_better r = Some P ->
      leb c0 P = true /\ leb P c1 = true /\
      r = rate_result (sample_size r) P /\
      (decision r = "ship_treatment" -> confidence r = P).
Proof.
  destruct (analyze_experiment_probability ph key spec w)
    as (r & w' & Hrun & HP).
  exists r, w'. split; [exact Hrun|]. intros P Hsome.
  destruct (HP P Hsome)
    as (suc_c & tot_c & suc_t & tot_t & w1 & w2 & Hb & ->).
  destruct (bayes_prob_better_unit suc_c tot_c suc_t tot_t default_sims w1)
    as (p & w2' & Hb' & Hp0 & Hp1);
    [unfold default_sims; lia | reflexivity |].
  rewrite Hb in Hb'. inversion Hb'; subst p w2'.
  split; [exact Hp0|]. split; [exact Hp1|]. split.
  - unfold rate_result. destruct (geb P c0_95); [reflexivity|].
    destruct (leb P c0_05); reflexivity.
  - intros Hd. apply rate_result_ship_treatment in Hd.
    unfold rate_result. now rewrite Hd.
Qed.

Lemma rate_or_zero_unit (suc tot : Z) :
  0 <= suc <= tot ->
  exists r, rate_or_zero suc tot = Ok r /\ in_unit_interval r.
Proof.
  intros [H0 H1]. unfold rate_or_zero.
  destruct (Z.ltb_spec 0 tot) as [Hpos|Hneg].
  - destruct tot as [|q|q]; [lia | | lia]. cbn [py_truediv].
    destruct (of_ratio_unit suc q (conj H0 H1)) as (Ha & Hb & ->).
    eexists. split; [reflexivity|]. now split.
  - exists c0. split; [reflexivity|]. split; reflexivity.
Qed.

(** X22.  For sound counts ([0 <= suc <= tot] in both arms) the mean
    branch cannot fail: past the gate and with metric type "mean" both
    rates exist and lie in [[0, 1]] (no division by zero, no overflow, 0
    for an arm without observations), and [analyze_experiment] returns one
    of the three outcomes of the rate comparison, never the "Analysis
    error" result. *)
Theorem mean_branch_sound_counts (ph : MetricsClient) (key : atom)
    (spec : pyspec) (w : world) (suc_c tot_c suc_t tot_t min_sample : Z)
    (pm : pyval) :
  metric_counts ph key = Ok (suc_c, tot_c, suc_t, tot_t) ->
  spec_get spec "min_sample_size" (VAtom (AInt 2000))
  = Ok (VAtom (AInt min_sample)) ->
  min_sample <= tot_c + tot_t ->
  spec_get spec "primary_metric" (VDict ∅) = Ok pm ->
  val_get pm "type" (AStr "rate") = Ok (AStr "mean") ->
  0 <= suc_c <= tot_c -> 0 <= suc_t <= tot_t ->
  exists control_rate treatment_rate r,
    rate_or_zero suc_c tot_c = Ok control_rate /\
    rate_or_zero suc_t tot_t = Ok treatment_rate /\
    leb c0 control_rate = true /\ leb control_rate c1 = true /\
    leb c0 treatment_rate = true /\ leb treatment_rate c1 = true /\
    analyze_experiment ph key spec w
    = (Ok r, after_events w [EvGetMetricCounts key]) /\
    mean_branch_reason (reason r) /\
    sample_size r = tot_c + tot_t.
Proof.
  intros Hc Hm Hge Hpm Hty Hsc Hst.
  destruct (rate_or_zero_unit suc_c tot_c Hsc) as (cr & Hcr & Hc0 & Hc1).
  destruct (rate_or_zero_unit suc_t tot_t Hst) as (tr & Htr & Ht0 & Ht1).
  exists cr, tr.
  unfold analyze_experiment, try_except.
  rewrite (analyze_body_past_gate ph key spec w _ _ _ _ _ Hc Hm
             (AStr "mean") Hge (ex_intro _ pm (conj Hpm Hty))).
  rewrite decide_False by discriminate.
  rewrite decide_True by reflexivity.
  unfold mbind, M_bind.
  replace ((if 0 <? tot_c then lift (py_truediv suc_c tot_c) else mret c0)
             (after_events w [EvGetMetricCounts key]))
    with (Ok cr, after_events w [EvGetMetricCounts key])
    by (unfold rate_or_zero in Hcr; destruct (0 <? tot_c);
        unfold lift, mret, M_ret; [now rewrite Hcr | now inversion Hcr]).
  replace ((if 0 <? tot_t then lift (py_truediv suc_t tot_t) else mret c0)
             (after_events w [EvGetMetricCounts key]))
    with (Ok tr, after_events w [EvGetMetricCounts key])
    by (unfold rate_or_zero in Htr; destruct (0 <? tot_t);
        unfold lift, mret, M_ret; [now rewrite Htr | now inversion Htr]).
  unfold mret, M_ret, mean_branch_reason.
  destruct (gtb tr (mul cr c1_1));
    [|destruct (ltb tr (mul cr c0_9))];
    (eexists; repeat (split; [first [assumption | reflexivity]|]);
     cbn [reason sample_size]; split; [tauto | reflexivity]).
Qed.

Lemma mean_branch_sound_counts_witness :
  exists control_rate treatment_rate r,
    rate_or_zero 100 5000 = Ok control_rate /\
    rate_or_zero 200 5000 = Ok treatment_rate /\
    leb c0 control_rate = true /\ leb control_rate c1 = true /\
    leb c0 treatment_rate = true /\ leb treatment_rate c1 = true /\
    analyze_experiment (fixed_counts 100 5000 200 5000) checkout_key
      mean_spec (fresh_world (fun _ => c0_5))
    = (Ok r, after_events (fresh_world (fun _ => c0_5))
               [EvGetMetricCounts checkout_key]) /\
    mean_branch_reason (reason r) /\
    sample_size r = 5000 + 5000.
Proof.
  refine (mean_branch_sound_counts (fixed_counts 100 5000 200 5000)
            checkout_key mean_spec (fresh_world (fun _ => c0_5))
            100 5000 200 5000 2000 (VDict {[ "type" := AStr "mean" ]})
            eq_refl eq_refl _ eq_refl eq_refl _ _); lia.
Defined.

(** *** Slack: bot first, webhook as fallback *)

Lemma env_set_some (v : option string) (s : string) :
  v = Some s -> env_set v = true -> s <> "".
Proof. intros -> H ->. discriminate H. Qed.

Lemma send_bot_message_cases (s : SlackSettings) (http : HttpClient)
    (message : string) (channel : option string) (calls : list HttpCall) :
  (_send_bot_message s http message channel calls = (false, calls) /\
   (env_set (bot_token s) = false \/
    env_set (channel_or channel (channel_approvals s)) = false)) \/
  (exists token ch sent,
      bot_token s = Some token /\ env_set (bot_token s) = true /\
      channel_or channel (channel_approvals s) = Some ch /\
      _send_bot_message s http message channel calls
      = (sent, (calls ++ [PostChat token ch message])%list) /\
      (sent = true <-> delivered http (PostChat token ch message))).
Proof.
  unfold _send_bot_message.
  destruct (bot_token s) as [[|c t]|] eqn:Ht;
    [left; split; [reflexivity | now left] | |
     left; split; [reflexivity | now left]].
  destruct (channel_or channel (channel_approvals s)) as [[|c' ch]|] eqn:Hc;
    [left; split; [reflexivity | now right] | |
     left; split; [reflexivity | now right]].
  right. exists (String c t), (String c' ch).
  unfold delivered.
  destruct (http (PostChat (String c t) (String c' ch) message))
    as [reply|e] eqn:Hh.
  - destruct (raise_for_status reply) as [e|] eqn:Hs.
    + exists false. repeat split; try discriminate.
      intros (reply' & Heq & Hst & _). congruence.
    + destruct (json_ok reply) as [[]|e] eqn:Hj.
      * exists true. repeat split. now exists reply.
      * exists false. repeat split; try discriminate.
        intros (reply' & Heq & _ & Hok). congruence.
      * exists false. repeat split; try discriminate.
        intros (reply' & Heq & _ & Hok). congruence.
  - exists false. repeat split; try discriminate.
    intros (reply' & Heq & _). congruence.
Qed.

Lemma send_webhook_message_cases (s : SlackSettings) (http : HttpClient)
    (message : string) (channel : option string) (calls : list HttpCall) :
  (_send_webhook_message s http message channel calls = (false, calls) /\
   env_set (webhook_url s) = false) \/
  (exists url sent,
      webhook_url s = Some url /\ env_set (webhook_url s) = true /\
      _send_webhook_message s http message channel calls
      = (sent, (calls ++ [PostWebhook url message
                            (channel_or channel (channel_approvals s))])%list)
      /\
      (sent = true
       <-> delivered http (PostWebhook url message
                             (channel_or channel (channel_approvals s))))).
Proof.
  unfold _send_webhook_message.
  destruct (webhook_url s) as [[|c u]|] eqn:Hu;
    [left; now split | | left; now split].
  right. exists (String c u). unfold delivered.
  destruct (http (PostWebhook (String c u) message
                    (channel_or channel (channel_approvals s))))
    as [reply|e] eqn:Hh.
  - destruct (raise_for_status reply) as [e|] eqn:Hs.
    + exists false. repeat split; try discriminate.
      intros (reply' & Heq & Hst & _). congruence.
    + exists true. repeat split. now exists reply.
  - exists false. repeat split; try discriminate.
    intros (reply' & Heq & _). congruence.
Qed.

(** X23.  [send_message] never raises and makes at most two posts, in this
    order: a chat post with the bot token, made only when a token and a
    channel are set, and a webhook post, made only when a webhook URL is
    set and the chat post was not made or not delivered.  It returns
    [True] exactly when one of the posts it made was delivered (transport
    and status fine, and for the chat post a body with a true [ok]). *)
Theorem send_message_delivery (s : SlackSettings) (http : HttpClient)
    (message : string) (channel : option string) (calls : list HttpCall) :
  exists bot hook,
    snd (send_message s http message channel calls)
    = (calls ++ bot ++ hook)%list /\
    (bot = [] \/
     exists token ch,
       bot = [PostChat token ch message] /\ bot_token s = Some token /\
       channel_or channel (channel_approvals s) = Some ch /\
       token <> "" /\ ch <> "") /\
    (hook = [] \/
     exists url,
       hook = [PostWebhook url message
                 (channel_or channel (channel_approvals s))] /\
       webhook_url s = Some url /\ url <> "" /\
       forall call, call ∈ bot -> ~ delivered http call) /\
    (fst (send_message s http message channel calls) = true
     <-> exists call, call ∈ (bot ++ hook)%list /\ delivered http call).
Proof.
  unfold send_message.
  destruct (send_bot_message_cases s http message channel calls)
    as [[Hb Hwhy]|(token & ch & sent & Ht & Hts & Hc & Hb & Hsent)];
    rewrite Hb.
  - destruct (send_webhook_message_cases s http message channel calls)
      as [[Hw Hu]|(url & sent & Hu & Hus & Hw & Hsent)]; rewrite Hw.
    + exists [], []. cbn [fst snd]. rewrite !app_nil_r.
      split; [reflexivity|]. split; [now left|]. split; [now left|].
      split; [discriminate|]. intros (call & Hin & _).
      now apply elem_of_nil in Hin.
    + exists [], [PostWebhook url message
                    (channel_or channel (channel_approvals s))].
      cbn [fst snd app]. split; [reflexivity|]. split; [now left|].
      split.
      { right. exists url. split; [reflexivity|]. split; [exact Hu|].
        split; [exact (env_set_some _ _ Hu Hus)|].
        intros call Hin. now apply elem_of_nil in Hin. }
      rewrite Hsent. split.
      * intros Hd. eexists. split; [apply list_elem_of_singleton; reflexivity|].
        exact Hd.
      * intros (call & Hin & Hd). apply list_elem_of_singleton in Hin.
        now subst call.
  - assert (Htok : token <> "" /\ ch <> "").
    { split.
      - exact (env_set_some _ _ Ht Hts).
      - pose proof (env_set_some _ _ Ht Hts) as Hne.
        unfold _send_bot_message in Hb. rewrite Ht, Hc in Hb.
        destruct token as [|c t]; [contradiction|].
        destruct ch as [|c' ch']; [|discriminate].
        inversion Hb as [[Hs Hcalls]].
        apply (f_equal (@length HttpCall)) in Hcalls.
        rewrite length_app in Hcalls. cbn in Hcalls. lia. }
    destruct sent.
    + exists [PostChat token ch message], []. cbn [fst snd].
      rewrite app_nil_r. split; [reflexivity|].
      split; [right; exists token, ch; tauto|]. split; [now left|].
      split; [|reflexivity]. intros _. eexists.
      split; [apply list_elem_of_singleton; reflexivity|].
      now apply Hsent.
    + assert (Hnd : ~ delivered http (PostChat token ch message))
        by (intros Hd; apply Hsent in Hd; discriminate Hd).
      destruct (send_webhook_message_cases s http message channel
                  (calls ++ [PostChat token ch message])%list)
        as [[Hw Hu]|(url & sent & Hu & Hus & Hw & Hsent')]; rewrite Hw.
      * exists [PostChat token ch message], []. cbn [fst snd].
        rewrite app_nil_r. split; [reflexivity|].
        split; [right; exists token, ch; tauto|]. split; [now left|].
        split; [discriminate|]. intros (call & Hin & Hd).
        apply list_elem_of_singleton in Hin. subst call. contradiction.
      * exists [PostChat token ch message],
               [PostWebhook url message
                  (channel_or channel (channel_approvals s))].
        cbn [fst snd]. rewrite <- app_assoc.
        split; [reflexivity|].
        split; [right; exists token, ch; tauto|].
        split.
        { right. exists url. split; [reflexivity|]. split; [exact Hu|].
          split; [exact (env_set_some _ _ Hu Hus)|].
          intros call Hin. apply list_elem_of_singleton in Hin.
          now subst call. }
        rewrite Hsent'. split.
        -- intros Hd. eexists. split; [|exact Hd].
           apply elem_of_app. right. apply list_elem_of_singleton.
           reflexivity.
        -- intros (call & Hin & Hd). apply elem_of_app in Hin.
           destruct Hin as [Hin|Hin]; apply list_elem_of_singleton in Hin;
             subst call; [contradiction | exact Hd].
Qed.

(** X24.  A delivered chat post ends [send_message]: when the bot token
    and a channel are set and the chat post is delivered, the result is
    [True] and the webhook is not posted to, even if one is configured. *)
Theorem send_message_bot_short_circuits (s : SlackSettings)
    (http : HttpClient) (message : string) (channel : option string)
    (calls : list HttpCall) (token ch : string) :
  bot_token s = Some token -> token <> "" ->
  channel_or channel (channel_approvals s) = Some ch -> ch <> "" ->
  delivered http (PostChat token ch message) ->
  send_message s http message channel calls
  = (true, (calls ++ [PostChat token ch message])%list).
Proof.
  intros Ht Htne Hc Hcne (reply & Hh & Hs & Hj).
  unfold send_message, _send_bot_message. rewrite Ht, Hc.
  destruct token as [|c t]; [contradiction|].
  destruct ch as [|c' ch]; [contradiction|].
  now rewrite Hh, Hs, Hj.
Qed.

Lemma send_message_bot_short_circuits_witness :
  send_message full_settings http_ok "done" None []
  = (true, ([] ++ [PostChat "xoxb-1" "#approvals" "done"])%list).
Proof.
  apply (send_message_bot_short_circuits full_settings http_ok "done" None []
           "xoxb-1" "#approvals").
  - reflexivity.
  - discriminate.
  - reflexivity.
  - discriminate.
  - eexists. repeat split.
Defined.

(** *** PostHog: aggregating events *)

Lemma get_events_cases (api : PostHogApi) (event : atom)
    (start_date end_date : string) (filters : option EventFilters) :
  let params := {| event_name := event; date_from := start_date;
                   date_to := end_date; limit := 10000;
                   properties := filters |} in
  match _make_request api "events" params with
  | None => get_events api event start_date end_date filters = Ok (JList [])
  | Some response =>
      if json_truthy response
      then get_events api event start_date end_date filters
           = json_get response "results" (JList [])
      else get_events api event start_date end_date filters = Ok (JList [])
  end.
Proof.
  cbv zeta. unfold get_events.
  destruct (_make_request api "events" _) as [response|]; [|reflexivity].
  destruct (json_truthy response); reflexivity.
Qed.

(** X25.  [get_events] turns a failed request into "no events": when
    [_make_request] returns [None] (it does so for every exception), or a
    falsy body (an empty object or array, [null], 0), the result is the
    empty list.  A truthy body that is no object (a non-empty array, a
    string, a number) makes [get_events] raise [AttributeError], which
    nothing in it catches; an object without "results" gives the empty
    list. *)
Theorem get_events_degrades (api : PostHogApi) (event : atom)
    (start_date end_date : string) (filters : option EventFilters) :
  let params := {| event_name := event; date_from := start_date;
                   date_to := end_date; limit := 10000;
                   properties := filters |} in
  (_make_request api "events" params = None ->
   get_events api event start_date end_date filters = Ok (JList [])) /\
  (forall response,
      _make_request api "events" params = Some response ->
      json_truthy response = false ->
      get_events api event start_date end_date filters = Ok (JList [])) /\
  (forall response,
      _make_request api "events" params = Some response ->
      json_truthy response = true ->
      (forall d, response <> JDict d) ->
      get_events api event start_date end_date filters
      = Raise (AttributeError ("'" ++ json_type_name response
                               ++ "' object has no attribute 'get'"))) /\
  (forall d,
      _make_request api "events" params = Some (JDict d) ->
      (forall k v, (k, v) ∈ d -> k <> "results") ->
      get_events api event start_date end_date filters = Ok (JList [])).
Proof.
  cbv zeta. unfold get_events.
  split; [intros ->; reflexivity|].
  split; [intros response -> ->; reflexivity|].
  split.
  - intros response -> -> Hnd.
    destruct response; try reflexivity. now contradiction (Hnd d).
  - intros d -> Hno.
    destruct (json_truthy (JDict d)); [|reflexivity].
    cbn [json_get]. f_equal.
    assert (H : forall dflt, dict_get "results" d dflt = dflt).
    { induction d as [|[k v] d IH]; intros dflt; [reflexivity|].
      cbn [dict_get].
      destruct (String.eqb_spec "results" k) as [<-|Hne].
      - exfalso. apply (Hno "results" v); [left|reflexivity].
      - apply IH. intros k' v' Hin. apply (Hno k' v'). now right. }
    apply H.
Qed.

Lemma count_success_bounds (events : list json) (n : Z) :
  count_success events = Ok n -> 0 <= n <= Z.of_nat (length events).
Proof.
  revert n. induction events as [|e events IH]; intros n H;
    cbn [count_success] in H.
  - inversion H. cbn. lia.
  - destruct (json_get e "success" (JBool false)) as [v|x]; [|discriminate].
    destruct (count_success events) as [m|x]; [|discriminate].
    specialize (IH m eq_refl). inversion H; subst n.
    cbn [length]. destruct (json_truthy v); lia.
Qed.

Lemma count_success_dicts (events : list json) :
  Forall (fun e => exists d, e = JDict d) events ->
  exists n, count_success events = Ok n.
Proof.
  induction 1 as [|e events (d & ->) _ (n & IH)]; [now exists 0|].
  cbn [count_success json_get]. rewrite IH. eauto.
Qed.

Lemma rate_of_sound (suc count : Z) :
  0 <= suc <= count ->
  exists r, rate_of suc count = Ok r /\
    sound_arm {| total := count; success := suc; rate := r |}.
Proof.
  intros Hb. unfold rate_of, sound_arm. cbn [total success rate].
  destruct (Z.ltb_spec 0 count) as [Hpos|Hneg].
  - destruct (rate_or_zero_unit suc count Hb) as (f & Hf & Hunit).
    unfold rate_or_zero in Hf.
    rewrite (proj2 (Z.ltb_lt 0 count) Hpos) in Hf. rewrite Hf.
    eexists. split; [reflexivity|]. repeat split; try lia; apply Hunit.
  - eexists. split; [reflexivity|]. repeat split; lia.
Qed.

(** X26.  When both event requests come back as lists of objects,
    [get_experiment_metrics] does not raise, and for each arm: the total
    is the number of events, the successes are at most the total, and the
    rate is the int 0 for an arm without events and otherwise a float
    between 0 and 1 (no division by zero, no overflow).  The key, the
    metric and the period "start to end" are reported as given. *)
Theorem get_experiment_metrics_sound (api : PostHogApi)
    (experiment_key metric_name : atom) (days_back : Z)
    (control_events treatment_events : list json) :
  get_events api metric_name (strftime_days_ago api days_back)
    (strftime_days_ago api 0)
    (Some {| ab_variant := "control";
             filter_experiment_key := experiment_key |})
  = Ok (JList control_events) ->
  get_events api metric_name (strftime_days_ago api days_back)
    (strftime_days_ago api 0)
    (Some {| ab_variant := "treatment";
             filter_experiment_key := experiment_key |})
  = Ok (JList treatment_events) ->
  Forall (fun e => exists d, e = JDict d) control_events ->
  Forall (fun e => exists d, e = JDict d) treatment_events ->
  exists m,
    get_experiment_metrics api experiment_key metric_name days_back = Ok m /\
    total (control m) = Z.of_nat (length control_events) /\
    total (treatment m) = Z.of_nat (length treatment_events) /\
    count_success control_events = Ok (success (control m)) /\
    count_success treatment_events = Ok (success (treatment m)) /\
    sound_arm (control m) /\ sound_arm (treatment m) /\
    metrics_experiment_key m = experiment_key /\ metric m = metric_name /\
    period m = strftime_days_ago api days_back ++ " to "
               ++ strftime_days_ago api 0.
Proof.
  intros Hc Ht Hdc Hdt. unfold get_experiment_metrics. cbv zeta.
  rewrite Hc, Ht. cbn [json_len sum_success].
  destruct (count_success_dicts _ Hdc) as (sc & Hsc).
  destruct (count_success_dicts _ Hdt) as (st & Hst).
  rewrite Hsc, Hst.
  destruct (rate_of_sound sc _ (count_success_bounds _ _ Hsc))
    as (rc & Hrc & Hsound_c).
  destruct (rate_of_sound st _ (count_success_bounds _ _ Hst))
    as (rt & Hrt & Hsound_t).
  rewrite Hrc, Hrt. eexists. split; [reflexivity|].
  cbn [control treatment total success metrics_experiment_key metric period].
  repeat split; try reflexivity;
    first [apply Hsound_c | apply Hsound_t].
Qed.

Lemma get_experiment_metrics_sound_witness :
  exists m,
    get_experiment_metrics posthog_two_events checkout_key
      (AStr "checkout_completed") 7 = Ok m /\
    total (control m)
    = Z.of_nat (length [JDict [("success", JBool true)]; JDict []]) /\
    total (treatment m)
    = Z.of_nat (length [JDict [("success", JBool true)]; JDict []]) /\
    count_success [JDict [("success", JBool true)]; JDict []]
    = Ok (success (control m)) /\
    count_success [JDict [("success", JBool true)]; JDict []]
    = Ok (success (treatment m)) /\
    sound_arm (control m) /\ sound_arm (treatment m) /\
    metrics_experiment_key m = checkout_key /\
    metric m = AStr "checkout_completed" /\
    period m = strftime_days_ago posthog_two_events 7 ++ " to "
               ++ strftime_days_ago posthog_two_events 0.
Proof.
  apply (get_experiment_metrics_sound posthog_two_events checkout_key
           (AStr "checkout_completed") 7
           [JDict [("success", JBool true)]; JDict []]
           [JDict [("success", JBool true)]; JDict []]).
  - reflexivity.
  - reflexivity.
  - repeat constructor; eexists; reflexivity.
  - repeat constructor; eexists; reflexivity.
Defined.

(** X27.  When PostHog cannot be reached ([_make_request] returns [None]
    for every request), [get_experiment_metrics] does not fail for a
    look-back of 0 to 700000 days (the start date then exists on every
    clock that is not set before 1970): it reports both arms with no
    events, no successes and the int rate 0, which is what an experiment
    without data looks like. *)
Theorem get_experiment_metrics_unreachable (api : PostHogApi)
    (experiment_key metric_name : atom) (days_back : Z) :
  0 <= days_back <= 700000 ->
  (forall endpoint params, _make_request api endpoint params = None) ->
  get_experiment_metrics api experiment_key metric_name days_back
  = Ok {| control := empty_arm; treatment := empty_arm;
          metrics_experiment_key := experiment_key;
          metric := metric_name;
          period := strftime_days_ago api days_back ++ " to "
                    ++ strftime_days_ago api 0 |}.
Proof.
  intros _ Hdown. unfold get_experiment_metrics, get_events. cbv zeta.
  rewrite !Hdown. reflexivity.
Qed.

Lemma get_experiment_metrics_unreachable_witness :
  get_experiment_metrics posthog_down checkout_key
    (AStr "checkout_completed") 7
  = Ok {| control := empty_arm; treatment := empty_arm;
          metrics_experiment_key := checkout_key;
          metric := AStr "checkout_completed";
          period := strftime_days_ago posthog_down 7 ++ " to "
                    ++ strftime_days_ago posthog_down 0 |}.
Proof.
  apply (get_experiment_metrics_unreachable posthog_down).
  - lia.
  - intros endpoint params. reflexivity.
Defined.
